(** * Meeting booking agent: plan building, plan running, slot scheduling

    A shallow embedding of
      - [google_calendar_integration_openai.py]  (class GoogleCalendarAPIExecutor:
        the step executor and the free-slot scan), and
      - [meeting_booking_agent.py]  (class MeetingBookingMCPAgent: intent
        dispatch, plan builder, plan runner, response synthesizer),
    followed by the properties of the planning-and-execution pipeline.

    Conventions of the embedding.
      - A Python value of type [Any] is a [value] (the JSON fragment: None,
        bool, int, str, list, dict; floats do not occur in the modelled code).
        A [str] is a Rocq [string], one Rocq character per Python character.
      - A dict that is only looked up and updated by key ([params], a step
        result, the results mapping) is a [gmap string _]; a dict nested in a
        value keeps its insertion order as an association list.
      - A Python exception is an [exn]; code that may raise returns a [res].
        Only subclasses of [Exception] are modelled, which is what
        [except Exception] handles.
      - Calls to the Google services, the LLM, the clock and the console are
        functions on an abstract world [W]. The Python library functions
        that parse and print ISO-8601 text, fold case or compute [repr] are
        fields of [PyLib]. The texts of the interpreter's own exceptions
        follow CPython 3.11. *)

From Stdlib Require Import ZArith Lia Bool List Ascii String.
From Stdlib Require Import Sorted Permutation.
From stdpp Require Import base gmap strings list pretty.

Set Warnings "-register-all".
Open Scope string_scope.
Open Scope list_scope.
Open Scope Z_scope.

(** ** Python values and exceptions *)

Inductive value : Type :=
| VNone
| VBool (b : bool)
| VInt (z : Z)
| VStr (s : string)
| VList (l : list value)
| VDict (d : list (string * value)).

Inductive exn_class : Type :=
| KeyError
| IndexError
| TypeError
| AttributeError
| ValueError
| OtherError (name : string).

(** [exn_text e] is what [str(e)] returns. *)
Record exn : Type := Exn { exn_kind : exn_class; exn_text : string }.

Inductive res (A : Type) : Type :=
| Ret (a : A)
| Raise (e : exn).
Arguments Ret {A} a.
Arguments Raise {A} e.

Definition rbind {A B} (m : res A) (k : A -> res B) : res B :=
  match m with
  | Ret a => k a
  | Raise e => Raise e
  end.

Declare Scope res_scope.
Delimit Scope res_scope with res.
Notation "'let*' x := m 'in' k" := (rbind m (fun x => k))
  (at level 10, x name, m at level 100, k at level 200) : res_scope.

Definition type_name (v : value) : string :=
  match v with
  | VNone => "NoneType"
  | VBool _ => "bool"
  | VInt _ => "int"
  | VStr _ => "str"
  | VList _ => "list"
  | VDict _ => "dict"
  end.

(** Truth value testing ([if v:], [not v], [a and b]). *)
Definition truthy (v : value) : bool :=
  match v with
  | VNone => false
  | VBool b => b
  | VInt z => negb (Z.eqb z 0)
  | VStr s => negb (String.eqb s "")
  | VList l => match l with [] => false | _ => true end
  | VDict d => match d with [] => false | _ => true end
  end.

Definition dquote : string := String "034"%char EmptyString.

(** [repr] of a string key, as [KeyError] shows it. *)
Definition quote (s : string) : string := "'" +:+ s +:+ "'".

Definition key_error (k : string) : exn := Exn KeyError (quote k).

Definition attribute_error (v : value) (attr : string) : exn :=
  Exn AttributeError
      (quote (type_name v) +:+ " object has no attribute " +:+ quote attr).

Definition not_subscriptable (v : value) : exn :=
  Exn TypeError (quote (type_name v) +:+ " object is not subscriptable").

Definition not_iterable (v : value) : exn :=
  Exn TypeError (quote (type_name v) +:+ " object is not iterable").

Fixpoint assoc_get (k : string) (d : list (string * value)) : option value :=
  match d with
  | [] => None
  | (k', v) :: d' => if String.eqb k k' then Some v else assoc_get k d'
  end.

(** [v.get(k, dflt)] with a string literal [k]. *)
Definition py_get (v : value) (k : string) (dflt : value) : res value :=
  match v with
  | VDict d => Ret (default dflt (assoc_get k d))
  | _ => Raise (attribute_error v "get")
  end.

(** [v.get(k, dflt)] where the key [k] is itself a value: a list or a dict
    is unhashable, any other non-string key matches none of the string keys. *)
Definition py_get_key (v : value) (k : value) (dflt : value) : res value :=
  match v with
  | VDict d =>
      match k with
      | VStr s => Ret (default dflt (assoc_get s d))
      | VList _ | VDict _ =>
          Raise (Exn TypeError ("unhashable type: " +:+ quote (type_name k)))
      | _ => Ret dflt
      end
  | _ => Raise (attribute_error v "get")
  end.

(** [v[k]] with a string literal [k]. *)
Definition py_item (v : value) (k : string) : res value :=
  match v with
  | VDict d =>
      match assoc_get k d with
      | Some x => Ret x
      | None => Raise (key_error k)
      end
  | VList _ =>
      Raise (Exn TypeError "list indices must be integers or slices, not str")
  | VStr _ =>
      Raise (Exn TypeError "string indices must be integers, not 'str'")
  | _ => Raise (not_subscriptable v)
  end.

Definition string_chars (s : string) : list string :=
  (fun c => String c EmptyString) <$> list_ascii_of_string s.

(** [v[0]]. *)
Definition py_first (v : value) : res value :=
  match v with
  | VList l =>
      match l with
      | x :: _ => Ret x
      | [] => Raise (Exn IndexError "list index out of range")
      end
  | VStr s =>
      match string_chars s with
      | c :: _ => Ret (VStr c)
      | [] => Raise (Exn IndexError "string index out of range")
      end
  | VDict _ => Raise (Exn KeyError "0")
  | _ => Raise (not_subscriptable v)
  end.

(** What a [for] loop or a comprehension iterates over. *)
Definition py_iter (v : value) : res (list value) :=
  match v with
  | VList l => Ret l
  | VStr s => Ret (VStr <$> string_chars s)
  | VDict d => Ret ((fun kv => VStr kv.1) <$> d)
  | _ => Raise (not_iterable v)
  end.

(** [len(v)]. *)
Definition py_len (v : value) : res Z :=
  match v with
  | VList l => Ret (Z.of_nat (length l))
  | VStr s => Ret (Z.of_nat (String.length s))
  | VDict d => Ret (Z.of_nat (length d))
  | _ => Raise (Exn TypeError
                  ("object of type " +:+ quote (type_name v) +:+ " has no len()"))
  end.

Definition int_of (v : value) : option Z :=
  match v with
  | VInt z => Some z
  | VBool b => Some (if b then 1 else 0)
  | _ => None
  end.

(** [a + b]. *)
Definition py_add (a b : value) : res value :=
  match a, b with
  | VList l1, VList l2 => Ret (VList (l1 ++ l2))
  | VStr s1, VStr s2 => Ret (VStr (s1 +:+ s2))
  | VList _, _ =>
      Raise (Exn TypeError ("can only concatenate list (not " +:+ dquote
                            +:+ type_name b +:+ dquote +:+ ") to list"))
  | VStr _, _ =>
      Raise (Exn TypeError ("can only concatenate str (not " +:+ dquote
                            +:+ type_name b +:+ dquote +:+ ") to str"))
  | _, _ =>
      match int_of a, int_of b with
      | Some x, Some y => Ret (VInt (x + y))
      | _, _ =>
          Raise (Exn TypeError ("unsupported operand type(s) for +: "
                                +:+ quote (type_name a) +:+ " and "
                                +:+ quote (type_name b)))
      end
  end.

(** ** String methods used by the executor *)

(** [sub in s] for two strings. *)
Fixpoint contains (sub s : string) : bool :=
  String.prefix sub s ||
  match s with
  | EmptyString => false
  | String _ s' => contains sub s'
  end.

(** [s.split(c)]: the segments between occurrences of [c], never empty. *)
Fixpoint split_on (c : ascii) (s : string) : list string :=
  match s with
  | EmptyString => [EmptyString]
  | String a s' =>
      if Ascii.eqb a c then EmptyString :: split_on c s'
      else match split_on c s' with
           | seg :: segs => String a seg :: segs
           | [] => [String a EmptyString]
           end
  end.

(** [s.replace(c, by)] for a one-character pattern. *)
Fixpoint replace_char (c : ascii) (by_ : string) (s : string) : string :=
  match s with
  | EmptyString => EmptyString
  | String a s' =>
      if Ascii.eqb a c then by_ +:+ replace_char c by_ s'
      else String a (replace_char c by_ s')
  end.

(** [v.split('/')[-1]]. *)
Definition py_split_last (v : value) : res value :=
  match v with
  | VStr s => Ret (VStr (List.last (split_on "/"%char s) EmptyString))
  | _ => Raise (attribute_error v "split")
  end.

(** [v.replace('Z', '+00:00')]. *)
Definition py_replace_Z (v : value) : res string :=
  match v with
  | VStr s => Ret (replace_char "Z"%char "+00:00" s)
  | _ => Raise (attribute_error v "replace")
  end.

(** ['@' in v]. *)
Definition py_contains_str (needle : string) (v : value) : res bool :=
  match v with
  | VStr s => Ret (contains needle s)
  | VList l =>
      Ret (existsb (fun x => match x with
                             | VStr t => String.eqb needle t
                             | _ => false
                             end) l)
  | VDict d => Ret (bool_decide (is_Some (assoc_get needle d)))
  | _ => Raise (Exn TypeError ("argument of type " +:+ quote (type_name v)
                               +:+ " is not iterable"))
  end.

(** ** Dates and times

    A [date] is its day number; a [datetime] is a wall-clock reading in
    microseconds counted from midnight of day 0, naive when [utcoffset] is
    [None] and aware otherwise (the offset is in microseconds too). *)

Record datetime : Type := DateTime { wall : Z; utcoffset : option Z }.

Definition minute : Z := 60000000.
Definition hour : Z := 60 * minute.
Definition day : Z := 24 * hour.

(** [datetime.timedelta(minutes=m)]. *)
Definition timedelta_minutes (m : Z) : Z := m * minute.

(** [datetime.datetime.combine(d, datetime.time(h, 0))]. *)
Definition combine (d : Z) (h : Z) : datetime :=
  {| wall := d * day + h * hour; utcoffset := None |}.

(** [t + delta]. *)
Definition dt_add (t : datetime) (delta : Z) : datetime :=
  {| wall := wall t + delta; utcoffset := utcoffset t |}.

Definition naive_aware : exn :=
  Exn TypeError "can't compare offset-naive and offset-aware datetimes".

(** [a <= b]: two naive readings compare their wall clocks, two aware ones
    their instants, and a naive one does not compare with an aware one. *)
Definition dt_le (a b : datetime) : res bool :=
  match utcoffset a, utcoffset b with
  | None, None => Ret (wall a <=? wall b)
  | Some oa, Some ob => Ret (wall a - oa <=? wall b - ob)
  | _, _ => Raise naive_aware
  end.

(** [a >= b]. *)
Definition dt_ge (a b : datetime) : res bool := dt_le b a.

(** ** Library functions and collaborators *)

(** The Python library functions the code calls and the model does not
    spell out. *)
Class PyLib : Type := {
  (** [s.lower()] *)
  str_lower : string -> string;
  (** [str(v)] for a [v] that is not a string, as an f-string formats it *)
  py_repr : value -> string;
  (** [datetime.date.fromisoformat(s)] *)
  date_fromisoformat : string -> res Z;
  (** [d.isoformat()] for a date *)
  date_isoformat : Z -> string;
  (** [datetime.datetime.fromisoformat(s)] *)
  datetime_fromisoformat : string -> res datetime;
  (** [t.isoformat()] for a datetime *)
  datetime_isoformat : datetime -> string
}.

(** The external services, as functions on the world [W]. A call either
    returns the decoded JSON response or raises. *)
Class Collaborators (W : Type) : Type := {
  (** [people_service.people().connections().list(resourceName='people/me',
      pageSize=100, personFields='names,emailAddresses',
      sortOrder='FIRST_NAME_ASCENDING').execute()] *)
  people_connections_list : W -> res value * W;
  (** [people_service.people().get(resourceName=r, personFields=
      'names,emailAddresses,phoneNumbers').execute()] *)
  people_get : string -> W -> res value * W;
  (** [calendar_service.freebusy().query(body=b).execute()] *)
  freebusy_query : value -> W -> res value * W;
  (** [calendar_service.events().list(calendarId='primary', timeMin=a,
      timeMax=b, singleEvents=True, orderBy='startTime').execute()] *)
  events_list : string -> string -> W -> res value * W;
  (** [calendar_service.events().insert(calendarId='primary', body=b,
      sendUpdates='all').execute()] *)
  events_insert : value -> W -> res value * W;
  (** [datetime.date.today()] *)
  today : W -> Z;
  (** [print(s)] *)
  console_print : string -> W -> W;
  (** lines 32-40 of [_parse_intent_with_llm]: build the client, request a
      chat completion for the prompt, read the first choice's content *)
  chat_completion : string -> W -> res value * W
}.

(** Computations that use the world and may raise. *)
Definition M (W A : Type) : Type := W -> res A * W.

Definition mret {W A} (a : A) : M W A := fun w => (Ret a, w).

Definition mraise {W A} (e : exn) : M W A := fun w => (Raise e, w).

Definition mbind {W A B} (m : M W A) (k : A -> M W B) : M W B :=
  fun w =>
    match m w with
    | (Ret a, w') => k a w'
    | (Raise e, w') => (Raise e, w')
    end.

Definition lift {W A} (r : res A) : M W A := fun w => (r, w).

(** [try: body except Exception as e: handler e]. *)
Definition try_except {W A} (body : M W A) (handler : exn -> M W A) : M W A :=
  fun w =>
    match body w with
    | (Ret a, w') => (Ret a, w')
    | (Raise e, w') => handler e w'
    end.

Declare Scope world_scope.
Delimit Scope world_scope with world.
Notation "'let!' x := m 'in' k" := (mbind m (fun x => k))
  (at level 10, x name, m at level 100, k at level 200) : world_scope.
Notation "'let?' x := r 'in' k" := (mbind (lift r) (fun x => k))
  (at level 10, x name, r at level 100, k at level 200) : world_scope.

(** A step result, a [params] dict. *)
Abbreviation dict := (gmap string value).

(** [d.get(k, dflt)] and [d[k]] on such a dict. *)
Definition dict_get (d : dict) (k : string) (dflt : value) : value :=
  default dflt (d !! k).

Definition dict_item (d : dict) (k : string) : res value :=
  match d !! k with
  | Some v => Ret v
  | None => Raise (key_error k)
  end.

(** [{"success": False, "error": msg}] *)
Definition failure (msg : string) : dict :=
  {[ "success" := VBool false; "error" := VStr msg ]}.

(** ** The free-slot scan (lines 179-197 of [_get_free_slots])

    The loop reads [time_max], [duration] and [busy_periods], starts at
    [time_min] and appends one entry per free candidate. [mk] builds the
    entry: [_get_free_slots] uses [slot_entry]; the properties below use
    [pair], which keeps the two instants. *)

(** [slot_end <= busy_start or current_time >= busy_end] *)
Definition clear_of (current_time slot_end : datetime)
    (busy : datetime * datetime) : res bool :=
  (let* before := dt_le slot_end busy.1 in
   if before then Ret true else dt_ge current_time busy.2)%res.

(** The inner [for] loop: the value of [is_free] when it ends. *)
Fixpoint is_free (current_time slot_end : datetime)
    (busy_periods : list (datetime * datetime)) : res bool :=
  match busy_periods with
  | [] => Ret true
  | busy :: rest =>
      (let* clear := clear_of current_time slot_end busy in
       if negb clear then Ret false
       else is_free current_time slot_end rest)%res
  end.

(** The stride of the cursor: [datetime.timedelta(minutes=30)]. *)
Definition stride : Z := timedelta_minutes 30.

(** The [while] loop, with [fuel] bounding the number of iterations;
    [None] means the bound was reached. *)
Fixpoint scan_loop {A} (mk : datetime -> datetime -> A) (fuel : nat)
    (time_max : datetime) (duration : Z)
    (busy_periods : list (datetime * datetime))
    (free_slots : list A) (current_time : datetime) : option (res (list A)) :=
  match fuel with
  | O => None
  | S fuel' =>
      match dt_le (dt_add current_time duration) time_max with
      | Raise e => Some (Raise e)
      | Ret false => Some (Ret free_slots)
      | Ret true =>
          let slot_end := dt_add current_time duration in
          match is_free current_time slot_end busy_periods with
          | Raise e => Some (Raise e)
          | Ret free =>
              let free_slots' :=
                if free then free_slots ++ [mk current_time slot_end]
                else free_slots in
              scan_loop mk fuel' time_max duration busy_periods free_slots'
                        (dt_add current_time stride)
          end
      end
  end.

(** The instant a reading denotes (a naive one is taken at offset 0). *)
Definition instant (t : datetime) : Z := wall t - default 0 (utcoffset t).

(** The cursor takes at most one position per stride that begins between
    the two ends, and the loop tests its condition once more to leave. *)
Definition scan_fuel (time_min time_max : datetime) : nat :=
  S (Z.to_nat ((instant time_max - instant time_min) / stride + 1)).

Definition free_slot_scan {A} (mk : datetime -> datetime -> A)
    (time_min time_max : datetime) (duration : Z)
    (busy_periods : list (datetime * datetime)) : option (res (list A)) :=
  scan_loop mk (scan_fuel time_min time_max) time_max duration busy_periods
            [] time_min.

(** The [i]-th candidate window of a scan that starts at [time_min]. *)
Definition candidate (time_min : datetime) (duration : Z) (i : nat)
    : datetime * datetime :=
  (dt_add time_min (Z.of_nat i * stride),
   dt_add time_min (Z.of_nat i * stride + duration)).

(** ** GoogleCalendarAPIExecutor ([google_calendar_integration_openai.py]) *)

Section Executor.
Context `{PyLib} {W : Type} `{Collaborators W}.

Open Scope world_scope.

(** How an f-string formats a value. *)
Definition py_str (v : value) : string :=
  match v with
  | VStr s => s
  | _ => py_repr v
  end.

(** [v.lower()] *)
Definition py_lower (v : value) : res string :=
  match v with
  | VStr s => Ret (str_lower s)
  | _ => Raise (attribute_error v "lower")
  end.

(** [datetime.datetime.fromisoformat(v.replace('Z', '+00:00'))] *)
Definition parse_timestamp (v : value) : res datetime :=
  (let* s := py_replace_Z v in datetime_fromisoformat s)%res.

(** *** [_find_contact], lines 62-99 *)

(** The dict appended to [matching_contacts] (lines 80-84). *)
Definition contact_entry (person name_obj : value) : res value :=
  (let* resource_name := py_item person "resourceName" in
   let* contact_id := py_split_last resource_name in
   let* name := py_get name_obj "displayName" (VStr "") in
   let* emails := py_get person "emailAddresses" (VList [VDict []]) in
   let* first_email := py_first emails in
   let* email := py_get first_email "value" (VStr "") in
   Ret (VDict [("contact_id", contact_id); ("name", name); ("email", email)]))%res.

(** The inner loop over one person's names, left at the first match. *)
Fixpoint first_match (query : string) (person : value) (names : list value)
    : res (option value) :=
  match names with
  | [] => Ret None
  | name_obj :: rest =>
      (let* shown := py_get name_obj "displayName" (VStr "") in
       let* display_name := py_lower shown in
       if contains query display_name
       then (let* entry := contact_entry person name_obj in Ret (Some entry))
       else first_match query person rest)%res
  end.

(** The outer loop over the connections. *)
Fixpoint matching_contacts (query : string) (matching : list value)
    (connections : list value) : res (list value) :=
  match connections with
  | [] => Ret matching
  | person :: rest =>
      (let* names := py_get person "names" (VList []) in
       let* name_objs := py_iter names in
       let* found := first_match query person name_objs in
       matching_contacts query
         (match found with
          | Some entry => matching ++ [entry]
          | None => matching
          end) rest)%res
  end.

Definition _find_contact (name : value) : M W dict :=
  try_except
    (let? query := py_lower name in
     let! results := people_connections_list in
     let? connections := py_get results "connections" (VList []) in
     let? persons := py_iter connections in
     let? matching := matching_contacts query [] persons in
     match matching with
     | contact :: _ =>
         let? contact_id := py_item contact "contact_id" in
         let? contact_name := py_item contact "name" in
         let? email := py_item contact "email" in
         mret {[ "success" := VBool true; "contact_id" := contact_id;
                 "name" := contact_name; "email" := email ]}
     | [] =>
         mret (failure ("No contact found with name '" +:+ py_str name +:+ "'"))
     end)
    (fun e => mret (failure ("Error finding contact: " +:+ exn_text e))).

(** *** [_get_contact_details], lines 101-120 *)

(** [xs[0].get(field, '') if xs else ''] *)
Definition first_field (xs : value) (field : string) : res value :=
  if truthy xs
  then (let* x := py_first xs in py_get x field (VStr ""))%res
  else Ret (VStr "").

Definition _get_contact_details (contact_id : value) : M W dict :=
  try_except
    (let! person := people_get ("people/" +:+ py_str contact_id) in
     let? names := py_get person "names" (VList []) in
     let? emails := py_get person "emailAddresses" (VList []) in
     let? phones := py_get person "phoneNumbers" (VList []) in
     let? name := first_field names "displayName" in
     let? email := first_field emails "value" in
     let? phone := first_field phones "value" in
     mret {[ "success" := VBool true; "contact_id" := contact_id;
             "name" := name; "email" := email; "phone" := phone ]})
    (fun e => mret (failure ("Error getting contact details: " +:+ exn_text e))).

(** *** [_get_free_slots], lines 134-205 *)

(** [datetime.date.fromisoformat(date)] *)
Definition py_date_fromisoformat (date : value) : res Z :=
  match date with
  | VStr s => date_fromisoformat s
  | _ => Raise (Exn TypeError "fromisoformat: argument must be str")
  end.

(** Lines 173-177: the busy periods as pairs of datetimes. *)
Fixpoint busy_periods_of (busy_periods : list (datetime * datetime))
    (all_busy : list value) : res (list (datetime * datetime)) :=
  match all_busy with
  | [] => Ret busy_periods
  | period :: rest =>
      (let* start_str := py_item period "start" in
       let* start := parse_timestamp start_str in
       let* end_str := py_item period "end" in
       let* end_ := parse_timestamp end_str in
       busy_periods_of (busy_periods ++ [(start, end_)]) rest)%res
  end.

(** Lines 192-195: the entry appended for a free candidate. *)
Definition slot_entry (current_time slot_end : datetime) : value :=
  VDict [("start_time", VStr (datetime_isoformat current_time +:+ "Z"));
         ("end_time", VStr (datetime_isoformat slot_end +:+ "Z"))].

(** The loop of lines 179-197 as [_get_free_slots] runs it. The bound
    [scan_fuel] is never reached ([free_slot_scan_total] below), so the
    default is never taken. *)
Definition find_free_slots (time_min time_max : datetime) (duration : Z)
    (busy_periods : list (datetime * datetime)) : res (list value) :=
  default (Ret [])
          (free_slot_scan slot_entry time_min time_max duration busy_periods).

Definition _get_free_slots (user_id other_user_id date : value) : M W dict :=
  try_except
    (let! base_date :=
       (if truthy date then lift (py_date_fromisoformat date)
        else fun w => (Ret (today w + 1), w)) in
     let start_hour := 9 in
     let end_hour := 17 in
     let duration := timedelta_minutes 30 in
     let! contact_details := _get_contact_details other_user_id in
     if negb (truthy (dict_get contact_details "success" (VBool false)))
     then mret (failure "Could not find contact email")
     else
       let contact_email := dict_get contact_details "email" (VStr "") in
       if negb (truthy contact_email)
       then mret (failure "Contact does not have an email address")
       else
         let time_min := combine base_date start_hour in
         let time_max := combine base_date end_hour in
         let body :=
           VDict [("timeMin", VStr (datetime_isoformat time_min +:+ "Z"));
                  ("timeMax", VStr (datetime_isoformat time_max +:+ "Z"));
                  ("items", VList [VDict [("id", VStr "primary")];
                                   VDict [("id", contact_email)]])] in
         let! freebusy := freebusy_query body in
         let? calendars := py_get freebusy "calendars" (VDict []) in
         let? primary := py_get calendars "primary" (VDict []) in
         let? primary_busy := py_get primary "busy" (VList []) in
         let? other := py_get_key calendars contact_email (VDict []) in
         let? other_busy := py_get other "busy" (VList []) in
         let? all_busy := py_add primary_busy other_busy in
         let? periods := py_iter all_busy in
         let? busy_periods := busy_periods_of [] periods in
         let? free_slots := find_free_slots time_min time_max duration busy_periods in
         mret {[ "success" := VBool true;
                 "date" := VStr (date_isoformat base_date);
                 "slots" := VList free_slots ]})
    (fun e => mret (failure ("Error getting free slots: " +:+ exn_text e))).

(** *** Preferences, lines 213-231 *)

Definition _ask_user_for_preferences : M W dict :=
  fun w =>
    (Ret {[ "success" := VBool true; "duration" := VInt 45;
            "preferred_times" := VList [VStr "afternoon"];
            "buffer" := VInt 10 ]},
     console_print "Prompting user for meeting preferences..." w).

Definition _get_meeting_preferences (user_id ask_user : value) : M W dict :=
  if truthy ask_user then _ask_user_for_preferences
  else mret {[ "success" := VBool true; "duration" := VInt 30;
               "preferred_times" := VList [VStr "morning"; VStr "afternoon"];
               "buffer" := VInt 15 ]}.

(** *** [_check_availability], lines 233-256 *)

Definition _check_availability (user_id start_time end_time : value) : M W dict :=
  try_except
    (let? start_dt := parse_timestamp start_time in
     let? end_dt := parse_timestamp end_time in
     let! events_result :=
       events_list (datetime_isoformat start_dt +:+ "Z")
                   (datetime_isoformat end_dt +:+ "Z") in
     let? events := py_get events_result "items" (VList []) in
     let? count := py_len events in
     let is_available := Z.eqb count 0 in
     mret {[ "success" := VBool true; "is_available" := VBool is_available;
             "conflicting_events" := VInt count ]})
    (fun e => mret (failure ("Error checking availability: " +:+ exn_text e))).

(** *** [_book_meeting], lines 258-303 *)

(** Lines 262-268: the loop that collects the attendees' addresses. *)
Fixpoint attendee_emails_of (attendee_emails : list value)
    (attendees : list value) : M W (list value) :=
  match attendees with
  | [] => mret attendee_emails
  | attendee_id :: rest =>
      let? is_address := py_contains_str "@" attendee_id in
      if is_address
      then attendee_emails_of (attendee_emails ++ [VDict [("email", attendee_id)]]) rest
      else
        let! contact := _get_contact_details attendee_id in
        if truthy (dict_get contact "success" (VBool false))
           && truthy (dict_get contact "email" VNone)
        then
          let? email := dict_item contact "email" in
          attendee_emails_of (attendee_emails ++ [VDict [("email", email)]]) rest
        else attendee_emails_of attendee_emails rest
  end.

(** [[a.get("email") for a in attendee_emails]] *)
Fixpoint emails_of (attendee_emails : list value) : res (list value) :=
  match attendee_emails with
  | [] => Ret []
  | a :: rest =>
      (let* email := py_get a "email" VNone in
       let* emails := emails_of rest in
       Ret (email :: emails))%res
  end.

Definition _book_meeting (title attendees start_time end_time description : value)
    : M W dict :=
  try_except
    (let? attendee_ids := py_iter attendees in
     let! attendee_emails := attendee_emails_of [] attendee_ids in
     let event :=
       VDict [("summary", title);
              ("description", description);
              ("start", VDict [("dateTime", start_time); ("timeZone", VStr "UTC")]);
              ("end", VDict [("dateTime", end_time); ("timeZone", VStr "UTC")]);
              ("attendees", VList attendee_emails);
              ("reminders", VDict [("useDefault", VBool true)])] in
     let! created := events_insert event in
     let? meeting_id := py_get created "id" VNone in
     let? emails := emails_of attendee_emails in
     let? link := py_get created "htmlLink" VNone in
     mret {[ "success" := VBool true; "meeting_id" := meeting_id;
             "title" := title; "start_time" := start_time;
             "end_time" := end_time; "attendees" := VList emails;
             "link" := link ]})
    (fun e => mret (failure ("Error booking meeting: " +:+ exn_text e))).

(** *** Dispatch, lines 44-60, 122-132 and 207-211 *)

Definition _execute_contacts_api (action : string) (params : dict) : M W dict :=
  if String.eqb action "find_contact" then
    let? name := dict_item params "name" in
    _find_contact name
  else if String.eqb action "get_contact_details" then
    let? contact_id := dict_item params "contact_id" in
    _get_contact_details contact_id
  else mret (failure ("Unknown contacts action: " +:+ action)).

Definition _execute_calendar_api (action : string) (params : dict) : M W dict :=
  if String.eqb action "check_availability" then
    let? user_id := dict_item params "user_id" in
    let? start_time := dict_item params "start_time" in
    let? end_time := dict_item params "end_time" in
    _check_availability user_id start_time end_time
  else if String.eqb action "get_free_slots" then
    let? user_id := dict_item params "user_id" in
    let? other_user_id := dict_item params "other_user_id" in
    _get_free_slots user_id other_user_id (dict_get params "date" VNone)
  else if String.eqb action "book_meeting" then
    let? title := dict_item params "title" in
    let? attendees := dict_item params "attendees" in
    let? start_time := dict_item params "start_time" in
    let? end_time := dict_item params "end_time" in
    _book_meeting title attendees start_time end_time
                  (dict_get params "description" (VStr ""))
  else mret (failure ("Unknown calendar action: " +:+ action)).

Definition _execute_preferences_api (action : string) (params : dict) : M W dict :=
  if String.eqb action "get_meeting_preferences" then
    let? user_id := dict_item params "user_id" in
    _get_meeting_preferences user_id (dict_get params "ask_user" (VBool false))
  else mret (failure ("Unknown preferences action: " +:+ action)).

Definition execute (api_name action : string) (params : dict) : M W dict :=
  if String.eqb api_name "contacts" then _execute_contacts_api action params
  else if String.eqb api_name "calendar" then _execute_calendar_api action params
  else if String.eqb api_name "preferences" then _execute_preferences_api action params
  else mret (failure ("Unknown API: " +:+ api_name)).

End Executor.

(** ** MeetingBookingMCPAgent ([meeting_booking_agent.py]) *)

(** A step of a plan: [{"api": .., "action": .., "params": {..}}]. *)
Record PlanStep : Type := Step { api : string; action : string; params : dict }.

(** The attributes of the agent that [_execute_plan] assigns.
    [pending_action] starts as [None] (line 17); the attribute
    [pending_action_contact_id] does not exist until line 77 assigns it. *)
Record agent : Type := Agent {
  pending_action : option string;
  pending_action_contact_id : option value
}.

Definition new_agent : agent :=
  {| pending_action := None; pending_action_contact_id := None |}.

(** [{"message": msg, "status": status}] *)
Definition response (msg status : string) : dict :=
  {[ "message" := VStr msg; "status" := VStr status ]}.

(** Line 3 of the module is [from datetime import datetime], so in this
    module the name [datetime] is the class [datetime.datetime] and
    [datetime.date] is the descriptor of its method [date]. Line 66 then
    evaluates [datetime.date.today().isoformat()], and the attribute lookup
    [.today] on that descriptor raises. *)
Definition datetime_date_today_isoformat : res value :=
  Raise (Exn AttributeError "'method_descriptor' object has no attribute 'today'").

(** Lines 50-68 of [_create_execution_plan], for a given evaluation [date]
    of the expression under the key ["date"] of the last step. *)
Definition build_plan (date : res value) (intent : dict) (user_id : string)
    : res (list PlanStep) :=
  let plan := [] in
  let plan :=
    match intent !! "contact_name" with
    | Some contact_name =>
        plan ++ [ {| api := "contacts"; action := "find_contact";
                     params := {[ "name" := contact_name ]} |} ]
    | None => plan
    end in
  let plan :=
    if bool_decide (is_Some (intent !! "ask_preferences"))
       && truthy (dict_get intent "ask_preferences" VNone)
    then plan ++ [ {| api := "preferences"; action := "get_meeting_preferences";
                      params := {[ "user_id" := VStr user_id;
                                   "ask_user" := VBool true ]} |} ]
    else plan in
  (let* date_value := date in
   Ret (plan ++ [ {| api := "calendar"; action := "get_free_slots";
                     params := {[ "user_id" := VStr user_id;
                                  "other_user_id" := VStr "PLACEHOLDER";
                                  "date" := date_value ]} |} ]))%res.

Definition _create_execution_plan (intent : dict) (user_id : string)
    : res (list PlanStep) :=
  build_plan datetime_date_today_isoformat intent user_id.

(** The key under which a step's result is stored: [f"{api}_{action}"]. *)
Definition step_key (step : PlanStep) : string :=
  api step +:+ "_" +:+ action step.

(** [key in results and results[key].get("success")] *)
Definition succeeded (results : gmap string dict) (key : string) : bool :=
  match results !! key with
  | Some result => truthy (dict_get result "success" VNone)
  | None => false
  end.

(** Lines 81-92. *)
Definition _generate_response (prompt : string) (results : gmap string dict) : dict :=
  if succeeded results "contacts_find_contact" then
    if succeeded results "calendar_get_free_slots" then
      let slots :=
        dict_get (default ∅ (results !! "calendar_get_free_slots")) "slots" (VList []) in
      if truthy slots
      then response "Meeting slots found and processed." "success"
      else response "There are no available time slots. Would you like to try a different day?" "success"
    else response "Failed to find available slots. Please specify a date." "error"
  else response "Failed to find contact." "error".

Section Agent.
Context {W : Type} `{Collaborators W}.

(** [self.api_executor.execute]: the agent accepts any object with such a
    method. *)
Variable api_execute : string -> string -> dict -> M W dict.

(** Lines 72-78: the loop of [_execute_plan] over the steps still to run,
    with the results gathered so far. It returns what [_execute_plan]
    returns or raises, the agent's attributes and the world. *)
Fixpoint execute_steps (plan : list PlanStep) (results : gmap string dict)
    (self : agent) (w : W) : res (gmap string dict) * agent * W :=
  match plan with
  | [] => (Ret results, self, w)
  | step :: rest =>
      match api_execute (api step) (action step) (params step) w with
      | (Raise e, w') => (Raise e, self, w')
      | (Ret result, w') =>
          let results' := <[ step_key step := result ]> results in
          if String.eqb (action step) "get_free_slots"
             && negb (truthy (dict_get result "success" VNone))
          then
            let self' := {| pending_action := Some "get_free_slots";
                            pending_action_contact_id :=
                              pending_action_contact_id self |} in
            match params step !! "other_user_id" with
            | Some other_user_id =>
                (Ret results',
                 {| pending_action := Some "get_free_slots";
                    pending_action_contact_id := Some other_user_id |},
                 w')
            | None => (Raise (key_error "other_user_id"), self', w')
            end
          else execute_steps rest results' self w'
      end
  end.

(** Lines 70-79. *)
Definition _execute_plan (plan : list PlanStep) (prompt : string)
    (self : agent) (w : W) : res (gmap string dict) * agent * W :=
  execute_steps plan ∅ self w.

(** Lines 30-43: the LLM is called and its answer is not used. *)
Definition _parse_intent_with_llm (prompt : string) : M W dict :=
  (let! message_content :=
     chat_completion ("Analyze this prompt: " +:+ prompt
                      +:+ ". Extract intent and details.") in
   mret {[ "action" := VStr "book_meeting";
           "contact_name" := VStr "Chinmay Sir";
           "ask_preferences" := VBool false ]})%world.

(** Line 25 calls [self._execute_plan(plan)], and line 70 declares
    [_execute_plan(self, plan, prompt)]: the call lacks an argument. *)
Definition execute_plan_call_without_prompt : exn :=
  Exn TypeError
      "MeetingBookingMCPAgent._execute_plan() missing 1 required positional argument: 'prompt'".

(** [v == 'book_meeting'] *)
Definition is_book_meeting (v : value) : bool :=
  match v with
  | VStr s => String.eqb s "book_meeting"
  | _ => false
  end.

(** Lines 19-28. *)
Definition process_user_prompt (prompt user_id : string) : M W dict :=
  (let! intent := _parse_intent_with_llm prompt in
   let? act := dict_item intent "action" in
   if is_book_meeting act then
     let? plan := _create_execution_plan intent user_id in
     let! results := mraise (A := gmap string dict) execute_plan_call_without_prompt in
     mret (_generate_response prompt results)
   else
     mret (response "I'm not sure what you want to do. Can you clarify?" "error"))%world.

End Agent.

(** The second [MeetingBookingMCPAgent], at the end of
    [google_calendar_integration_openai.py]: its [_create_execution_plan]
    (lines 328-348) differs from the one above only in the last step's
    ["date"], which is the literal ["PLACEHOLDER"]. *)
Module google_calendar_integration_openai.

Definition _create_execution_plan (intent : dict) (user_id : string)
    : res (list PlanStep) :=
  build_plan (Ret (VStr "PLACEHOLDER")) intent user_id.

End google_calendar_integration_openai.

(** ** Observing a run

    [recording exec] behaves as [exec] and appends every call, with what it
    returned or raised, to a log kept next to the world. *)

Definition recording {W} (exec : string -> string -> dict -> M W dict)
    : string -> string -> dict -> M (W * list (PlanStep * res dict)) dict :=
  fun api_name action_name step_params '(w, log) =>
    let '(r, w') := exec api_name action_name step_params w in
    (r, (w', log ++ [(Step api_name action_name step_params, r)])).

(** The calls a run of [_execute_plan] makes, in the order it makes them. *)
Definition calls_of {W} (exec : string -> string -> dict -> M W dict)
    (plan : list PlanStep) (prompt : string) (self : agent) (w : W)
    : list (PlanStep * res dict) :=
  (_execute_plan (recording exec) plan prompt self (w, [])).2.2.

(** A recorded call that suspends the run: a [get_free_slots] step whose
    result is not a success. *)
Definition suspends (call : PlanStep * res dict) : bool :=
  match call.2 with
  | Ret result =>
      String.eqb (action call.1) "get_free_slots"
      && negb (truthy (dict_get result "success" VNone))
  | Raise _ => false
  end.

Definition raised {A} (r : res A) : bool :=
  match r with
  | Ret _ => false
  | Raise _ => true
  end.

(** ** Scripted collaborators

    A world made of the answers the services will give and of the requests
    received so far; and a small stand-in for the library functions. They
    serve to run the model on examples. *)

Record script : Type := Script {
  connections_answer : res value;
  person_answer : string -> res value;
  freebusy_answer : res value;
  events_list_answer : res value;
  events_insert_answer : res value;
  llm_answer : res value;
  today_is : Z;
  requests : list string
}.

Definition note (request : string) (w : script) : script :=
  {| connections_answer := connections_answer w;
     person_answer := person_answer w;
     freebusy_answer := freebusy_answer w;
     events_list_answer := events_list_answer w;
     events_insert_answer := events_insert_answer w;
     llm_answer := llm_answer w;
     today_is := today_is w;
     requests := requests w ++ [request] |}.

#[export] Instance scripted : Collaborators script := {|
  people_connections_list w := (connections_answer w, note "connections.list" w);
  people_get resource_name w :=
    (person_answer w resource_name, note ("people.get " +:+ resource_name) w);
  freebusy_query body w := (freebusy_answer w, note "freebusy.query" w);
  events_list time_min time_max w := (events_list_answer w, note "events.list" w);
  events_insert body w := (events_insert_answer w, note "events.insert" w);
  today w := today_is w;
  console_print text w := note ("print " +:+ text) w;
  chat_completion content w := (llm_answer w, note "chat.completions.create" w)
|}.

Definition lower_ascii (c : ascii) : ascii :=
  let n := nat_of_ascii c in
  if (Nat.leb 65 n && Nat.leb n 90)%bool then ascii_of_nat (n + 32) else c.

Fixpoint lower_string (s : string) : string :=
  match s with
  | EmptyString => EmptyString
  | String c s' => String (lower_ascii c) (lower_string s')
  end.

(** Case folding of the ASCII letters; dates and times are printed as their
    number, and no string parses as a date or a time. *)
#[export] Instance plain_lib : PyLib := {|
  str_lower := lower_string;
  py_repr _ := "<object>";
  date_fromisoformat s :=
    Raise (Exn ValueError ("Invalid isoformat string: " +:+ quote s));
  date_isoformat d := "day " +:+ pretty d;
  datetime_fromisoformat s :=
    Raise (Exn ValueError ("Invalid isoformat string: " +:+ quote s));
  datetime_isoformat t := "time " +:+ pretty (wall t)
|}.

Definition service_down : exn := Exn (OtherError "HttpError") "service unavailable".

(** A directory with one contact, John, who has an address; no busy
    period; every other service call fails. *)
Definition john : value :=
  VDict [("resourceName", VStr "people/c123");
         ("names", VList [VDict [("displayName", VStr "John Smith")]]);
         ("emailAddresses", VList [VDict [("value", VStr "john@example.com")]])].

Definition office : script :=
  {| connections_answer := Ret (VDict [("connections", VList [john])]);
     person_answer r :=
       if String.eqb r "people/c123" then Ret john else Raise service_down;
     freebusy_answer := Ret (VDict [("calendars", VDict [])]);
     events_list_answer := Raise service_down;
     events_insert_answer :=
       Ret (VDict [("id", VStr "evt1"); ("htmlLink", VStr "https://calendar/evt1")]);
     llm_answer := Ret (VStr "{}");
     today_is := 739000;
     requests := [] |}.

(** The same office with the LLM out of reach. *)
Definition office_llm_down : script :=
  {| connections_answer := connections_answer office;
     person_answer := person_answer office;
     freebusy_answer := freebusy_answer office;
     events_list_answer := events_list_answer office;
     events_insert_answer := events_insert_answer office;
     llm_answer := Raise service_down;
     today_is := today_is office;
     requests := [] |}.

(** The plan the builder's three rules give for "a meeting with John", with
    the date left to the executor's default. *)
Definition john_plan : list PlanStep :=
  [ {| api := "contacts"; action := "find_contact";
       params := {[ "name" := VStr "John" ]} |};
    {| api := "calendar"; action := "get_free_slots";
       params := {[ "user_id" := VStr "primary";
                    "other_user_id" := VStr "PLACEHOLDER" ]} |} ].

(** ** Reading the scan's result

    For a window and busy periods that are all naive, the tests of the loop
    are comparisons of wall clocks. [clear_of_all busy c] is the test of
    lines 186-189 on a candidate [c]; [candidate_count] is the number of
    cursor positions for which the loop condition of line 182 holds. *)

Definition clear_of_all (busy_periods : list (datetime * datetime))
    (c : datetime * datetime) : bool :=
  forallb (fun busy => (wall c.2 <=? wall busy.1) || (wall busy.2 <=? wall c.1))
          busy_periods.

Definition candidate_count (time_min time_max : datetime) (duration : Z) : nat :=
  if wall time_min + duration <=? wall time_max
  then S (Z.to_nat ((wall time_max - wall time_min - duration) / stride))
  else O.

Definition all_naive (busy_periods : list (datetime * datetime)) : Prop :=
  Forall (fun busy => utcoffset busy.1 = None /\ utcoffset busy.2 = None)
         busy_periods.

(** Lines 167-177 of [_get_free_slots]: from the free/busy response to the
    busy periods, as the steps of [_get_free_slots] compute them. *)
Definition response_busy_periods `{PyLib} (freebusy contact_email : value)
    : res (list (datetime * datetime)) :=
  (let* calendars := py_get freebusy "calendars" (VDict []) in
   let* primary := py_get calendars "primary" (VDict []) in
   let* primary_busy := py_get primary "busy" (VList []) in
   let* other := py_get_key calendars contact_email (VDict []) in
   let* other_busy := py_get other "busy" (VList []) in
   let* all_busy := py_add primary_busy other_busy in
   let* periods := py_iter all_busy in
   busy_periods_of [] periods)%res.

(** Lines 156-163: the request that line 165 sends. *)
Definition freebusy_request `{PyLib} (base_date : Z) (contact_email : value) : value :=
  VDict [("timeMin", VStr (datetime_isoformat (combine base_date 9) +:+ "Z"));
         ("timeMax", VStr (datetime_isoformat (combine base_date 17) +:+ "Z"));
         ("items", VList [VDict [("id", VStr "primary")];
                          VDict [("id", contact_email)]])].

(** Lines 199-205: what [_get_free_slots] returns once the scan is over. *)
Definition slots_result `{PyLib} (base_date : Z) (scan : res (list value)) : dict :=
  match scan with
  | Ret free_slots =>
      {[ "success" := VBool true;
         "date" := VStr (date_isoformat base_date);
         "slots" := VList free_slots ]}
  | Raise e => failure ("Error getting free slots: " +:+ exn_text e)
  end.

(** [c not in s] for a character [c]. *)
Fixpoint free_of_char (c : ascii) (s : string) : bool :=
  match s with
  | EmptyString => true
  | String a s' => negb (Ascii.eqb a c) && free_of_char c s'
  end.

(** The second agent of [google_calendar_integration_openai.py], lines
    350-361: its runner has no suspension and its response looks at the
    contact only. *)
Module openai_agent.

Section Agent.
Context {W : Type}.
Variable api_execute : string -> string -> dict -> M W dict.

(** Lines 352-354. *)
Fixpoint execute_steps (plan : list PlanStep) (results : gmap string dict)
    (w : W) : res (gmap string dict) * W :=
  match plan with
  | [] => (Ret results, w)
  | step :: rest =>
      match api_execute (api step) (action step) (params step) w with
      | (Raise e, w') => (Raise e, w')
      | (Ret result, w') =>
          execute_steps rest (<[ step_key step := result ]> results) w'
      end
  end.

(** Lines 350-355. *)
Definition _execute_plan (plan : list PlanStep) (w : W)
    : res (gmap string dict) * W :=
  execute_steps plan ∅ w.

End Agent.

(** Lines 357-361. *)
Definition _generate_response (prompt : string) (results : gmap string dict) : dict :=
  if succeeded results "contacts_find_contact"
  then response "Contact found and processed." "success"
  else response "Failed to find contact." "error".

End openai_agent.

(** A library whose [datetime.fromisoformat] reads every text as midnight
    of day 0 at offset 0, an aware reading, as texts ending in [Z] are
    read after line 175 replaces the [Z]. *)
Definition zulu_lib : PyLib := {|
  str_lower := lower_string;
  py_repr _ := "<object>";
  date_fromisoformat s :=
    Raise (Exn ValueError ("Invalid isoformat string: " +:+ quote s));
  date_isoformat d := "day " +:+ pretty d;
  datetime_fromisoformat s := Ret {| wall := 0; utcoffset := Some 0 |};
  datetime_isoformat t := "time " +:+ pretty (wall t)
|}.

(** ** A well-formed directory

    The connections of a People API response, as the service sends them: a
    resource name, display names, and addresses, where a person without
    addresses has no [emailAddresses] entry. *)

Record person_record : Type := Person {
  resource_name : string;
  display_names : list string;
  addresses : list string
}.

Definition encode_person (p : person_record) : value :=
  VDict ([("resourceName", VStr (resource_name p));
          ("names", VList ((fun n => VDict [("displayName", VStr n)])
                             <$> display_names p))]
         ++ match addresses p with
            | [] => []
            | _ => [("emailAddresses",
                     VList ((fun a => VDict [("value", VStr a)]) <$> addresses p))]
            end).

Definition connections_response (directory : list person_record) : value :=
  VDict [("connections", VList (encode_person <$> directory))].

(** The first display name of [p] that contains the query, both in lower
    case; and the first person of the directory that has one. *)
Definition matching_name `{PyLib} (query : string) (p : person_record)
    : option string :=
  List.find (fun n => contains (str_lower query) (str_lower n)) (display_names p).

Fixpoint first_contact `{PyLib} (query : string) (directory : list person_record)
    : option (person_record * string) :=
  match directory with
  | [] => None
  | p :: rest =>
      match matching_name query p with
      | Some n => Some (p, n)
      | None => first_contact query rest
      end
  end.

(** The entry [_find_contact] builds for a person and a display name. *)
Definition entry_of (p : person_record) (shown : string) : value :=
  VDict [("contact_id", VStr (List.last (split_on "/"%char (resource_name p)) EmptyString));
         ("name", VStr shown);
         ("email", VStr (hd EmptyString (addresses p)))].

(** All the entries of a directory, in its order. *)
Definition entries_of `{PyLib} (query : string) (directory : list person_record)
    : list value :=
  omap (fun p => entry_of p <$> matching_name query p) directory.

(** The office on a day when the user is busy from 9:00 to 9:30. *)
Definition busy_office : script :=
  {| connections_answer := connections_answer office;
     person_answer := person_answer office;
     freebusy_answer :=
       Ret (VDict [("calendars",
                    VDict [("primary",
                            VDict [("busy",
                                    VList [VDict [("start", VStr "2030-01-07T09:00:00Z");
                                                  ("end", VStr "2030-01-07T09:30:00Z")]])])])]);
     events_list_answer := events_list_answer office;
     events_insert_answer := events_insert_answer office;
     llm_answer := llm_answer office;
     today_is := today_is office;
     requests := [] |}.

(** Lines 136-139: the day whose window [_get_free_slots] scans, given the
    date parameter and today's day number. *)
Definition resolve_date `{PyLib} (date : value) (today_is : Z) : res Z :=
  if truthy date then py_date_fromisoformat date else Ret (today_is + 1).

(** Whether the loop keeps a candidate: the inner loop of lines 186-189
    ends with [is_free] still true. *)
Definition scan_keeps (busy_periods : list (datetime * datetime))
    (c : datetime * datetime) : bool :=
  match is_free c.1 c.2 busy_periods with
  | Ret true => true
  | _ => false
  end.

(** A library that reads the date [2030-01-07], day 741084, and no other,
    and every datetime text as midnight of day 0 at offset 0. *)
Definition dated_lib : PyLib := {|
  str_lower := lower_string;
  py_repr _ := "<object>";
  date_fromisoformat s :=
    if String.eqb s "2030-01-07" then Ret 741084
    else Raise (Exn ValueError ("Invalid isoformat string: " +:+ quote s));
  date_isoformat d := "day " +:+ pretty d;
  datetime_fromisoformat s := Ret {| wall := 0; utcoffset := Some 0 |};
  datetime_isoformat t := "time " +:+ pretty (wall t)
|}.

(** The office with the free/busy service out of reach; and the office
    whose only contact, Ann, has no address. *)
Definition office_freebusy_down : script :=
  {| connections_answer := connections_answer office;
     person_answer := person_answer office;
     freebusy_answer := Raise service_down;
     events_list_answer := events_list_answer office;
     events_insert_answer := events_insert_answer office;
     llm_answer := llm_answer office;
     today_is := today_is office;
     requests := [] |}.

Definition office_of_ann : script :=
  {| connections_answer := connections_answer office;
     person_answer r := Ret (encode_person (Person "people/c9" ["Ann"] []));
     freebusy_answer := freebusy_answer office;
     events_list_answer := events_list_answer office;
     events_insert_answer := events_insert_answer office;
     llm_answer := llm_answer office;
     today_is := today_is office;
     requests := [] |}.

(** An executor whose every call fails without raising, on a world with
    nothing in it; and a plan in which a step follows [get_free_slots]. *)
Definition always_failing : string -> string -> dict -> M unit dict :=
  fun api_name action_name step_params w => (Ret (failure "unavailable"), w).

Definition slots_first_plan : list PlanStep :=
  [ {| api := "calendar"; action := "get_free_slots";
       params := {[ "other_user_id" := VStr "c123" ]} |};
    {| api := "contacts"; action := "find_contact";
       params := {[ "name" := VStr "John" ]} |} ].

(** * Properties *)

(** ** The free-slot scan *)

Lemma stride_pos : 0 < stride.
Proof. reflexivity. Qed.

Lemma dt_add_add t a b : dt_add (dt_add t a) b = dt_add t (a + b).
Proof. unfold dt_add; simpl; f_equal; lia. Qed.

Lemma dt_add_0 t : dt_add t 0 = t.
Proof. destruct t; unfold dt_add; simpl; f_equal; lia. Qed.

Lemma dt_le_true_instant a b :
  dt_le a b = Ret true -> instant a <= instant b.
Proof.
  unfold dt_le, instant.
  destruct (utcoffset a), (utcoffset b); simpl; intros E; inversion E; lia.
Qed.

Lemma dt_le_same_offset a b :
  utcoffset a = utcoffset b -> dt_le a b = Ret (wall a <=? wall b).
Proof.
  unfold dt_le; intros ->. destruct (utcoffset b); [|done].
  f_equal. apply eq_true_iff_eq. rewrite !Z.leb_le. lia.
Qed.

Lemma instant_dt_add t d : instant (dt_add t d) = instant t + d.
Proof. unfold instant, dt_add; simpl. lia. Qed.

(** The loop always comes to an end within [scan_fuel] iterations. *)
Lemma scan_loop_total {A} (mk : datetime -> datetime -> A) time_max duration busy :
  0 <= duration ->
  forall fuel free_slots current_time,
    (Z.to_nat ((instant time_max - instant current_time) / stride + 1) < fuel)%nat ->
    is_Some (scan_loop mk fuel time_max duration busy free_slots current_time).
Proof.
  intros Hd fuel. induction fuel as [|fuel IH]; intros acc cur Hlt; [lia|].
  simpl.
  destruct (dt_le (dt_add cur duration) time_max) as [[|]|e] eqn:Hc; [|by eauto..].
  destruct (is_free cur (dt_add cur duration) busy) as [free|e]; [|by eauto].
  apply IH.
  apply dt_le_true_instant in Hc. rewrite instant_dt_add in Hc |- *.
  pose proof stride_pos as Hs.
  replace (instant time_max - (instant cur + stride))
    with ((instant time_max - instant cur) + (-1) * stride) by lia.
  rewrite Z.div_add by lia.
  assert (0 <= (instant time_max - instant cur) / stride)
    by (apply Z.div_pos; lia).
  lia.
Qed.

Lemma free_slot_scan_total {A} (mk : datetime -> datetime -> A)
    time_min time_max duration busy :
  0 <= duration ->
  is_Some (free_slot_scan mk time_min time_max duration busy).
Proof.
  intros Hd. apply scan_loop_total; [done|]. unfold scan_fuel. lia.
Qed.

(** What [is_free] and [clear_of] say when they answer [True]. *)
Lemma clear_of_true s e b :
  clear_of s e b = Ret true ->
  dt_le e b.1 = Ret true \/ dt_ge s b.2 = Ret true.
Proof.
  unfold clear_of, rbind.
  destruct (dt_le e b.1) as [[|]|]; [by left | by right | done].
Qed.

Lemma is_free_true s e busy :
  is_free s e busy = Ret true ->
  forall b, b ∈ busy -> clear_of s e b = Ret true.
Proof.
  induction busy as [|b0 busy IH]; intros Hf b Hb; [by apply elem_of_nil in Hb|].
  simpl in Hf. unfold rbind in Hf.
  destruct (clear_of s e b0) as [[|]|] eqn:Hc; simpl in Hf; try done.
  apply elem_of_cons in Hb as [->|Hb]; [done|]. by apply IH.
Qed.

(** Every entry the loop appends comes from a cursor position
    [current_time + k * stride] that passed both tests. *)
Lemma scan_loop_sound {A} (mk : datetime -> datetime -> A) time_max duration busy :
  forall fuel free_slots current_time out,
    scan_loop mk fuel time_max duration busy free_slots current_time = Some (Ret out) ->
    exists slots : list (datetime * datetime),
      out = free_slots ++ ((fun se => mk se.1 se.2) <$> slots) /\
      forall s e, (s, e) ∈ slots ->
        (exists k, 0 <= k /\ s = dt_add current_time (k * stride)) /\
        e = dt_add s duration /\
        dt_le e time_max = Ret true /\
        is_free s e busy = Ret true.
Proof.
  induction fuel as [|fuel IH]; intros acc cur out Hrun; [done|].
  simpl in Hrun.
  destruct (dt_le (dt_add cur duration) time_max) as [[|]|e0] eqn:Hc; try done.
  - destruct (is_free cur (dt_add cur duration) busy) as [free|e0] eqn:Hf; [|done].
    apply IH in Hrun as (slots & -> & Hslots).
    assert (Hshift : forall s e, (s, e) ∈ slots ->
              (exists k, 0 <= k /\ s = dt_add cur (k * stride)) /\
              e = dt_add s duration /\ dt_le e time_max = Ret true /\
              is_free s e busy = Ret true).
    { intros s e Hin. destruct (Hslots s e Hin) as ((k & Hk & ->) & He & Hle & Hfree).
      repeat split; try done.
      exists (k + 1). split; [lia|]. rewrite dt_add_add. f_equal. lia. }
    destruct free.
    + exists ((cur, dt_add cur duration) :: slots). split.
      * by rewrite <- app_assoc.
      * intros s e Hin. apply elem_of_cons in Hin as [Heq|Hin]; [|by apply Hshift].
        inversion Heq; subst. repeat split; try done.
        exists 0. split; [lia|]. by rewrite dt_add_0.
    + exists slots. by split.
  - inversion Hrun; subst. exists []. split.
    + by rewrite app_nil_r.
    + intros s e Hin. by apply elem_of_nil in Hin.
Qed.

(** A scan through an empty busy list keeps every candidate. *)
Lemma scan_loop_no_busy time_max :
  forall n fuel free_slots current_time,
    utcoffset current_time = utcoffset time_max ->
    wall current_time <= wall time_max ->
    n = Z.to_nat ((wall time_max - wall current_time) / stride) ->
    (n < fuel)%nat ->
    scan_loop pair fuel time_max stride [] free_slots current_time
    = Some (Ret (free_slots ++ (candidate current_time stride <$> seq 0 n))).
Proof.
  pose proof stride_pos as Hs.
  induction n as [|n IH]; intros fuel acc cur Hoff Hle Hn Hfuel;
    (destruct fuel as [|fuel]; [lia|]); simpl.
  - rewrite dt_le_same_offset by done. simpl.
    assert ((wall time_max - wall cur) / stride <= 0) as Hq by lia.
    assert (wall time_max - wall cur < stride) as Hlt.
    { destruct (Z_lt_ge_dec (wall time_max - wall cur) stride); [done|].
      assert (1 <= (wall time_max - wall cur) / stride)
        by (apply Z.div_le_lower_bound; lia). lia. }
    destruct (Z.leb_spec (wall cur + stride) (wall time_max)); [lia|].
    by rewrite app_nil_r.
  - rewrite dt_le_same_offset by done. simpl.
    assert (1 <= (wall time_max - wall cur) / stride) as Hq by lia.
    assert (stride <= wall time_max - wall cur) as Hge.
    { destruct (Z_lt_ge_dec (wall time_max - wall cur) stride) as [Hlt|]; [|lia].
      rewrite Z.div_small in Hq by lia. lia. }
    destruct (Z.leb_spec (wall cur + stride) (wall time_max)); [|lia].
    rewrite (IH fuel _ (dt_add cur stride)); simpl; try done; try lia.
    + rewrite <- app_assoc. do 2 f_equal. apply (f_equal (app acc)). simpl.
      apply f_equal2.
      * unfold candidate. simpl. by rewrite dt_add_0.
      * rewrite <- seq_shift, <- list_fmap_compose.
        apply list_fmap_ext. intros i x _. unfold candidate; simpl.
        rewrite !dt_add_add. f_equal; f_equal; lia.
    + replace (wall time_max - (wall cur + stride))
        with ((wall time_max - wall cur) + (-1) * stride) by lia.
      rewrite Z.div_add by lia. lia.
Qed.

(** C2. Every slot the scan of [_get_free_slots] emits lies inside the work
    window and overlaps no busy period. Whatever entry [mk] the loop appends
    (the executor appends [slot_entry]), the entries are built from windows
    [(s, e)] with [time_min <= s], [e <= time_max], [e = s + duration], and
    for every busy period [(busy_start, busy_end)] the test
    [e <= busy_start or s >= busy_end] holds, the comparisons being Python's
    comparisons of datetimes. *)
Theorem free_slots_within_window_and_clear_of_busy :
  forall (A : Type) (mk : datetime -> datetime -> A)
         (time_min time_max : datetime) (duration : Z)
         (busy_periods : list (datetime * datetime)) (out : list A),
    free_slot_scan mk time_min time_max duration busy_periods = Some (Ret out) ->
    exists slots : list (datetime * datetime),
      out = (fun se => mk se.1 se.2) <$> slots /\
      forall s e, (s, e) ∈ slots ->
        dt_le time_min s = Ret true /\
        dt_le e time_max = Ret true /\
        e = dt_add s duration /\
        forall busy_start busy_end, (busy_start, busy_end) ∈ busy_periods ->
          dt_le e busy_start = Ret true \/ dt_ge s busy_end = Ret true.
Proof.
  intros A mk time_min time_max duration busy out Hscan.
  apply scan_loop_sound in Hscan as (slots & -> & Hslots).
  exists slots. split; [done|].
  intros s e Hin. destruct (Hslots s e Hin) as ((k & Hk & ->) & -> & Hle & Hfree).
  repeat split; try done.
  - rewrite dt_le_same_offset by done. simpl. f_equal.
    apply Z.leb_le. pose proof stride_pos. nia.
  - intros bs be Hb.
    apply (clear_of_true _ _ (bs, be)).
    by apply (is_free_true _ _ busy).
Qed.

Lemma free_slots_within_window_and_clear_of_busy_witness :
  free_slot_scan pair (combine 0 9) (combine 0 11) (timedelta_minutes 30)
                 [(combine 0 9, combine 0 10)]
  = Some (Ret [candidate (combine 0 9) (timedelta_minutes 30) 2;
               candidate (combine 0 9) (timedelta_minutes 30) 3]) /\
  exists slots : list (datetime * datetime),
    [candidate (combine 0 9) (timedelta_minutes 30) 2;
     candidate (combine 0 9) (timedelta_minutes 30) 3]
    = (fun se => pair se.1 se.2) <$> slots /\
    forall s e, (s, e) ∈ slots ->
      dt_le (combine 0 9) s = Ret true /\
      dt_le e (combine 0 11) = Ret true /\
      e = dt_add s (timedelta_minutes 30) /\
      forall busy_start busy_end,
        (busy_start, busy_end) ∈ [(combine 0 9, combine 0 10)] ->
        dt_le e busy_start = Ret true \/ dt_ge s busy_end = Ret true.
Proof.
  split; [reflexivity|].
  apply (free_slots_within_window_and_clear_of_busy _ pair (combine 0 9)
           (combine 0 11) (timedelta_minutes 30) [(combine 0 9, combine 0 10)]).
  reflexivity.
Defined.

(** C8. With no busy period and the code's 30-minute duration, the scan of
    a window [time_min .. time_max] keeps one slot per 30-minute step:
    [(time_max - time_min) / stride] slots, the [i]-th one starting at
    [time_min + i * stride], so in chronological order. For the window the
    executor uses, 9:00 to 17:00 of a day [d], that is 16 slots, and the
    last one is 16:30-17:00. *)
Theorem no_busy_period_one_slot_per_step :
  forall (time_min time_max : datetime) (d : Z),
    utcoffset time_min = utcoffset time_max ->
    wall time_min <= wall time_max ->
    (exists slots,
        free_slot_scan pair time_min time_max (timedelta_minutes 30) []
        = Some (Ret slots) /\
        Z.of_nat (length slots) = (wall time_max - wall time_min) / stride /\
        forall i, (i < length slots)%nat ->
          slots !! i = Some (candidate time_min (timedelta_minutes 30) i)) /\
    (exists day_slots,
        free_slot_scan pair (combine d 9) (combine d 17) (timedelta_minutes 30) []
        = Some (Ret day_slots) /\
        length day_slots = 16%nat /\
        last day_slots
        = Some (dt_add (combine d 16) (timedelta_minutes 30), combine d 17)).
Proof.
  assert (Hgen : forall time_min time_max,
             utcoffset time_min = utcoffset time_max ->
             wall time_min <= wall time_max ->
             free_slot_scan pair time_min time_max (timedelta_minutes 30) []
             = Some (Ret (candidate time_min stride
                            <$> seq 0 (Z.to_nat ((wall time_max - wall time_min) / stride))))).
  { intros time_min time_max Hoff Hle. unfold free_slot_scan.
    change (timedelta_minutes 30) with stride.
    rewrite (scan_loop_no_busy time_max
               (Z.to_nat ((wall time_max - wall time_min) / stride)));
      try done.
    unfold scan_fuel, instant. rewrite Hoff.
    replace (wall time_max - default 0 (utcoffset time_max)
             - (wall time_min - default 0 (utcoffset time_max)))
      with (wall time_max - wall time_min) by lia.
    pose proof stride_pos.
    assert (0 <= (wall time_max - wall time_min) / stride)
      by (apply Z.div_pos; lia).
    lia. }
  intros time_min time_max d Hoff Hle. split.
  - eexists. split; [by apply Hgen|].
    rewrite length_fmap, length_seq. split.
    + pose proof stride_pos.
      assert (0 <= (wall time_max - wall time_min) / stride)
        by (apply Z.div_pos; lia).
      lia.
    + intros i Hi. rewrite list_lookup_fmap, lookup_seq_lt by done. done.
  - eexists. split; [apply Hgen; [done|]|].
    + unfold combine; simpl. unfold hour, minute. lia.
    + replace (wall (combine d 17) - wall (combine d 9)) with (16 * stride)
        by (unfold combine, stride, timedelta_minutes, hour, minute; simpl; lia).
      rewrite Z.div_mul by done.
      split; [by rewrite length_fmap, length_seq|].
      change (Z.to_nat 16) with 16%nat. cbn [seq fmap list_fmap last].
      simpl. f_equal. unfold candidate, dt_add, combine. simpl.
      unfold stride, timedelta_minutes, hour, minute.
      f_equal; f_equal; lia.
Qed.

Lemma no_busy_period_one_slot_per_step_witness :
  (utcoffset (combine 0 9) = utcoffset (combine 0 17) /\
   wall (combine 0 9) <= wall (combine 0 17)) /\
  (exists slots,
      free_slot_scan pair (combine 0 9) (combine 0 17) (timedelta_minutes 30) []
      = Some (Ret slots) /\
      Z.of_nat (length slots) = (wall (combine 0 17) - wall (combine 0 9)) / stride /\
      forall i, (i < length slots)%nat ->
        slots !! i = Some (candidate (combine 0 9) (timedelta_minutes 30) i)) /\
  (exists day_slots,
      free_slot_scan pair (combine 1 9) (combine 1 17) (timedelta_minutes 30) []
      = Some (Ret day_slots) /\
      length day_slots = 16%nat /\
      last day_slots
      = Some (dt_add (combine 1 16) (timedelta_minutes 30), combine 1 17)).
Proof.
  split.
  - split; [reflexivity | by vm_compute].
  - apply (no_busy_period_one_slot_per_step (combine 0 9) (combine 0 17) 1).
    + reflexivity.
    + by vm_compute.
Defined.

(** ** The plan runner *)

Section Runner.
Context {W : Type}.
Variable exec : string -> string -> dict -> M W dict.

Lemma step_eta step : Step (api step) (action step) (params step) = step.
Proof. by destruct step. Qed.

(** Recording the calls changes nothing else. *)
Lemma recording_erase plan :
  forall results self w log,
    let recorded := execute_steps (recording exec) plan results self (w, log) in
    let plain := execute_steps exec plan results self w in
    recorded.1 = plain.1 /\ recorded.2.1 = plain.2.
Proof.
  induction plan as [|step rest IH]; intros results self w log; simpl; [done|].
  destruct (exec (api step) (action step) (params step) w) as [[result|e] w'];
    [|done].
  destruct (_ && _); [|apply IH].
  by destruct (params step !! "other_user_id").
Qed.

(** The shape of the log of a run. *)
Lemma execute_steps_calls plan :
  forall results self w log,
    let run := execute_steps (recording exec) plan results self (w, log) in
    exists calls,
      run.2.2 = log ++ calls /\
      calls.*1 = take (length calls) plan /\
      (plan <> [] -> calls <> []) /\
      (forall i call, calls !! i = Some call -> suspends call = true ->
         S i = length calls /\
         pending_action run.1.2 = Some "get_free_slots" /\
         forall v, params call.1 !! "other_user_id" = Some v ->
           pending_action_contact_id run.1.2 = Some v /\
           exists results', run.1.1 = Ret results') /\
      (forall i call, calls !! i = Some call ->
         suspends call = false -> raised call.2 = false ->
         (S i < length plan)%nat -> (S i < length calls)%nat).
Proof.
  induction plan as [|step rest IH]; intros results self w log; simpl.
  { exists []. rewrite app_nil_r.
    repeat split; try done; intros i call Hi; by rewrite lookup_nil in Hi. }
  destruct (exec (api step) (action step) (params step) w)
    as [[result|e] w'] eqn:Hexec; rewrite step_eta.
  - destruct (String.eqb (action step) "get_free_slots"
              && negb (truthy (dict_get result "success" VNone))) eqn:Hstop.
    + assert (Hsus : suspends (step, Ret result) = true) by done.
      exists [(step, Ret result)].
      destruct (params step !! "other_user_id") as [v0|] eqn:Hid; simpl;
        (split; [done|]); (split; [done|]); (split; [done|]); split.
      * intros [|i] call Hi _; simplify_eq/=;
          try (by rewrite lookup_nil in Hi).
        do 2 (split; [done|]). intros v Hv. simplify_eq. eauto.
      * intros [|i] call Hi Hs; simplify_eq/=;
          try (by rewrite lookup_nil in Hi). congruence.
      * intros [|i] call Hi _; simplify_eq/=;
          try (by rewrite lookup_nil in Hi).
        do 2 (split; [done|]). intros v Hv. congruence.
      * intros [|i] call Hi Hs; simplify_eq/=;
          try (by rewrite lookup_nil in Hi). congruence.
    + destruct (IH (<[step_key step:=result]> results) self w'
                   (log ++ [(step, Ret result)]))
        as (calls & Hlog & Hpre & Hne & Hsus & Hcont).
      exists ((step, Ret result) :: calls). simpl.
      split; [by rewrite Hlog, <- app_assoc|].
      split; [by rewrite Hpre at 1|].
      split; [done|].
      split.
      * intros [|i] call Hi Hs; simplify_eq/=.
        { unfold suspends in Hs; simpl in Hs. congruence. }
        destruct (Hsus i call Hi Hs) as (Hlen & Hp & Hv). by rewrite Hlen.
      * intros [|i] call Hi Hs Hr Hlt; simplify_eq/=.
        { destruct rest; simpl in *; [lia|].
          destruct calls; [by destruct Hne|simpl; lia]. }
        assert (S i < length calls)%nat by (apply (Hcont i call Hi Hs Hr); lia).
        lia.
  - exists [(step, Raise e)]. simpl.
    do 3 (split; [done|]).
    split; (intros [|i] call Hi; simplify_eq/=;
            try (by rewrite lookup_nil in Hi); done).
Qed.

(** The same for [_execute_plan], whose log starts empty. *)
Lemma calls_of_shape plan prompt self w :
  let calls := calls_of exec plan prompt self w in
  let outcome := (_execute_plan exec plan prompt self w).1.1 in
  let self' := (_execute_plan exec plan prompt self w).1.2 in
  calls.*1 = take (length calls) plan /\
  (plan <> [] -> calls <> []) /\
  (forall i call, calls !! i = Some call -> suspends call = true ->
     S i = length calls /\
     pending_action self' = Some "get_free_slots" /\
     forall v, params call.1 !! "other_user_id" = Some v ->
       pending_action_contact_id self' = Some v /\
       exists results, outcome = Ret results) /\
  (forall i call, calls !! i = Some call ->
     suspends call = false -> raised call.2 = false ->
     (S i < length plan)%nat -> (S i < length calls)%nat).
Proof.
  simpl. unfold calls_of, _execute_plan.
  destruct (execute_steps_calls plan ∅ self w [])
    as (calls & Hlog & Hpre & Hne & Hsus & Hcont).
  destruct (recording_erase plan ∅ self w []) as [Hsame _].
  simpl in Hlog. rewrite Hlog, <- Hsame. done.
Qed.

(** The log of [calls_of] and the outcome of [_execute_plan], read off the
    recorded run. *)
Lemma calls_of_log plan prompt self w calls :
  (execute_steps (recording exec) plan ∅ self (w, [])).2.2 = [] ++ calls ->
  calls_of exec plan prompt self w = calls.
Proof. unfold calls_of, _execute_plan. by intros ->. Qed.

Lemma recorded_outcome plan prompt self w :
  (execute_steps (recording exec) plan ∅ self (w, [])).1
  = (_execute_plan exec plan prompt self w).1.
Proof. apply (recording_erase plan ∅ self w []). Qed.

(** The results of a run that returns, counted against its calls; and what
    a suspending last call leaves behind. *)
Lemma execute_steps_counts plan :
  forall results self w log out,
    let run := execute_steps (recording exec) plan results self (w, log) in
    run.1.1 = Ret out ->
    exists calls,
      run.2.2 = log ++ calls /\
      (size out <= size results + length calls)%nat /\
      (forall call, last calls = Some call -> suspends call = true ->
         (exists result,
             call.2 = Ret result /\
             out !! step_key call.1 = Some result /\
             truthy (dict_get result "success" VNone) = false) /\
         action call.1 = "get_free_slots" /\
         pending_action run.1.2 = Some "get_free_slots" /\
         pending_action_contact_id run.1.2 = params call.1 !! "other_user_id").
Proof.
  induction plan as [|step rest IH]; intros results self w log out; simpl.
  { intros Hout. simplify_eq. exists []. rewrite app_nil_r.
    split; [done|]. split; [simpl; lia|]. by intros call Hlast. }
  destruct (exec (api step) (action step) (params step) w)
    as [[result|e] w'] eqn:Hexec; rewrite step_eta; [|done].
  assert (Hins : (size (<[step_key step:=result]> results) <= S (size results))%nat).
  { destruct (results !! step_key step) eqn:Hk.
    - rewrite map_size_insert_Some by eauto. lia.
    - rewrite map_size_insert_None by done. lia. }
  destruct (String.eqb (action step) "get_free_slots"
            && negb (truthy (dict_get result "success" VNone))) eqn:Hstop.
  - destruct (params step !! "other_user_id") as [v|] eqn:Hid; simpl; [|done].
    intros Hout. simplify_eq. exists [(step, Ret result)].
    split; [done|]. split; [simpl; lia|].
    intros call Hlast _. simplify_eq/=.
    apply andb_true_iff in Hstop as [Hact Hfail].
    apply String.eqb_eq in Hact. apply negb_true_iff in Hfail.
    split; [|done].
    exists result. by rewrite lookup_insert_eq.
  - intros Hout.
    destruct (IH (<[step_key step:=result]> results) self w'
                 (log ++ [(step, Ret result)]) out Hout)
      as (calls & Hlog & Hsize & Hlast).
    exists ((step, Ret result) :: calls).
    split; [by rewrite Hlog, <- app_assoc|].
    split; [simpl; lia|].
    intros call Hcall Hsus.
    destruct calls as [|c calls].
    + simplify_eq/=. unfold suspends in Hsus. simpl in Hsus. congruence.
    + rewrite last_cons_cons in Hcall. by apply Hlast.
Qed.

End Runner.

(** C1. A run of [_execute_plan] calls the executor on the plan's steps in
    list order, each step as the plan has it. A [get_free_slots] call that
    returns a result without success is the last call of the run: the
    runner records the pending action [get_free_slots], and when the step's
    params hold an [other_user_id] it records that id and returns. A call
    that returns and does not suspend, in particular a failed step of any
    other action, is followed by the call of the next step of the plan. *)
Theorem plan_runner_order_and_suspension :
  forall (W : Type) (exec : string -> string -> dict -> M W dict)
         (plan : list PlanStep) (prompt : string) (self : agent) (w : W),
    let calls := calls_of exec plan prompt self w in
    let outcome := (_execute_plan exec plan prompt self w).1.1 in
    let self' := (_execute_plan exec plan prompt self w).1.2 in
    calls.*1 = take (length calls) plan /\
    (plan <> [] -> calls <> []) /\
    (forall i call, calls !! i = Some call -> suspends call = true ->
       S i = length calls /\
       pending_action self' = Some "get_free_slots" /\
       forall v, params call.1 !! "other_user_id" = Some v ->
         pending_action_contact_id self' = Some v /\
         exists results, outcome = Ret results) /\
    (forall i call, calls !! i = Some call ->
       suspends call = false -> raised call.2 = false ->
       (S i < length plan)%nat -> (S i < length calls)%nat).
Proof.
  intros W exec plan prompt self w. apply calls_of_shape.
Qed.

(** A failed [find_contact] does not stop the run: with an empty directory
    both steps of the plan are called. *)
Example failed_find_contact_runs_on :
  (calls_of execute john_plan "Book a meeting with John" new_agent
            {| connections_answer := Ret (VDict []);
               person_answer := person_answer office;
               freebusy_answer := freebusy_answer office;
               events_list_answer := events_list_answer office;
               events_insert_answer := events_insert_answer office;
               llm_answer := llm_answer office;
               today_is := today_is office;
               requests := [] |}).*1 = john_plan.
Proof. vm_compute. reflexivity. Qed.

(** C4, as stated, fails: the run of the two-step plan for John suspends on
    its last step, and the results mapping holds an entry for each of the
    two steps. *)
Lemma suspended_run_has_result_of_every_step :
  exists results self' w',
    _execute_plan execute john_plan "Book a meeting with John" new_agent office
    = (Ret results, self', w') /\
    pending_action self' = Some "get_free_slots" /\
    ~ (size results < length john_plan)%nat.
Proof.
  eexists _, _, _. split; [vm_compute; reflexivity|].
  split; [reflexivity|]. vm_compute. lia.
Qed.

(** C4, amended. A run that returns holds at most one result per executed
    step, and it executes at most the steps of the plan, in order. When it
    ends suspended, that is when its last executed step is a
    [get_free_slots] step that returned without success, that failed result
    is itself among the results, the pending action and the contact id are
    set, and the results number at most the steps up to and including the
    suspending step: fewer than the steps of the plan whenever a step
    follows it. *)
Theorem results_bounded_by_steps_run :
  forall (W : Type) (exec : string -> string -> dict -> M W dict)
         (plan : list PlanStep) (prompt : string) (self : agent) (w : W)
         (results : gmap string dict) (self' : agent) (w' : W),
    _execute_plan exec plan prompt self w = (Ret results, self', w') ->
    let calls := calls_of exec plan prompt self w in
    (size results <= length calls)%nat /\
    (length calls <= length plan)%nat /\
    calls.*1 = take (length calls) plan /\
    (forall call, last calls = Some call -> suspends call = true ->
       (exists result,
           call.2 = Ret result /\
           results !! step_key call.1 = Some result /\
           truthy (dict_get result "success" VNone) = false) /\
       action call.1 = "get_free_slots" /\
       pending_action self' = Some "get_free_slots" /\
       pending_action_contact_id self' = params call.1 !! "other_user_id" /\
       ((length calls < length plan)%nat -> (size results < length plan)%nat)).
Proof.
  intros W exec plan prompt self w results self' w' Hrun. simpl.
  pose proof (recorded_outcome exec plan prompt self w) as Hsame.
  rewrite Hrun in Hsame. simpl in Hsame.
  assert (Hout : (execute_steps (recording exec) plan ∅ self (w, [])).1.1
                 = Ret results) by (by rewrite Hsame).
  destruct (execute_steps_counts exec plan ∅ self w [] results Hout)
    as (calls & Hlog & Hsize & Hlast).
  rewrite Hsame in Hlast. simpl in Hlast.
  destruct (calls_of_shape exec plan prompt self w) as (Hpre & _).
  rewrite (calls_of_log exec plan prompt self w calls Hlog) in *.
  rewrite map_size_empty in Hsize.
  assert (Hlen : (length calls <= length plan)%nat).
  { apply (f_equal length) in Hpre.
    rewrite length_fmap, length_take in Hpre. lia. }
  split; [lia|]. split; [done|]. split; [done|].
  intros call Hcall Hsus.
  destruct (Hlast call Hcall Hsus) as (Hres & Hact & Hp & Hid).
  repeat split; try done. lia.
Qed.

(** A run on an agent that already holds a pending action: it suspends on
    the first of the plan's two steps, with one result for two steps. *)
Lemma results_bounded_by_steps_run_witness :
  let reused := {| pending_action := Some "get_free_slots";
                   pending_action_contact_id := Some (VStr "old") |} in
  let results : gmap string dict :=
    <[ "calendar_get_free_slots" := failure "unavailable" ]> ∅ in
  let self' := {| pending_action := Some "get_free_slots";
                  pending_action_contact_id := Some (VStr "c123") |} in
  let call : PlanStep * res dict :=
    ({| api := "calendar"; action := "get_free_slots";
        params := {[ "other_user_id" := VStr "c123" ]} |},
     Ret (failure "unavailable")) in
  _execute_plan always_failing slots_first_plan "Book a meeting" reused tt
  = (Ret results, self', tt) /\
  calls_of always_failing slots_first_plan "Book a meeting" reused tt = [call] /\
  suspends call = true /\
  (size results <= 1)%nat /\
  (exists result,
      call.2 = Ret result /\
      results !! step_key call.1 = Some result /\
      truthy (dict_get result "success" VNone) = false) /\
  pending_action self' = Some "get_free_slots" /\
  pending_action_contact_id self' = params call.1 !! "other_user_id" /\
  (size results < length slots_first_plan)%nat.
Proof.
  intros reused results self' call.
  destruct (results_bounded_by_steps_run unit always_failing slots_first_plan
              "Book a meeting" reused tt results self' tt eq_refl)
    as (Hsize & _ & _ & Hsuspended).
  destruct (Hsuspended call eq_refl eq_refl) as (Hres & _ & Hp & Hid & Hlt).
  split; [reflexivity|]. split; [reflexivity|]. split; [reflexivity|].
  split; [exact Hsize|]. split; [exact Hres|]. split; [exact Hp|].
  split; [exact Hid|]. apply Hlt. exact (le_n 2).
Defined.

(** C5. The plan runner hands each step to the executor as the plan has it
    (first part); so the [get_free_slots] step of the plan for John is
    executed with the placeholder: [find_contact] returns John's contact id
    [c123], and the executor is then asked for the free slots of
    [other_user_id = "PLACEHOLDER"] and looks up [people/PLACEHOLDER]
    (second part). *)
Theorem get_free_slots_runs_with_placeholder :
  (forall (W : Type) (exec : string -> string -> dict -> M W dict)
          (plan : list PlanStep) (prompt : string) (self : agent) (w : W)
          (call : PlanStep * res dict),
      call ∈ calls_of exec plan prompt self w -> call.1 ∈ plan) /\
  (exists found failed,
      calls_of execute john_plan "Book a meeting with John" new_agent office
      = [ ({| api := "contacts"; action := "find_contact";
              params := {[ "name" := VStr "John" ]} |}, Ret found);
          ({| api := "calendar"; action := "get_free_slots";
              params := {[ "user_id" := VStr "primary";
                           "other_user_id" := VStr "PLACEHOLDER" ]} |},
           Ret failed) ] /\
      found !! "success" = Some (VBool true) /\
      found !! "contact_id" = Some (VStr "c123") /\
      failed = failure "Could not find contact email" /\
      requests (_execute_plan execute john_plan "Book a meeting with John"
                              new_agent office).2
      = ["connections.list"; "people.get people/PLACEHOLDER"]).
Proof.
  split.
  - intros W exec plan prompt self w call Hin.
    destruct (calls_of_shape exec plan prompt self w) as [Hpre _].
    apply (subseteq_take (length (calls_of exec plan prompt self w))).
    rewrite <- Hpre. by apply list_elem_of_fmap_2.
  - eexists _, _. split; [vm_compute; reflexivity|].
    repeat split; vm_compute; reflexivity.
Qed.

(** ** The response synthesizer *)

(** C7. [_generate_response] depends on the results mapping only and has
    four outcomes. Call a key successful when the mapping holds a result
    under it whose ["success"] entry is true. Without a successful
    [contacts_find_contact] the response is "Failed to find contact." with
    status error; with it and without a successful
    [calendar_get_free_slots], "Failed to find available slots. Please
    specify a date." with status error; with both and no slot, the
    ["slots"] entry being absent or empty, "There are no available time
    slots. Would you like to try a different day?" with status success;
    with both and a non-empty slots list, "Meeting slots found and
    processed." with status success. *)
Theorem response_has_four_outcomes :
  forall (prompt : string) (results : gmap string dict),
    let successful (key : string) : Prop :=
      exists (result : dict) (v : value),
        results !! key = Some result /\
        result !! "success" = Some v /\
        truthy v = true in
    (~ successful "contacts_find_contact" ->
     _generate_response prompt results
     = response "Failed to find contact." "error") /\
    (successful "contacts_find_contact" ->
     ~ successful "calendar_get_free_slots" ->
     _generate_response prompt results
     = response "Failed to find available slots. Please specify a date." "error") /\
    (forall found : dict,
        successful "contacts_find_contact" ->
        successful "calendar_get_free_slots" ->
        results !! "calendar_get_free_slots" = Some found ->
        found !! "slots" = None
        \/ (exists v, found !! "slots" = Some v /\ truthy v = false) ->
        _generate_response prompt results
        = response "There are no available time slots. Would you like to try a different day?"
                   "success") /\
    (forall (found : dict) (slot : value) (slots : list value),
        successful "contacts_find_contact" ->
        successful "calendar_get_free_slots" ->
        results !! "calendar_get_free_slots" = Some found ->
        found !! "slots" = Some (VList (slot :: slots)) ->
        _generate_response prompt results
        = response "Meeting slots found and processed." "success") /\
    (forall prompt' : string,
        _generate_response prompt' results = _generate_response prompt results) /\
    _generate_response prompt results
    ∈ [ response "Failed to find contact." "error";
        response "Failed to find available slots. Please specify a date." "error";
        response "There are no available time slots. Would you like to try a different day?"
                 "success";
        response "Meeting slots found and processed." "success" ].
Proof.
  intros prompt results successful.
  assert (Hyes : forall key, successful key -> succeeded results key = true).
  { intros key (result & v & Hres & Hv & Htrue).
    unfold succeeded, dict_get. by rewrite Hres, Hv. }
  assert (Hno : forall key, ~ successful key -> succeeded results key = false).
  { intros key Hnot. unfold succeeded, dict_get.
    destruct (results !! key) as [result|] eqn:Hres; [|done].
    destruct (result !! "success") as [v|] eqn:Hv; [|done]. simpl.
    apply not_true_is_false. intros Htrue. apply Hnot.
    by exists result, v. }
  unfold _generate_response.
  split; [intros Hc; by rewrite (Hno _ Hc)|].
  split; [intros Hc Hs; by rewrite (Hyes _ Hc), (Hno _ Hs)|].
  split.
  { intros found Hc Hs Hfound Hslots.
    rewrite (Hyes _ Hc), (Hyes _ Hs), Hfound. simpl. unfold dict_get.
    destruct Hslots as [Hnone|(v & Hv & Hfalse)].
    - by rewrite Hnone.
    - rewrite Hv. simpl. by rewrite Hfalse. }
  split.
  { intros found slot slots Hc Hs Hfound Hslots.
    rewrite (Hyes _ Hc), (Hyes _ Hs), Hfound. simpl. unfold dict_get.
    by rewrite Hslots. }
  split; [done|].
  destruct (succeeded results "contacts_find_contact");
    [destruct (succeeded results "calendar_get_free_slots");
     [destruct (truthy _)|]|];
    set_solver.
Qed.

(** The four outcomes, each on a mapping that reaches it. *)
Lemma response_has_four_outcomes_witness :
  _generate_response "Book a meeting with John" ∅
  = response "Failed to find contact." "error" /\
  _generate_response "Book a meeting with John"
    {[ "contacts_find_contact" := {[ "success" := VBool true ]};
       "calendar_get_free_slots" := failure "unavailable" ]}
  = response "Failed to find available slots. Please specify a date." "error" /\
  _generate_response "Book a meeting with John"
    {[ "contacts_find_contact" := {[ "success" := VBool true ]};
       "calendar_get_free_slots" :=
         {[ "success" := VBool true; "slots" := VList [] ]} ]}
  = response "There are no available time slots. Would you like to try a different day?"
             "success" /\
  _generate_response "Book a meeting with John"
    {[ "contacts_find_contact" := {[ "success" := VBool true ]};
       "calendar_get_free_slots" :=
         {[ "success" := VBool true; "slots" := VList [VStr "09:00"] ]} ]}
  = response "Meeting slots found and processed." "success".
Proof.
  split; [|split; [|split]].
  - apply (response_has_four_outcomes "Book a meeting with John" ∅).
    intros (result & v & Hres & _). discriminate Hres.
  - apply (response_has_four_outcomes "Book a meeting with John"
             {[ "contacts_find_contact" := {[ "success" := VBool true ]};
                "calendar_get_free_slots" := failure "unavailable" ]}).
    + exists {[ "success" := VBool true ]}, (VBool true).
      split; [reflexivity|]. split; reflexivity.
    + intros (result & v & Hres & Hv & Htrue).
      rewrite lookup_insert_ne, lookup_singleton_eq in Hres by done.
      injection Hres as <-. unfold failure in Hv.
      rewrite lookup_insert_eq in Hv. injection Hv as <-.
      discriminate Htrue.
  - pose proof (response_has_four_outcomes "Book a meeting with John"
                  {[ "contacts_find_contact" := {[ "success" := VBool true ]};
                     "calendar_get_free_slots" :=
                       {[ "success" := VBool true; "slots" := VList [] ]} ]})
      as (_ & _ & Hempty & _).
    apply (Hempty {[ "success" := VBool true; "slots" := VList [] ]}).
    + exists {[ "success" := VBool true ]}, (VBool true).
      split; [reflexivity|]. split; reflexivity.
    + exists {[ "success" := VBool true; "slots" := VList [] ]}, (VBool true).
      split; [reflexivity|]. split; reflexivity.
    + reflexivity.
    + right. exists (VList []). split; reflexivity.
  - pose proof (response_has_four_outcomes "Book a meeting with John"
                  {[ "contacts_find_contact" := {[ "success" := VBool true ]};
                     "calendar_get_free_slots" :=
                       {[ "success" := VBool true;
                          "slots" := VList [VStr "09:00"] ]} ]})
      as (_ & _ & _ & Hfound & _).
    apply (Hfound {[ "success" := VBool true; "slots" := VList [VStr "09:00"] ]}
                  (VStr "09:00") []).
    + exists {[ "success" := VBool true ]}, (VBool true).
      split; [reflexivity|]. split; reflexivity.
    + exists {[ "success" := VBool true; "slots" := VList [VStr "09:00"] ]},
        (VBool true).
      split; [reflexivity|]. split; reflexivity.
    + reflexivity.
    + reflexivity.
Defined.

(** Every response carries a message and a status, success or error. *)
Lemma response_status prompt results :
  exists msg status,
    _generate_response prompt results = response msg status /\
    (status = "success" \/ status = "error").
Proof.
  unfold _generate_response.
  destruct (succeeded results "contacts_find_contact");
    [destruct (succeeded results "calendar_get_free_slots");
     [destruct (truthy _)|]|];
    eexists _, _; (split; [reflexivity|]); auto.
Qed.

(** ** The plan builder *)

(** The three rules, for a [date] expression that evaluates. *)
Lemma build_plan_rules date_value intent user_id :
  exists plan,
    build_plan (Ret date_value) intent user_id = Ret plan /\
    plan =
      match intent !! "contact_name" with
      | Some contact_name =>
          [ {| api := "contacts"; action := "find_contact";
               params := {[ "name" := contact_name ]} |} ]
      | None => []
      end
      ++ (if bool_decide (is_Some (intent !! "ask_preferences"))
             && truthy (dict_get intent "ask_preferences" VNone)
          then [ {| api := "preferences"; action := "get_meeting_preferences";
                    params := {[ "user_id" := VStr user_id;
                                 "ask_user" := VBool true ]} |} ]
          else [])
      ++ [ {| api := "calendar"; action := "get_free_slots";
              params := {[ "user_id" := VStr user_id;
                           "other_user_id" := VStr "PLACEHOLDER";
                           "date" := date_value ]} |} ].
Proof.
  eexists. split; [reflexivity|]. unfold build_plan. simpl.
  destruct (intent !! "contact_name"); destruct (_ && _); simpl;
    by rewrite <- ?app_assoc.
Qed.

(** The builder of [google_calendar_integration_openai.py] returns the plan
    of the three rules, which ends with the one [get_free_slots] step. *)
Lemma sibling_builder_follows_rules intent user_id :
  exists plan steps,
    google_calendar_integration_openai._create_execution_plan intent user_id
    = Ret plan /\
    plan = steps ++ [ {| api := "calendar"; action := "get_free_slots";
                         params := {[ "user_id" := VStr user_id;
                                      "other_user_id" := VStr "PLACEHOLDER";
                                      "date" := VStr "PLACEHOLDER" ]} |} ] /\
    plan <> [].
Proof.
  destruct (build_plan_rules (VStr "PLACEHOLDER") intent user_id) as (plan & Hp & ->).
  eexists _, _. split; [exact Hp|]. rewrite app_assoc. split; [reflexivity|].
  intros Hnil. by apply app_nil in Hnil as [_ ?].
Qed.

(** C9. The builder of [meeting_booking_agent.py] returns no plan: for every
    intent and user id, building the last step evaluates
    [datetime.date.today()] with [datetime] bound to the class
    [datetime.datetime], which raises [AttributeError]; in particular for
    the intent that [_parse_intent_with_llm] returns. *)
Theorem plan_builder_raises_attribute_error :
  (forall (intent : dict) (user_id : string),
      _create_execution_plan intent user_id
      = Raise (Exn AttributeError
                   "'method_descriptor' object has no attribute 'today'")) /\
  _create_execution_plan
    {[ "action" := VStr "book_meeting"; "contact_name" := VStr "Chinmay Sir";
       "ask_preferences" := VBool false ]} "primary"
  = Raise (Exn AttributeError
               "'method_descriptor' object has no attribute 'today'").
Proof. split; [intros intent user_id|]; reflexivity. Qed.

(** ** The entry point *)

(** C3, as stated, fails: with the LLM out of reach, [process_user_prompt]
    raises the service's exception to its caller. *)
Lemma process_user_prompt_raises_llm_failure :
  (process_user_prompt "Book a meeting with John" "primary" office_llm_down).1
  = Raise service_down.
Proof. reflexivity. Qed.

(** Whatever the LLM answers, the call does not return a response. *)
Lemma process_user_prompt_never_returns {W : Type} `{Collaborators W}
    (prompt user_id : string) (w : W) :
  exists e, (process_user_prompt prompt user_id w).1 = Raise e.
Proof.
  unfold process_user_prompt, _parse_intent_with_llm, mbind, lift, mret.
  destruct (chat_completion _ w) as [[content|e] w']; simpl; eauto.
Qed.

(** C3, amended. [process_user_prompt] has no exception handler: an
    exception raised by the LLM call of the intent parser reaches the caller
    unchanged. The record the response synthesizer builds always carries a
    message and a status that is success or error. *)
Theorem process_user_prompt_propagates_parser_failure :
  forall (W : Type) (services : Collaborators W) (prompt user_id : string)
         (w w' : W) (e : exn),
    chat_completion ("Analyze this prompt: " +:+ prompt
                     +:+ ". Extract intent and details.") w = (Raise e, w') ->
    process_user_prompt prompt user_id w = (Raise e, w') /\
    forall results : gmap string dict,
      exists msg status,
        _generate_response prompt results = response msg status /\
        (status = "success" \/ status = "error").
Proof.
  intros W services prompt user_id w w' e Hllm. split.
  - unfold process_user_prompt, _parse_intent_with_llm, mbind. by rewrite Hllm.
  - intros results. apply response_status.
Qed.

Lemma process_user_prompt_propagates_parser_failure_witness :
  process_user_prompt "Book a meeting with John" "primary" office_llm_down
  = (Raise service_down, note "chat.completions.create" office_llm_down) /\
  forall results : gmap string dict,
    exists msg status,
      _generate_response "Book a meeting with John" results = response msg status /\
      (status = "success" \/ status = "error").
Proof.
  apply (process_user_prompt_propagates_parser_failure script scripted
           "Book a meeting with John" "primary" office_llm_down).
  reflexivity.
Defined.

(** ** The step executor *)

Section ExecutorFacts.
Context `{PyLib} {W : Type} `{Collaborators W}.

(** A [try] whose handler returns never raises. *)
Lemma try_except_returns {A} (body : M W A) (handler : exn -> M W A) (w : W) :
  (forall e w1, exists a w2, handler e w1 = (Ret a, w2)) ->
  exists a w', try_except body handler w = (Ret a, w').
Proof.
  intros Hh. unfold try_except.
  destruct (body w) as [[a|e] w1]; [by eauto|apply Hh].
Qed.

Ltac by_handler :=
  apply try_except_returns; intros; eexists _, _; reflexivity.

Lemma _find_contact_returns name w :
  exists result w', _find_contact name w = (Ret result, w').
Proof. by_handler. Qed.

Lemma _get_contact_details_returns contact_id w :
  exists result w', _get_contact_details contact_id w = (Ret result, w').
Proof. by_handler. Qed.

Lemma _get_free_slots_returns user_id other_user_id date w :
  exists result w', _get_free_slots user_id other_user_id date w = (Ret result, w').
Proof. by_handler. Qed.

Lemma _check_availability_returns user_id start_time end_time w :
  exists result w',
    _check_availability user_id start_time end_time w = (Ret result, w').
Proof. by_handler. Qed.

Lemma _book_meeting_returns title attendees start_time end_time description w :
  exists result w',
    _book_meeting title attendees start_time end_time description w
    = (Ret result, w').
Proof. by_handler. Qed.

Lemma _get_meeting_preferences_returns user_id ask_user w :
  exists result w', _get_meeting_preferences user_id ask_user w = (Ret result, w').
Proof.
  unfold _get_meeting_preferences, _ask_user_for_preferences.
  destruct (truthy ask_user); eexists _, _; reflexivity.
Qed.

(** Reading a parameter that the params do not have. *)
Lemma dict_item_None (params : dict) k :
  params !! k = None -> dict_item params k = Raise (key_error k).
Proof. unfold dict_item. by intros ->. Qed.

Lemma dict_item_Some (params : dict) k v :
  params !! k = Some v -> dict_item params k = Ret v.
Proof. unfold dict_item. by intros ->. Qed.

Ltac read_param k :=
  unfold mbind at 1, lift at 1, dict_item at 1;
  let Hk := fresh "Hk" in
  destruct (_ !! k) eqn:Hk;
  [|intros; simplify_eq; split; [eexists; split; [reflexivity|done]|done]].

Ltac returns lemma :=
  let Heq := fresh in
  intros Hraise; destruct lemma as (? & ? & Heq);
  rewrite Heq in Hraise; discriminate.

(** [execute] raises only for a parameter that is missing, and then it
    has called no service. *)
Lemma execute_raises_only_key_error api_name action params w e w' :
  execute api_name action params w = (Raise e, w') ->
  (exists k, e = key_error k /\ params !! k = None) /\ w' = w.
Proof.
  unfold execute.
  destruct (String.eqb api_name "contacts");
    [|destruct (String.eqb api_name "calendar");
      [|destruct (String.eqb api_name "preferences"); [|done]]].
  - unfold _execute_contacts_api.
    destruct (String.eqb action "find_contact");
      [|destruct (String.eqb action "get_contact_details"); [|done]].
    + read_param "name". returns (_find_contact_returns v w).
    + read_param "contact_id". returns (_get_contact_details_returns v w).
  - unfold _execute_calendar_api.
    destruct (String.eqb action "check_availability");
      [|destruct (String.eqb action "get_free_slots");
        [|destruct (String.eqb action "book_meeting"); [|done]]].
    + read_param "user_id". read_param "start_time". read_param "end_time".
      returns (_check_availability_returns v v0 v1 w).
    + read_param "user_id". read_param "other_user_id".
      returns (_get_free_slots_returns v v0 (dict_get params "date" VNone) w).
    + read_param "title". read_param "attendees".
      read_param "start_time". read_param "end_time".
      returns (_book_meeting_returns v v0 v1 v2
                 (dict_get params "description" (VStr "")) w).
  - unfold _execute_preferences_api.
    destruct (String.eqb action "get_meeting_preferences"); [|done].
    read_param "user_id".
    returns (_get_meeting_preferences_returns v
               (dict_get params "ask_user" (VBool false)) w).
Qed.

Lemma eqb_ne (a b : string) : a <> b -> String.eqb a b = false.
Proof. intros. by apply String.eqb_neq. Qed.

Lemma execute_unknown_api api_name action params w :
  api_name <> "contacts" -> api_name <> "calendar" -> api_name <> "preferences" ->
  execute api_name action params w
  = (Ret (failure ("Unknown API: " +:+ api_name)), w).
Proof. intros. unfold execute. by rewrite !eqb_ne. Qed.

Lemma execute_unknown_contacts_action action params w :
  action <> "find_contact" -> action <> "get_contact_details" ->
  execute "contacts" action params w
  = (Ret (failure ("Unknown contacts action: " +:+ action)), w).
Proof.
  intros. unfold execute, _execute_contacts_api. simpl. by rewrite !eqb_ne.
Qed.

Lemma execute_unknown_calendar_action action params w :
  action <> "check_availability" -> action <> "get_free_slots" ->
  action <> "book_meeting" ->
  execute "calendar" action params w
  = (Ret (failure ("Unknown calendar action: " +:+ action)), w).
Proof.
  intros. unfold execute, _execute_calendar_api. simpl. by rewrite !eqb_ne.
Qed.

Lemma execute_unknown_preferences_action action params w :
  action <> "get_meeting_preferences" ->
  execute "preferences" action params w
  = (Ret (failure ("Unknown preferences action: " +:+ action)), w).
Proof.
  intros. unfold execute, _execute_preferences_api. simpl. by rewrite !eqb_ne.
Qed.

(** The service call of an action raises: the action's handler turns the
    exception into a failure that quotes its text. *)
Lemma find_contact_converts params name w e w' :
  params !! "name" = Some (VStr name) ->
  people_connections_list w = (Raise e, w') ->
  execute "contacts" "find_contact" params w
  = (Ret (failure ("Error finding contact: " +:+ exn_text e)), w').
Proof.
  intros Hname Hcall. unfold execute, _execute_contacts_api. simpl.
  unfold mbind at 1, lift at 1. rewrite (dict_item_Some _ _ _ Hname).
  unfold _find_contact, try_except, mbind, lift. simpl. by rewrite Hcall.
Qed.

Lemma get_contact_details_converts contact_id w e w' :
  people_get ("people/" +:+ py_str contact_id) w = (Raise e, w') ->
  _get_contact_details contact_id w
  = (Ret (failure ("Error getting contact details: " +:+ exn_text e)), w').
Proof.
  intros Hcall. unfold _get_contact_details, try_except, mbind. by rewrite Hcall.
Qed.

Lemma contact_details_converts params contact_id w e w' :
  params !! "contact_id" = Some contact_id ->
  people_get ("people/" +:+ py_str contact_id) w = (Raise e, w') ->
  execute "contacts" "get_contact_details" params w
  = (Ret (failure ("Error getting contact details: " +:+ exn_text e)), w').
Proof.
  intros Hid Hcall. unfold execute, _execute_contacts_api. simpl.
  unfold mbind at 1, lift at 1. rewrite (dict_item_Some _ _ _ Hid).
  by apply get_contact_details_converts.
Qed.

(** The day [_get_free_slots] scans (lines 136-139) is [resolve_date] of
    the date parameter. *)
Lemma resolve_date_step {B} (date : value) (k : Z -> M W B) (w : W) :
  mbind (if truthy date then lift (py_date_fromisoformat date)
         else fun w => (Ret (today w + 1), w)) k w
  = match resolve_date date (today w) with
    | Ret base_date => k base_date w
    | Raise e => (Raise e, w)
    end.
Proof.
  unfold resolve_date, mbind, lift.
  destruct (truthy date); [by destruct (py_date_fromisoformat date)|done].
Qed.

Lemma free_slots_converts params user_id other_user_id base_date contact
    w w1 e w2 :
  params !! "user_id" = Some user_id ->
  params !! "other_user_id" = Some other_user_id ->
  resolve_date (dict_get params "date" VNone) (today w) = Ret base_date ->
  _get_contact_details other_user_id w = (Ret contact, w1) ->
  truthy (dict_get contact "success" (VBool false)) = true ->
  truthy (dict_get contact "email" (VStr "")) = true ->
  freebusy_query (freebusy_request base_date (dict_get contact "email" (VStr ""))) w1
  = (Raise e, w2) ->
  execute "calendar" "get_free_slots" params w
  = (Ret (failure ("Error getting free slots: " +:+ exn_text e)), w2).
Proof.
  intros Hu Ho Hdate Hcontact Hok Hemail Hcall.
  unfold execute, _execute_calendar_api. simpl.
  unfold mbind at 1, lift at 1. rewrite (dict_item_Some _ _ _ Hu).
  unfold mbind at 1, lift at 1. rewrite (dict_item_Some _ _ _ Ho).
  unfold _get_free_slots, try_except. rewrite resolve_date_step, Hdate.
  unfold mbind at 1. rewrite Hcontact, Hok, Hemail. simpl.
  unfold mbind at 1. unfold freebusy_request in Hcall. by rewrite Hcall.
Qed.

Lemma free_slots_date_converts params user_id other_user_id w e :
  params !! "user_id" = Some user_id ->
  params !! "other_user_id" = Some other_user_id ->
  resolve_date (dict_get params "date" VNone) (today w) = Raise e ->
  execute "calendar" "get_free_slots" params w
  = (Ret (failure ("Error getting free slots: " +:+ exn_text e)), w).
Proof.
  intros Hu Ho Hdate.
  unfold execute, _execute_calendar_api. simpl.
  unfold mbind at 1, lift at 1. rewrite (dict_item_Some _ _ _ Hu).
  unfold mbind at 1, lift at 1. rewrite (dict_item_Some _ _ _ Ho).
  unfold _get_free_slots, try_except. by rewrite resolve_date_step, Hdate.
Qed.

Lemma check_availability_converts params user_id start_time end_time
    start_dt end_dt w e w' :
  params !! "user_id" = Some user_id ->
  params !! "start_time" = Some start_time ->
  params !! "end_time" = Some end_time ->
  parse_timestamp start_time = Ret start_dt ->
  parse_timestamp end_time = Ret end_dt ->
  events_list (datetime_isoformat start_dt +:+ "Z")
              (datetime_isoformat end_dt +:+ "Z") w = (Raise e, w') ->
  execute "calendar" "check_availability" params w
  = (Ret (failure ("Error checking availability: " +:+ exn_text e)), w').
Proof.
  intros Hu Hs He Hps Hpe Hcall.
  unfold execute, _execute_calendar_api. simpl.
  unfold mbind at 1, lift at 1. rewrite (dict_item_Some _ _ _ Hu).
  unfold mbind at 1, lift at 1. rewrite (dict_item_Some _ _ _ Hs).
  unfold mbind at 1, lift at 1. rewrite (dict_item_Some _ _ _ He).
  unfold _check_availability, try_except, mbind, lift.
  by rewrite Hps, Hpe, Hcall.
Qed.

Lemma book_meeting_converts params title attendees start_time end_time
    attendee_ids attendee_emails w w1 e w2 :
  params !! "title" = Some title ->
  params !! "attendees" = Some attendees ->
  params !! "start_time" = Some start_time ->
  params !! "end_time" = Some end_time ->
  py_iter attendees = Ret attendee_ids ->
  attendee_emails_of [] attendee_ids w = (Ret attendee_emails, w1) ->
  events_insert
    (VDict [("summary", title);
            ("description", dict_get params "description" (VStr ""));
            ("start", VDict [("dateTime", start_time); ("timeZone", VStr "UTC")]);
            ("end", VDict [("dateTime", end_time); ("timeZone", VStr "UTC")]);
            ("attendees", VList attendee_emails);
            ("reminders", VDict [("useDefault", VBool true)])]) w1
  = (Raise e, w2) ->
  execute "calendar" "book_meeting" params w
  = (Ret (failure ("Error booking meeting: " +:+ exn_text e)), w2).
Proof.
  intros Ht Ha Hs He Hids Hemails Hcall.
  unfold execute, _execute_calendar_api. simpl.
  unfold mbind at 1, lift at 1. rewrite (dict_item_Some _ _ _ Ht).
  unfold mbind at 1, lift at 1. rewrite (dict_item_Some _ _ _ Ha).
  unfold mbind at 1, lift at 1. rewrite (dict_item_Some _ _ _ Hs).
  unfold mbind at 1, lift at 1. rewrite (dict_item_Some _ _ _ He).
  unfold _book_meeting, try_except.
  unfold mbind at 1, lift at 1. rewrite Hids.
  unfold mbind at 1. rewrite Hemails.
  unfold mbind at 1. by rewrite Hcall.
Qed.

(** The contact lookup inside another action raises: the lookup's own
    handler absorbs the exception, and the action goes on with a failed
    lookup. *)
Lemma free_slots_absorbs_lookup_failure params user_id other_user_id base_date
    w e w' :
  params !! "user_id" = Some user_id ->
  params !! "other_user_id" = Some other_user_id ->
  resolve_date (dict_get params "date" VNone) (today w) = Ret base_date ->
  people_get ("people/" +:+ py_str other_user_id) w = (Raise e, w') ->
  execute "calendar" "get_free_slots" params w
  = (Ret (failure "Could not find contact email"), w').
Proof.
  intros Hu Ho Hdate Hcall.
  unfold execute, _execute_calendar_api. simpl.
  unfold mbind at 1, lift at 1. rewrite (dict_item_Some _ _ _ Hu).
  unfold mbind at 1, lift at 1. rewrite (dict_item_Some _ _ _ Ho).
  unfold _get_free_slots, try_except. rewrite resolve_date_step, Hdate.
  unfold mbind at 1.
  by rewrite (get_contact_details_converts _ _ _ _ Hcall).
Qed.

Lemma book_meeting_drops_unresolved_attendee attendee_emails attendee_id rest
    w e w' :
  py_contains_str "@" attendee_id = Ret false ->
  people_get ("people/" +:+ py_str attendee_id) w = (Raise e, w') ->
  attendee_emails_of attendee_emails (attendee_id :: rest) w
  = attendee_emails_of attendee_emails rest w'.
Proof.
  intros Hat Hcall. simpl.
  unfold mbind at 1, lift at 1. rewrite Hat.
  unfold mbind at 1.
  by rewrite (get_contact_details_converts _ _ _ _ Hcall).
Qed.

End ExecutorFacts.

(** C6, as stated, fails: during [book_meeting] the contact lookup of the
    attendee [zzz] raises, and the step result is a success that mentions
    neither the failure nor the exception's text. *)
Lemma unresolved_attendee_exception_is_not_reported :
  (people_get "people/zzz" office).1 = Raise service_down /\
  exists result w',
    execute "calendar" "book_meeting"
            {[ "title" := VStr "Sync";
               "attendees" := VList [VStr "zzz"; VStr "ann@example.com"];
               "start_time" := VStr "2030-01-07T10:00:00Z";
               "end_time" := VStr "2030-01-07T10:30:00Z" ]} office
    = (Ret result, w') /\
    result !! "success" = Some (VBool true) /\
    result !! "error" = None /\
    result !! "attendees" = Some (VList [VStr "ann@example.com"]) /\
    requests w' = ["people.get people/zzz"; "events.insert"].
Proof.
  split; [reflexivity|].
  eexists _, _. split; [vm_compute; reflexivity|].
  repeat split; vm_compute; reflexivity.
Qed.

(** C6, amended. An unrecognized api or action gives a failure result
    "Unknown API: <name>" or "Unknown <api> action: <name>" and calls no
    service. No exception of a service call leaves [execute]: it raises only
    the [KeyError] of a missing parameter, before any call. When the
    service call of an action raises, the request being the one the action
    builds, the result is a failure whose error is the action's prefix
    followed by the exception's text: the connections list of
    [find_contact] for a name that is a string, the person lookup of
    [get_contact_details], the free/busy query that [get_free_slots] makes,
    once the contact lookup has given an address, for the day its date
    parameter resolves to (the parsed date, or tomorrow when there is
    none), the events list that [check_availability] asks for once both
    timestamps parse, and the insertion that [book_meeting] makes once the
    attendees are gathered. A date of [get_free_slots] that does not parse
    gives such a failure too, before any call. When the contact lookup
    nested in [get_free_slots], for a date that resolves, or in
    [book_meeting], for an attendee that is not an address, raises, the
    lookup absorbs the exception: [get_free_slots] answers "Could not find
    contact email" and [book_meeting] leaves the attendee out and goes
    on. *)
Theorem executor_normalizes_errors :
  forall (lib : PyLib) (W : Type) (services : Collaborators W),
    (forall api_name action params (w : W),
        api_name <> "contacts" -> api_name <> "calendar" ->
        api_name <> "preferences" ->
        execute api_name action params w
        = (Ret (failure ("Unknown API: " +:+ api_name)), w)) /\
    (forall action params (w : W),
        action <> "find_contact" -> action <> "get_contact_details" ->
        execute "contacts" action params w
        = (Ret (failure ("Unknown contacts action: " +:+ action)), w)) /\
    (forall action params (w : W),
        action <> "check_availability" -> action <> "get_free_slots" ->
        action <> "book_meeting" ->
        execute "calendar" action params w
        = (Ret (failure ("Unknown calendar action: " +:+ action)), w)) /\
    (forall action params (w : W),
        action <> "get_meeting_preferences" ->
        execute "preferences" action params w
        = (Ret (failure ("Unknown preferences action: " +:+ action)), w)) /\
    (forall api_name action params (w w' : W) e,
        execute api_name action params w = (Raise e, w') ->
        (exists k, e = key_error k /\ params !! k = None) /\ w' = w) /\
    (forall params name (w w' : W) e,
        params !! "name" = Some (VStr name) ->
        people_connections_list w = (Raise e, w') ->
        execute "contacts" "find_contact" params w
        = (Ret (failure ("Error finding contact: " +:+ exn_text e)), w')) /\
    (forall params contact_id (w w' : W) e,
        params !! "contact_id" = Some contact_id ->
        people_get ("people/" +:+ py_str contact_id) w = (Raise e, w') ->
        execute "contacts" "get_contact_details" params w
        = (Ret (failure ("Error getting contact details: " +:+ exn_text e)), w')) /\
    (forall params user_id other_user_id base_date contact (w w1 w2 : W) e,
        params !! "user_id" = Some user_id ->
        params !! "other_user_id" = Some other_user_id ->
        resolve_date (dict_get params "date" VNone) (today w) = Ret base_date ->
        _get_contact_details other_user_id w = (Ret contact, w1) ->
        truthy (dict_get contact "success" (VBool false)) = true ->
        truthy (dict_get contact "email" (VStr "")) = true ->
        freebusy_query
          (freebusy_request base_date (dict_get contact "email" (VStr ""))) w1
        = (Raise e, w2) ->
        execute "calendar" "get_free_slots" params w
        = (Ret (failure ("Error getting free slots: " +:+ exn_text e)), w2)) /\
    (forall params user_id other_user_id (w : W) e,
        params !! "user_id" = Some user_id ->
        params !! "other_user_id" = Some other_user_id ->
        resolve_date (dict_get params "date" VNone) (today w) = Raise e ->
        execute "calendar" "get_free_slots" params w
        = (Ret (failure ("Error getting free slots: " +:+ exn_text e)), w)) /\
    (forall params user_id start_time end_time start_dt end_dt (w w' : W) e,
        params !! "user_id" = Some user_id ->
        params !! "start_time" = Some start_time ->
        params !! "end_time" = Some end_time ->
        parse_timestamp start_time = Ret start_dt ->
        parse_timestamp end_time = Ret end_dt ->
        events_list (datetime_isoformat start_dt +:+ "Z")
                    (datetime_isoformat end_dt +:+ "Z") w = (Raise e, w') ->
        execute "calendar" "check_availability" params w
        = (Ret (failure ("Error checking availability: " +:+ exn_text e)), w')) /\
    (forall params title attendees start_time end_time attendee_ids
            attendee_emails (w w1 w2 : W) e,
        params !! "title" = Some title ->
        params !! "attendees" = Some attendees ->
        params !! "start_time" = Some start_time ->
        params !! "end_time" = Some end_time ->
        py_iter attendees = Ret attendee_ids ->
        attendee_emails_of [] attendee_ids w = (Ret attendee_emails, w1) ->
        events_insert
          (VDict [("summary", title);
                  ("description", dict_get params "description" (VStr ""));
                  ("start", VDict [("dateTime", start_time);
                                   ("timeZone", VStr "UTC")]);
                  ("end", VDict [("dateTime", end_time);
                                 ("timeZone", VStr "UTC")]);
                  ("attendees", VList attendee_emails);
                  ("reminders", VDict [("useDefault", VBool true)])]) w1
        = (Raise e, w2) ->
        execute "calendar" "book_meeting" params w
        = (Ret (failure ("Error booking meeting: " +:+ exn_text e)), w2)) /\
    (forall params user_id other_user_id base_date (w w' : W) e,
        params !! "user_id" = Some user_id ->
        params !! "other_user_id" = Some other_user_id ->
        resolve_date (dict_get params "date" VNone) (today w) = Ret base_date ->
        people_get ("people/" +:+ py_str other_user_id) w = (Raise e, w') ->
        execute "calendar" "get_free_slots" params w
        = (Ret (failure "Could not find contact email"), w')) /\
    (forall attendee_emails attendee_id rest (w w' : W) e,
        py_contains_str "@" attendee_id = Ret false ->
        people_get ("people/" +:+ py_str attendee_id) w = (Raise e, w') ->
        attendee_emails_of attendee_emails (attendee_id :: rest) w
        = attendee_emails_of attendee_emails rest w').
Proof.
  intros lib W services.
  split; [intros; by apply execute_unknown_api|].
  split; [intros; by apply execute_unknown_contacts_action|].
  split; [intros; by apply execute_unknown_calendar_action|].
  split; [intros; by apply execute_unknown_preferences_action|].
  split; [intros; by eapply execute_raises_only_key_error|].
  split; [intros; by eapply find_contact_converts|].
  split; [intros; by eapply contact_details_converts|].
  split; [intros; by eapply free_slots_converts|].
  split; [intros; by eapply free_slots_date_converts|].
  split; [intros; by eapply check_availability_converts|].
  split; [intros; by eapply book_meeting_converts|].
  split; [intros; by eapply free_slots_absorbs_lookup_failure|].
  intros; by eapply book_meeting_drops_unresolved_attendee.
Qed.

(** The free/busy query of a step that names its date raises: the step
    fails with the exception's text, after the contact lookup and the
    query. *)
Lemma executor_normalizes_errors_witness :
  @execute dated_lib script scripted "calendar" "get_free_slots"
           {[ "user_id" := VStr "primary"; "other_user_id" := VStr "c123";
              "date" := VStr "2030-01-07" ]}
           office_freebusy_down
  = (Ret (failure ("Error getting free slots: " +:+ exn_text service_down)),
     note "freebusy.query" (note "people.get people/c123" office_freebusy_down)).
Proof.
  destruct (executor_normalizes_errors dated_lib script scripted)
    as (_ & _ & _ & _ & _ & _ & _ & Hquery & _).
  apply (Hquery {[ "user_id" := VStr "primary"; "other_user_id" := VStr "c123";
                   "date" := VStr "2030-01-07" ]}
                (VStr "primary") (VStr "c123") 741084
                {[ "success" := VBool true; "contact_id" := VStr "c123";
                   "name" := VStr "John Smith";
                   "email" := VStr "john@example.com";
                   "phone" := VStr EmptyString ]}
                office_freebusy_down
                (note "people.get people/c123" office_freebusy_down)).
  - reflexivity.
  - reflexivity.
  - reflexivity.
  - reflexivity.
  - reflexivity.
  - reflexivity.
  - reflexivity.
Defined.

(** The executor on the scripted office: an unknown api, an unknown action,
    and a failing service call. *)
Example execute_unknown_api_example :
  execute "billing" "charge" ∅ office
  = (Ret (failure "Unknown API: billing"), office).
Proof. reflexivity. Qed.

Example execute_unknown_action_example :
  execute "calendar" "cancel_meeting" ∅ office
  = (Ret (failure "Unknown calendar action: cancel_meeting"), office).
Proof. reflexivity. Qed.

Example execute_converts_example :
  execute "contacts" "get_contact_details" {[ "contact_id" := VStr "zzz" ]} office
  = (Ret (failure "Error getting contact details: service unavailable"),
     note "people.get people/zzz" office).
Proof. reflexivity. Qed.

(** C10. [execute] raises [KeyError] when a required parameter is missing:
    [find_contact] without ["name"], and [get_free_slots] without
    ["user_id"] or without ["other_user_id"], in particular with empty
    params; no service is called. The action bodies, where the services are
    called, never raise: their handlers turn every exception into a
    result. *)
Theorem missing_parameter_raises_key_error :
  forall (lib : PyLib) (W : Type) (services : Collaborators W) (w : W),
    (forall params : dict,
        params !! "name" = None ->
        execute "contacts" "find_contact" params w = (Raise (key_error "name"), w)) /\
    (forall params : dict,
        params !! "user_id" = None \/ params !! "other_user_id" = None ->
        exists k,
          execute "calendar" "get_free_slots" params w = (Raise (key_error k), w) /\
          params !! k = None /\
          exn_kind (key_error k) = KeyError) /\
    execute "contacts" "find_contact" ∅ w = (Raise (key_error "name"), w) /\
    execute "calendar" "get_free_slots" ∅ w = (Raise (key_error "user_id"), w) /\
    (forall name, exists result w', _find_contact name w = (Ret result, w')) /\
    (forall contact_id,
        exists result w', _get_contact_details contact_id w = (Ret result, w')) /\
    (forall user_id other_user_id date,
        exists result w',
          _get_free_slots user_id other_user_id date w = (Ret result, w')) /\
    (forall user_id start_time end_time,
        exists result w',
          _check_availability user_id start_time end_time w = (Ret result, w')) /\
    (forall title attendees start_time end_time description,
        exists result w',
          _book_meeting title attendees start_time end_time description w
          = (Ret result, w')).
Proof.
  intros lib W services w.
  split.
  { intros params Hname. unfold execute, _execute_contacts_api. simpl.
    unfold mbind, lift. by rewrite (dict_item_None _ _ Hname). }
  split.
  { intros params Hmissing. unfold execute, _execute_calendar_api. simpl.
    destruct (params !! "user_id") as [user_id|] eqn:Hu.
    - destruct Hmissing as [|Ho]; [done|].
      exists "other_user_id". split; [|done].
      unfold mbind at 1, lift at 1. rewrite (dict_item_Some _ _ _ Hu).
      unfold mbind, lift. by rewrite (dict_item_None _ _ Ho).
    - exists "user_id". split; [|done].
      unfold mbind, lift. by rewrite (dict_item_None _ _ Hu). }
  split; [reflexivity|].
  split; [reflexivity|].
  split; [intros; apply _find_contact_returns|].
  split; [intros; apply _get_contact_details_returns|].
  split; [intros; apply _get_free_slots_returns|].
  split; [intros; apply _check_availability_returns|].
  intros; apply _book_meeting_returns.
Qed.

Example execute_missing_name_example :
  execute "contacts" "find_contact" ∅ office
  = (Raise (Exn KeyError "'name'"), office).
Proof. reflexivity. Qed.

Example execute_missing_other_user_id_example :
  execute "calendar" "get_free_slots" {[ "user_id" := VStr "primary" ]} office
  = (Raise (Exn KeyError "'other_user_id'"), office).
Proof. reflexivity. Qed.

(** ** The scan as the executor runs it *)

(** The bound on the loop is never reached in [_get_free_slots]: what
    [find_free_slots] returns is what the scan returns. *)
Lemma find_free_slots_is_scan `{PyLib} time_min time_max duration busy_periods :
  0 <= duration ->
  free_slot_scan slot_entry time_min time_max duration busy_periods
  = Some (find_free_slots time_min time_max duration busy_periods).
Proof.
  intros Hd. unfold find_free_slots.
  by destruct (free_slot_scan_total slot_entry time_min time_max duration
                 busy_periods Hd) as [r ->].
Qed.

(** With John's calendar and the user's both free, [get_free_slots] returns
    the sixteen slots of the day after today. *)
Example office_day_has_sixteen_slots :
  exists result w' slots,
    execute "calendar" "get_free_slots"
            {[ "user_id" := VStr "primary"; "other_user_id" := VStr "c123" ]} office
    = (Ret result, w') /\
    result !! "success" = Some (VBool true) /\
    result !! "slots" = Some (VList slots) /\
    length slots = 16%nat /\
    last slots
    = Some (slot_entry (dt_add (combine (today_is office + 1) 16)
                               (timedelta_minutes 30))
                       (combine (today_is office + 1) 17)).
Proof.
  eexists _, _, _. split; [vm_compute; reflexivity|].
  repeat split; vm_compute; reflexivity.
Qed.

(** * Further properties *)

(** ** The scan on naive readings *)

Lemma clear_of_naive s e b :
  utcoffset s = None -> utcoffset e = None ->
  utcoffset b.1 = None -> utcoffset b.2 = None ->
  clear_of s e b = Ret ((wall e <=? wall b.1) || (wall b.2 <=? wall s)).
Proof.
  intros Hs He Hb1 Hb2. unfold clear_of, dt_ge, dt_le, rbind.
  rewrite Hs, He, Hb1, Hb2. by destruct (wall e <=? wall b.1).
Qed.

Lemma is_free_naive s e busy :
  utcoffset s = None -> utcoffset e = None -> all_naive busy ->
  is_free s e busy = Ret (clear_of_all busy (s, e)).
Proof.
  intros Hs He Hbusy. induction Hbusy as [|b busy [Hb1 Hb2] _ IH]; [done|].
  simpl. rewrite (clear_of_naive s e b) by done. simpl.
  destruct ((wall e <=? wall b.1) || (wall b.2 <=? wall s)); simpl; [|done].
  by rewrite IH.
Qed.

Lemma candidate_count_step cur time_max duration :
  0 <= duration ->
  wall cur + duration <= wall time_max ->
  candidate_count cur time_max duration
  = S (candidate_count (dt_add cur stride) time_max duration).
Proof.
  intros Hd Hle. unfold candidate_count. simpl.
  pose proof stride_pos as Hs.
  destruct (Z.leb_spec (wall cur + duration) (wall time_max)); [|lia].
  f_equal.
  destruct (Z.leb_spec (wall cur + stride + duration) (wall time_max)).
  - replace (wall time_max - (wall cur + stride) - duration)
      with ((wall time_max - wall cur - duration) + (-1) * stride) by lia.
    rewrite Z.div_add by lia.
    assert (1 <= (wall time_max - wall cur - duration) / stride)
      by (apply Z.div_le_lower_bound; lia).
    lia.
  - rewrite Z.div_small by lia. done.
Qed.

Lemma scan_loop_naive time_max duration busy :
  0 <= duration -> utcoffset time_max = None -> all_naive busy ->
  forall n fuel free_slots current_time,
    utcoffset current_time = None ->
    n = candidate_count current_time time_max duration ->
    (n < fuel)%nat ->
    scan_loop pair fuel time_max duration busy free_slots current_time
    = Some (Ret (free_slots
                 ++ List.filter (clear_of_all busy)
                      (candidate current_time duration <$> seq 0 n))).
Proof.
  intros Hd Hmax Hbusy.
  induction n as [|n IH]; intros fuel acc cur Hcur Hn Hfuel;
    (destruct fuel as [|fuel]; [lia|]); simpl.
  - unfold candidate_count in Hn.
    rewrite dt_le_same_offset by (simpl; congruence). simpl.
    destruct (wall cur + duration <=? wall time_max); [done|].
    by rewrite app_nil_r.
  - assert (Hle : wall cur + duration <= wall time_max).
    { unfold candidate_count in Hn.
      destruct (Z.leb_spec (wall cur + duration) (wall time_max)); [done|lia]. }
    rewrite dt_le_same_offset by (simpl; congruence). simpl.
    destruct (Z.leb_spec (wall cur + duration) (wall time_max)); [|lia].
    rewrite is_free_naive by done.
    rewrite (candidate_count_step cur time_max duration Hd Hle) in Hn.
    rewrite (IH fuel _ (dt_add cur stride)) by (done || lia).
    do 2 f_equal.
    assert (Hhead : candidate cur duration 0 = (cur, dt_add cur duration)).
    { unfold candidate. simpl. by rewrite dt_add_0. }
    assert (Htail : candidate (dt_add cur stride) duration <$> seq 0 n
                    = candidate cur duration <$> seq 1 n).
    { rewrite <- seq_shift, <- list_fmap_compose.
      apply list_fmap_ext. intros i x _. unfold candidate; simpl.
      rewrite !dt_add_add. f_equal; f_equal; lia. }
    change (list_fmap nat (datetime * datetime)%type (candidate cur duration)
              (seq 1 n))
      with (candidate cur duration <$> seq 1 n).
    rewrite Hhead, Htail.
    destruct (clear_of_all busy (cur, dt_add cur duration));
      by rewrite <- ?app_assoc.
Qed.

Lemma free_slot_scan_naive time_min time_max duration busy :
  utcoffset time_min = None -> utcoffset time_max = None ->
  all_naive busy -> 0 <= duration ->
  free_slot_scan pair time_min time_max duration busy
  = Some (Ret (List.filter (clear_of_all busy)
                 (candidate time_min duration
                    <$> seq 0 (candidate_count time_min time_max duration)))).
Proof.
  intros Hmin Hmax Hbusy Hd.
  unfold free_slot_scan.
  rewrite (scan_loop_naive time_max duration busy Hd Hmax Hbusy
             (candidate_count time_min time_max duration)); try done.
  unfold scan_fuel, instant, candidate_count. rewrite Hmin, Hmax. simpl.
  pose proof stride_pos as Hs.
  destruct (Z.leb_spec (wall time_min + duration) (wall time_max)); [|lia].
  assert ((wall time_max - wall time_min - duration) / stride
          <= (wall time_max - 0 - (wall time_min - 0)) / stride)
    by (apply Z.div_le_mono; lia).
  assert (0 <= (wall time_max - wall time_min - duration) / stride)
    by (apply Z.div_pos; lia).
  lia.
Qed.

(** A candidate of the scan starts no earlier than the window and ends no
    later than it. *)
Lemma candidate_in_window time_min time_max duration i :
  0 <= duration ->
  (i < candidate_count time_min time_max duration)%nat ->
  wall time_min <= wall (candidate time_min duration i).1 /\
  wall (candidate time_min duration i).2 <= wall time_max /\
  wall (candidate time_min duration i).2
  = wall (candidate time_min duration i).1 + duration.
Proof.
  intros Hd Hi. unfold candidate_count in Hi. unfold candidate. simpl.
  pose proof stride_pos as Hs.
  destruct (Z.leb_spec (wall time_min + duration) (wall time_max)); [|lia].
  assert (Z.of_nat i <= (wall time_max - wall time_min - duration) / stride)
    by (assert (0 <= (wall time_max - wall time_min - duration) / stride)
          by (apply Z.div_pos; lia); lia).
  assert (stride * ((wall time_max - wall time_min - duration) / stride)
          <= wall time_max - wall time_min - duration)
    by (apply Z.mul_div_le; lia).
  nia.
Qed.

Lemma filter_none {A} (p : A -> bool) (l : list A) :
  (forall x, x ∈ l -> p x = false) -> List.filter p l = [].
Proof.
  induction l as [|x l IH]; intros Hall; [done|]. simpl.
  rewrite (Hall x) by apply list_elem_of_here.
  apply IH. intros y Hy. apply Hall. by apply list_elem_of_further.
Qed.

Lemma filter_strongly_sorted {A} (R : A -> A -> Prop) (p : A -> bool) (l : list A) :
  StronglySorted R l -> StronglySorted R (List.filter p l).
Proof.
  induction 1 as [|x l Hl IH Hx]; simpl; [constructor|].
  destruct (p x); [|done].
  constructor; [done|].
  apply Forall_forall. intros y Hy.
  apply list_elem_of_In, filter_In in Hy as [Hy _].
  rewrite Forall_forall in Hx. apply Hx. by apply list_elem_of_In.
Qed.

Lemma candidates_strongly_sorted time_min duration a n :
  StronglySorted (fun c1 c2 => wall c1.1 < wall c2.1)
                 (candidate time_min duration <$> seq a n).
Proof.
  revert a. induction n as [|n IH]; intros a; simpl; constructor; [apply IH|].
  apply Forall_forall. intros c Hc.
  apply list_elem_of_fmap in Hc as (i & -> & Hi).
  apply list_elem_of_In, in_seq in Hi.
  unfold candidate. simpl. pose proof stride_pos. nia.
Qed.

Lemma clear_of_all_permutation busy busy' c :
  busy ≡ₚ busy' -> clear_of_all busy c = clear_of_all busy' c.
Proof.
  unfold clear_of_all.
  induction 1 as [|b l l' _ IH|b1 b2 l|l1 l2 l3 _ IH1 _ IH2]; simpl.
  - done.
  - by rewrite IH.
  - by rewrite !andb_assoc, (andb_comm (_ || _) (_ || _)).
  - by rewrite IH1.
Qed.

Lemma all_naive_permutation busy busy' :
  busy ≡ₚ busy' -> all_naive busy -> all_naive busy'.
Proof. unfold all_naive. intros Hp Hn. by rewrite <- Hp. Qed.

(** X1. For a naive window and naive busy periods, the scan returns exactly
    the candidate windows [time_min + i * stride] that end within the
    window and pass the overlap test against every busy period, in the
    order of [i]: it keeps every free candidate and nothing else. *)
Theorem scan_emits_exactly_the_free_candidates :
  forall (time_min time_max : datetime) (duration : Z)
         (busy_periods : list (datetime * datetime)),
    utcoffset time_min = None -> utcoffset time_max = None ->
    all_naive busy_periods -> 0 <= duration ->
    free_slot_scan pair time_min time_max duration busy_periods
    = Some (Ret (List.filter (clear_of_all busy_periods)
                   (candidate time_min duration
                      <$> seq 0 (candidate_count time_min time_max duration)))).
Proof. intros. by apply free_slot_scan_naive. Qed.

(** The busy list of the examples: one naive period, 9:00 to 10:00 of day 0. *)
Lemma morning_busy_naive : all_naive [(combine 0 9, combine 0 10)].
Proof. repeat constructor. Qed.

Lemma thirty_minutes_nonneg : 0 <= timedelta_minutes 30.
Proof. by vm_compute. Qed.

Lemma scan_emits_exactly_the_free_candidates_witness :
  free_slot_scan pair (combine 0 9) (combine 0 11) (timedelta_minutes 30)
                 [(combine 0 9, combine 0 10)]
  = Some (Ret (List.filter (clear_of_all [(combine 0 9, combine 0 10)])
                 (candidate (combine 0 9) (timedelta_minutes 30)
                    <$> seq 0 (candidate_count (combine 0 9) (combine 0 11)
                                 (timedelta_minutes 30))))).
Proof.
  apply (scan_emits_exactly_the_free_candidates (combine 0 9) (combine 0 11)
           (timedelta_minutes 30) [(combine 0 9, combine 0 10)]).
  - reflexivity.
  - reflexivity.
  - exact morning_busy_naive.
  - exact thirty_minutes_nonneg.
Defined.

(** X2. A busy period whose start is an aware reading stops the scan of a
    naive window at its first candidate: comparing the two raises
    [TypeError], and no slot is returned. *)
Theorem scan_raises_on_aware_busy_period :
  forall (A : Type) (mk : datetime -> datetime -> A)
         (time_min time_max busy_start busy_end : datetime) (duration offset : Z)
         (rest : list (datetime * datetime)),
    utcoffset time_min = None -> utcoffset time_max = None ->
    wall time_min + duration <= wall time_max ->
    utcoffset busy_start = Some offset ->
    free_slot_scan mk time_min time_max duration ((busy_start, busy_end) :: rest)
    = Some (Raise naive_aware).
Proof.
  intros A mk time_min time_max bs be duration offset rest Hmin Hmax Hle Hbs.
  unfold free_slot_scan, scan_fuel. simpl.
  rewrite dt_le_same_offset by (simpl; congruence). simpl.
  destruct (Z.leb_spec (wall time_min + duration) (wall time_max)); [|lia].
  unfold clear_of, dt_le. simpl. by rewrite Hmin, Hbs.
Qed.

Lemma scan_raises_on_aware_busy_period_witness :
  free_slot_scan pair (combine 0 9) (combine 0 17) (timedelta_minutes 30)
                 [({| wall := 9 * hour; utcoffset := Some 0 |},
                   {| wall := 10 * hour; utcoffset := Some 0 |})]
  = Some (Raise naive_aware).
Proof.
  apply (scan_raises_on_aware_busy_period _ pair (combine 0 9) (combine 0 17)
           {| wall := 9 * hour; utcoffset := Some 0 |}
           {| wall := 10 * hour; utcoffset := Some 0 |}
           (timedelta_minutes 30) 0 []).
  - reflexivity.
  - reflexivity.
  - by vm_compute.
  - reflexivity.
Defined.

(** ** The scan whatever the busy periods read

    The window of [_get_free_slots] is naive (lines 153-154); the busy
    periods are what the service's texts parse to, naive or aware. *)

Lemma is_free_all s e busy :
  (forall b, b ∈ busy -> clear_of s e b = Ret true) ->
  is_free s e busy = Ret true.
Proof.
  induction busy as [|b0 busy IH]; intros Hall; [done|]. simpl.
  rewrite (Hall b0) by apply list_elem_of_here. simpl.
  apply IH. intros b Hb. apply Hall. by apply list_elem_of_further.
Qed.

(** The loop keeps a candidate exactly when every busy period passes the
    test of line 187 on it. *)
Lemma scan_keeps_true busy c :
  scan_keeps busy c = true <->
  forall b, b ∈ busy -> clear_of c.1 c.2 b = Ret true.
Proof.
  unfold scan_keeps. split.
  - destruct (is_free c.1 c.2 busy) as [[|]|] eqn:E; try done.
    intros _. by apply is_free_true.
  - intros Hall. by rewrite is_free_all.
Qed.

Lemma scan_keeps_answer s e busy free :
  is_free s e busy = Ret free -> scan_keeps busy (s, e) = free.
Proof. unfold scan_keeps. simpl. intros ->. by destruct free. Qed.

(** The inner loop over a list with further periods appended answers only
    if it answers without them. *)
Lemma is_free_app_answers s e busy further free :
  is_free s e (busy ++ further) = Ret free ->
  exists free0, is_free s e busy = Ret free0.
Proof.
  induction busy as [|b0 busy IH]; simpl; [by eexists|].
  unfold rbind. destruct (clear_of s e b0) as [[|]|]; simpl; try done.
  by eexists.
Qed.

(** The inner loop stops at the first period that fails the test; the
    periods after it are not read. *)
Lemma is_free_stops s e pre b rest :
  utcoffset s = None -> utcoffset e = None -> all_naive pre ->
  clear_of s e b = Ret false ->
  is_free s e (pre ++ b :: rest) = Ret false.
Proof.
  intros Hs He Hpre Hb.
  induction Hpre as [|b0 pre [Hb1 Hb2] _ IH]; simpl.
  - by rewrite Hb.
  - rewrite (clear_of_naive s e b0) by done. simpl.
    by destruct ((wall e <=? wall b0.1) || (wall b0.2 <=? wall s)).
Qed.

Lemma candidate_first cur duration :
  candidate cur duration 0 = (cur, dt_add cur duration).
Proof. unfold candidate. simpl. by rewrite dt_add_0. Qed.

Lemma candidates_step cur duration n :
  candidate cur duration <$> seq 0 (S n)
  = (cur, dt_add cur duration)
      :: (candidate (dt_add cur stride) duration <$> seq 0 n).
Proof.
  cbn [seq fmap list_fmap]. f_equal.
  - apply candidate_first.
  - rewrite <- seq_shift, <- list_fmap_compose.
    apply list_fmap_ext. intros i x _. unfold candidate; simpl.
    rewrite !dt_add_add. f_equal; f_equal; lia.
Qed.

Lemma candidate_shift cur duration i :
  candidate cur duration (S i) = candidate (dt_add cur stride) duration i.
Proof.
  unfold candidate. rewrite !dt_add_add. f_equal; f_equal; lia.
Qed.

Lemma candidate_naive time_min duration i :
  utcoffset time_min = None ->
  utcoffset (candidate time_min duration i).1 = None /\
  utcoffset (candidate time_min duration i).2 = None.
Proof. by intros Hmin. Qed.

(** A scan that returns has read every candidate without raising, and
    returns the candidates it kept. *)
Lemma scan_loop_returns time_max duration busy :
  0 <= duration -> utcoffset time_max = None ->
  forall n fuel free_slots current_time out,
    utcoffset current_time = None ->
    n = candidate_count current_time time_max duration ->
    scan_loop pair fuel time_max duration busy free_slots current_time
    = Some (Ret out) ->
    out = free_slots
          ++ List.filter (scan_keeps busy)
               (candidate current_time duration <$> seq 0 n) /\
    forall i, (i < n)%nat ->
      exists free,
        is_free (candidate current_time duration i).1
                (candidate current_time duration i).2 busy = Ret free.
Proof.
  intros Hd Hmax.
  induction n as [|n IH]; intros fuel acc cur out Hcur Hn Hscan;
    (destruct fuel as [|fuel]; [done|]); simpl in Hscan;
    rewrite dt_le_same_offset in Hscan by (simpl; congruence);
    simpl in Hscan; unfold candidate_count in Hn.
  - destruct (wall cur + duration <=? wall time_max); [done|].
    simplify_eq. split; [by rewrite app_nil_r|]. intros i Hi. lia.
  - destruct (Z.leb_spec (wall cur + duration) (wall time_max)) as [Hle|];
      [|done].
    destruct (is_free cur (dt_add cur duration) busy) as [free|e] eqn:Hfree;
      [|done].
    injection Hn as Hn.
    assert (Hcount : n = candidate_count (dt_add cur stride) time_max duration).
    { pose proof (candidate_count_step cur time_max duration Hd Hle) as Hstep.
      unfold candidate_count at 1 in Hstep.
      destruct (Z.leb_spec (wall cur + duration) (wall time_max)); [|lia].
      injection Hstep as Hstep. congruence. }
    destruct (IH fuel _ (dt_add cur stride) out Hcur Hcount Hscan)
      as [Hout Hall].
    split.
    + rewrite candidates_step. simpl.
      rewrite (scan_keeps_answer _ _ _ _ Hfree).
      rewrite Hout. destruct free; by rewrite <- ?app_assoc.
    + intros [|i] Hi.
      * exists free. by rewrite candidate_first.
      * rewrite candidate_shift. apply Hall. lia.
Qed.

(** A scan whose every candidate is read without raising returns. *)
Lemma scan_loop_answers time_max duration busy :
  0 <= duration -> utcoffset time_max = None ->
  forall n fuel free_slots current_time,
    utcoffset current_time = None ->
    n = candidate_count current_time time_max duration ->
    (n < fuel)%nat ->
    (forall i, (i < n)%nat ->
       exists free,
         is_free (candidate current_time duration i).1
                 (candidate current_time duration i).2 busy = Ret free) ->
    scan_loop pair fuel time_max duration busy free_slots current_time
    = Some (Ret (free_slots
                 ++ List.filter (scan_keeps busy)
                      (candidate current_time duration <$> seq 0 n))).
Proof.
  intros Hd Hmax.
  induction n as [|n IH]; intros fuel acc cur Hcur Hn Hfuel Hall;
    (destruct fuel as [|fuel]; [lia|]); rewrite ?candidates_step; simpl;
    rewrite dt_le_same_offset by (simpl; congruence); simpl.
  - unfold candidate_count in Hn.
    destruct (wall cur + duration <=? wall time_max); [done|].
    by rewrite app_nil_r.
  - assert (Hle : wall cur + duration <= wall time_max).
    { unfold candidate_count in Hn.
      destruct (Z.leb_spec (wall cur + duration) (wall time_max)); [done|lia]. }
    destruct (Z.leb_spec (wall cur + duration) (wall time_max)); [|lia].
    destruct (Hall 0%nat) as [free Hfree]; [lia|].
    rewrite candidate_first in Hfree. simpl in Hfree. rewrite Hfree.
    rewrite (candidate_count_step cur time_max duration Hd Hle) in Hn.
    injection Hn as Hn.
    rewrite (IH fuel _ (dt_add cur stride)); [|done|done|lia|].
    + rewrite (scan_keeps_answer _ _ _ _ Hfree).
      destruct free; by rewrite <- ?app_assoc.
    + intros i Hi. rewrite <- candidate_shift. apply Hall. lia.
Qed.

Lemma candidate_count_fuel time_min time_max duration :
  0 <= duration ->
  utcoffset time_min = None -> utcoffset time_max = None ->
  (candidate_count time_min time_max duration < scan_fuel time_min time_max)%nat.
Proof.
  intros Hd Hmin Hmax.
  unfold scan_fuel, instant, candidate_count. rewrite Hmin, Hmax. simpl.
  pose proof stride_pos as Hs.
  destruct (Z.leb_spec (wall time_min + duration) (wall time_max)); [|lia].
  assert ((wall time_max - wall time_min - duration) / stride
          <= (wall time_max - 0 - (wall time_min - 0)) / stride)
    by (apply Z.div_le_mono; lia).
  assert (0 <= (wall time_max - wall time_min - duration) / stride)
    by (apply Z.div_pos; lia).
  lia.
Qed.

Lemma free_slot_scan_returns time_min time_max duration busy slots :
  utcoffset time_min = None -> utcoffset time_max = None -> 0 <= duration ->
  free_slot_scan pair time_min time_max duration busy = Some (Ret slots) ->
  slots = List.filter (scan_keeps busy)
            (candidate time_min duration
               <$> seq 0 (candidate_count time_min time_max duration)) /\
  forall i, (i < candidate_count time_min time_max duration)%nat ->
    exists free,
      is_free (candidate time_min duration i).1
              (candidate time_min duration i).2 busy = Ret free.
Proof.
  intros Hmin Hmax Hd Hscan.
  by apply (scan_loop_returns time_max duration busy Hd Hmax _
              (scan_fuel time_min time_max) [] time_min slots Hmin eq_refl).
Qed.

Lemma free_slot_scan_answers time_min time_max duration busy :
  utcoffset time_min = None -> utcoffset time_max = None -> 0 <= duration ->
  (forall i, (i < candidate_count time_min time_max duration)%nat ->
     exists free,
       is_free (candidate time_min duration i).1
               (candidate time_min duration i).2 busy = Ret free) ->
  free_slot_scan pair time_min time_max duration busy
  = Some (Ret (List.filter (scan_keeps busy)
                 (candidate time_min duration
                    <$> seq 0 (candidate_count time_min time_max duration)))).
Proof.
  intros Hmin Hmax Hd Hall. unfold free_slot_scan.
  rewrite (scan_loop_answers time_max duration busy Hd Hmax
             (candidate_count time_min time_max duration)); try done.
  by apply candidate_count_fuel.
Qed.

Lemma filter_sublist_of {A} (p q : A -> bool) (l : list A) :
  (forall x, q x = true -> p x = true) ->
  List.filter q l `sublist_of` List.filter p l.
Proof.
  intros Himp. induction l as [|x l IH]; [done|]. simpl.
  destruct (q x) eqn:Hq.
  - rewrite (Himp x Hq). by apply sublist_skip.
  - destruct (p x); [by apply sublist_cons|done].
Qed.

(** A period that covers the window never passes the test on a candidate:
    it fails it, or the comparison raises. *)
Lemma covering_period_never_clear time_min time_max duration bs be i :
  utcoffset time_min = None -> 0 < duration ->
  (i < candidate_count time_min time_max duration)%nat ->
  wall bs <= wall time_min -> wall time_max <= wall be ->
  clear_of (candidate time_min duration i).1 (candidate time_min duration i).2
           (bs, be) <> Ret true.
Proof.
  intros Hmin Hd Hi Hs He Hclear.
  destruct (candidate_in_window time_min time_max duration i) as (H1 & H2 & H3);
    [lia|done|].
  destruct (candidate_naive time_min duration i Hmin) as [Hc1 Hc2].
  unfold candidate in H1, H2, H3. simpl in H1, H2, H3.
  apply clear_of_true in Hclear as [Hle|Hge].
  - unfold dt_le in Hle. rewrite Hc2 in Hle. cbn [fst snd] in Hle.
    destruct (utcoffset bs); [done|].
    injection Hle as Hle. apply Z.leb_le in Hle. lia.
  - unfold dt_ge, dt_le in Hge. rewrite Hc1 in Hge. cbn [fst snd] in Hge.
    destruct (utcoffset be); [done|].
    injection Hge as Hge. apply Z.leb_le in Hge. lia.
Qed.

Lemma covering_period_fails time_min time_max duration bs be i :
  utcoffset time_min = None -> 0 < duration ->
  (i < candidate_count time_min time_max duration)%nat ->
  utcoffset bs = None -> utcoffset be = None ->
  wall bs <= wall time_min -> wall time_max <= wall be ->
  clear_of (candidate time_min duration i).1 (candidate time_min duration i).2
           (bs, be) = Ret false.
Proof.
  intros Hmin Hd Hi Hbs Hbe Hs He.
  pose proof (covering_period_never_clear time_min time_max duration bs be i
                Hmin Hd Hi Hs He) as Hnot.
  destruct (candidate_naive time_min duration i Hmin) as [Hc1 Hc2].
  rewrite clear_of_naive in Hnot |- * by done.
  by destruct (_ || _).
Qed.

(** X3. Appending busy periods never adds a slot, whatever the periods
    read: when the scan of a naive window over a busy list with further
    periods appended returns, the scan without them returns too, and the
    slots found with them are a sublist of the slots found without them. *)
Theorem more_busy_periods_leave_a_sublist :
  forall (time_min time_max : datetime) (duration : Z)
         (busy_periods further : list (datetime * datetime))
         (slots' : list (datetime * datetime)),
    utcoffset time_min = None -> utcoffset time_max = None -> 0 <= duration ->
    free_slot_scan pair time_min time_max duration (busy_periods ++ further)
    = Some (Ret slots') ->
    exists slots,
      free_slot_scan pair time_min time_max duration busy_periods
      = Some (Ret slots) /\
      slots' `sublist_of` slots.
Proof.
  intros time_min time_max duration busy further slots' Hmin Hmax Hd Hs'.
  apply free_slot_scan_returns in Hs' as [-> Hall]; try done.
  eexists. split.
  - apply free_slot_scan_answers; try done.
    intros i Hi. destruct (Hall i Hi) as [free Hfree].
    by apply is_free_app_answers in Hfree.
  - apply filter_sublist_of. intros c Hc.
    rewrite scan_keeps_true in Hc |- *.
    intros b Hb. apply Hc, elem_of_app. by left.
Qed.

Lemma more_busy_periods_leave_a_sublist_witness :
  exists slots,
    free_slot_scan pair (combine 0 9) (combine 0 11) (timedelta_minutes 30)
                   [(combine 0 9, combine 0 10)]
    = Some (Ret slots) /\
    [candidate (combine 0 9) (timedelta_minutes 30) 3] `sublist_of` slots.
Proof.
  apply (more_busy_periods_leave_a_sublist (combine 0 9) (combine 0 11)
           (timedelta_minutes 30) [(combine 0 9, combine 0 10)]
           [(combine 0 10, dt_add (combine 0 10) (timedelta_minutes 30));
            (combine 0 12, {| wall := 13 * hour; utcoffset := Some 0 |})]).
  - reflexivity.
  - reflexivity.
  - exact thirty_minutes_nonneg.
  - reflexivity.
Defined.

(** X4. The order of the busy periods does not change the slots: two scans
    of a naive window over the same periods in different orders that both
    return give the same slots, and when the periods are naive the two
    scans are equal. *)
Theorem scan_ignores_busy_order :
  forall (time_min time_max : datetime) (duration : Z)
         (busy_periods busy_periods' : list (datetime * datetime)),
    utcoffset time_min = None -> utcoffset time_max = None -> 0 <= duration ->
    busy_periods ≡ₚ busy_periods' ->
    (forall slots slots',
        free_slot_scan pair time_min time_max duration busy_periods
        = Some (Ret slots) ->
        free_slot_scan pair time_min time_max duration busy_periods'
        = Some (Ret slots') ->
        slots' = slots) /\
    (all_naive busy_periods ->
     free_slot_scan pair time_min time_max duration busy_periods'
     = free_slot_scan pair time_min time_max duration busy_periods).
Proof.
  intros time_min time_max duration busy busy' Hmin Hmax Hd Hperm. split.
  - intros slots slots' Hs Hs'.
    apply free_slot_scan_returns in Hs as [-> _]; try done.
    apply free_slot_scan_returns in Hs' as [-> _]; try done.
    apply List.filter_ext. intros c. apply eq_true_iff_eq.
    rewrite !scan_keeps_true.
    split; intros Hall b Hb; apply Hall; [by rewrite <- Hperm|by rewrite Hperm].
  - intros Hbusy.
    rewrite !free_slot_scan_naive by (done || by eapply all_naive_permutation).
    do 2 f_equal. apply List.filter_ext. intros c.
    symmetry. by apply clear_of_all_permutation.
Qed.

Lemma scan_ignores_busy_order_witness :
  (forall slots slots',
      free_slot_scan pair (combine 0 9) (combine 0 11) (timedelta_minutes 30)
                     [(combine 0 9, combine 0 10); (combine 0 10, combine 0 11)]
      = Some (Ret slots) ->
      free_slot_scan pair (combine 0 9) (combine 0 11) (timedelta_minutes 30)
                     [(combine 0 10, combine 0 11); (combine 0 9, combine 0 10)]
      = Some (Ret slots') ->
      slots' = slots) /\
  (all_naive [(combine 0 9, combine 0 10); (combine 0 10, combine 0 11)] ->
   free_slot_scan pair (combine 0 9) (combine 0 11) (timedelta_minutes 30)
                  [(combine 0 10, combine 0 11); (combine 0 9, combine 0 10)]
   = free_slot_scan pair (combine 0 9) (combine 0 11) (timedelta_minutes 30)
                    [(combine 0 9, combine 0 10); (combine 0 10, combine 0 11)]).
Proof.
  apply (scan_ignores_busy_order (combine 0 9) (combine 0 11)
           (timedelta_minutes 30)
           [(combine 0 9, combine 0 10); (combine 0 10, combine 0 11)]
           [(combine 0 10, combine 0 11); (combine 0 9, combine 0 10)]).
  - reflexivity.
  - reflexivity.
  - exact thirty_minutes_nonneg.
  - apply perm_swap.
Defined.

(** The order can decide whether a scan raises: a naive period that covers
    the window hides an aware one listed after it, and the scan returns no
    slot; with the aware period first, the scan raises. *)
Example busy_order_decides_whether_the_scan_raises :
  free_slot_scan pair (combine 0 9) (combine 0 17) (timedelta_minutes 30)
                 [(combine 0 8, combine 0 18);
                  ({| wall := 9 * hour; utcoffset := Some 0 |},
                   {| wall := 10 * hour; utcoffset := Some 0 |})]
  = Some (Ret []) /\
  free_slot_scan pair (combine 0 9) (combine 0 17) (timedelta_minutes 30)
                 [({| wall := 9 * hour; utcoffset := Some 0 |},
                   {| wall := 10 * hour; utcoffset := Some 0 |});
                  (combine 0 8, combine 0 18)]
  = Some (Raise naive_aware).
Proof. split; reflexivity. Qed.

(** X5. When a busy period covers the whole naive window, by its wall-clock
    readings, and the duration is positive, no slot is returned: a scan
    that returns returns the empty list; and the scan does return it when
    the covering period and the periods listed before it are naive,
    whatever follows them. *)
Theorem covered_window_has_no_slot :
  forall (time_min time_max busy_start busy_end : datetime) (duration : Z),
    utcoffset time_min = None -> utcoffset time_max = None -> 0 < duration ->
    wall busy_start <= wall time_min -> wall time_max <= wall busy_end ->
    (forall busy_periods slots,
        (busy_start, busy_end) ∈ busy_periods ->
        free_slot_scan pair time_min time_max duration busy_periods
        = Some (Ret slots) ->
        slots = []) /\
    (forall before after,
        utcoffset busy_start = None -> utcoffset busy_end = None ->
        all_naive before ->
        free_slot_scan pair time_min time_max duration
                       (before ++ (busy_start, busy_end) :: after)
        = Some (Ret [])).
Proof.
  intros time_min time_max bs be duration Hmin Hmax Hd Hs He.
  assert (Hnone : forall busy, (bs, be) ∈ busy ->
            List.filter (scan_keeps busy)
              (candidate time_min duration
                 <$> seq 0 (candidate_count time_min time_max duration)) = []).
  { intros busy Hin. apply filter_none. intros c Hc.
    apply list_elem_of_fmap in Hc as (i & -> & Hi).
    apply list_elem_of_In, in_seq in Hi.
    apply not_true_is_false. rewrite scan_keeps_true. intros Hall.
    apply (covering_period_never_clear time_min time_max duration bs be i);
      try done; [lia|by apply Hall]. }
  split.
  - intros busy slots Hin Hscan.
    apply free_slot_scan_returns in Hscan as [-> _]; [|done|done|lia].
    by apply Hnone.
  - intros before after Hbs Hbe Hbefore.
    rewrite free_slot_scan_answers; [|done|done|lia|].
    + rewrite Hnone; [done|]. apply elem_of_app. right. apply list_elem_of_here.
    + intros i Hi. exists false.
      destruct (candidate_naive time_min duration i Hmin) as [Hc1 Hc2].
      apply is_free_stops; try done.
      by apply (covering_period_fails time_min time_max).
Qed.

Lemma covered_window_has_no_slot_witness :
  (forall busy_periods slots,
      (combine 0 8, combine 0 18) ∈ busy_periods ->
      free_slot_scan pair (combine 0 9) (combine 0 17) (timedelta_minutes 30)
                     busy_periods
      = Some (Ret slots) ->
      slots = []) /\
  (forall before after,
      utcoffset (combine 0 8) = None -> utcoffset (combine 0 18) = None ->
      all_naive before ->
      free_slot_scan pair (combine 0 9) (combine 0 17) (timedelta_minutes 30)
                     (before ++ (combine 0 8, combine 0 18) :: after)
      = Some (Ret [])).
Proof.
  apply (covered_window_has_no_slot (combine 0 9) (combine 0 17)
           (combine 0 8) (combine 0 18) (timedelta_minutes 30)).
  - reflexivity.
  - reflexivity.
  - by vm_compute.
  - by vm_compute.
  - by vm_compute.
Defined.

(** X6. Whenever the scan of a naive window returns, whatever the busy
    periods read, the slots come out in chronological order without
    repetition: each slot starts strictly later than the slots before
    it. *)
Theorem slots_are_chronological :
  forall (time_min time_max : datetime) (duration : Z)
         (busy_periods slots : list (datetime * datetime)),
    utcoffset time_min = None -> utcoffset time_max = None -> 0 <= duration ->
    free_slot_scan pair time_min time_max duration busy_periods
    = Some (Ret slots) ->
    StronglySorted (fun slot later => wall slot.1 < wall later.1) slots.
Proof.
  intros time_min time_max duration busy slots Hmin Hmax Hd Hs.
  apply free_slot_scan_returns in Hs as [-> _]; try done.
  apply filter_strongly_sorted, candidates_strongly_sorted.
Qed.

Lemma slots_are_chronological_witness :
  StronglySorted (fun slot later => wall slot.1 < wall later.1)
                 [candidate (combine 0 9) (timedelta_minutes 30) 2;
                  candidate (combine 0 9) (timedelta_minutes 30) 3].
Proof.
  apply (slots_are_chronological (combine 0 9) (combine 0 11)
           (timedelta_minutes 30)
           [(combine 0 9, combine 0 10);
            (combine 0 12, {| wall := 13 * hour; utcoffset := Some 0 |})]).
  - reflexivity.
  - reflexivity.
  - exact thirty_minutes_nonneg.
  - reflexivity.
Defined.

(** ** The executor's free-slot lookup *)

Section FreeSlotLookup.
Context `{PyLib} {W : Type} `{Collaborators W}.

Lemma mbind_lift {A B} (r : res A) (k : A -> M W B) (w : W) :
  mbind (lift r) k w
  = match r with
    | Ret a => k a w
    | Raise e => (Raise e, w)
    end.
Proof. unfold mbind, lift. by destruct r. Qed.

(** The entries of a scan are the windows of the same scan. *)
Lemma scan_loop_entries {A} (mk : datetime -> datetime -> A) time_max duration busy :
  forall fuel (free_slots : list (datetime * datetime)) current_time,
    scan_loop mk fuel time_max duration busy
              ((fun c => mk c.1 c.2) <$> free_slots) current_time
    = (fun r : res (list (datetime * datetime)) =>
         match r with
         | Ret slots => Ret ((fun c => mk c.1 c.2) <$> slots)
         | Raise e => Raise e
         end)
        <$> scan_loop pair fuel time_max duration busy free_slots current_time.
Proof.
  induction fuel as [|fuel IH]; intros acc cur; simpl; [done|].
  destruct (dt_le (dt_add cur duration) time_max) as [[|]|e]; try done.
  destruct (is_free cur (dt_add cur duration) busy) as [[|]|e]; try done.
  rewrite <- IH. by rewrite fmap_app.
Qed.

Lemma find_free_slots_naive time_min time_max duration busy :
  utcoffset time_min = None -> utcoffset time_max = None ->
  all_naive busy -> 0 <= duration ->
  find_free_slots time_min time_max duration busy
  = Ret ((fun c => slot_entry c.1 c.2)
           <$> List.filter (clear_of_all busy)
                 (candidate time_min duration
                    <$> seq 0 (candidate_count time_min time_max duration))).
Proof.
  intros Hmin Hmax Hbusy Hd. unfold find_free_slots, free_slot_scan.
  change (@nil value) with ((fun c => slot_entry c.1 c.2) <$> @nil (datetime * datetime)).
  rewrite scan_loop_entries.
  pose proof (free_slot_scan_naive time_min time_max duration busy
                Hmin Hmax Hbusy Hd) as Hscan.
  unfold free_slot_scan in Hscan. by rewrite Hscan.
Qed.

Lemma find_free_slots_aware time_min time_max duration busy_start busy_end offset rest :
  utcoffset time_min = None -> utcoffset time_max = None ->
  wall time_min + duration <= wall time_max ->
  utcoffset busy_start = Some offset ->
  find_free_slots time_min time_max duration ((busy_start, busy_end) :: rest)
  = Raise naive_aware.
Proof.
  intros Hmin Hmax Hle Hbs.
  unfold find_free_slots, free_slot_scan, scan_fuel. simpl.
  rewrite dt_le_same_offset by (simpl; congruence). simpl.
  destruct (Z.leb_spec (wall time_min + duration) (wall time_max)); [|lia].
  unfold clear_of, dt_le. simpl. by rewrite Hmin, Hbs.
Qed.

(** [_get_free_slots] when the date is left out, the contact has an
    address and the free/busy query answers. *)
Lemma get_free_slots_pipeline user_id other_user_id date contact freebusy busy
    (w w1 w2 : W) :
  truthy date = false ->
  _get_contact_details other_user_id w = (Ret contact, w1) ->
  truthy (dict_get contact "success" (VBool false)) = true ->
  truthy (dict_get contact "email" (VStr "")) = true ->
  freebusy_query (freebusy_request (today w + 1) (dict_get contact "email" (VStr ""))) w1
  = (Ret freebusy, w2) ->
  response_busy_periods freebusy (dict_get contact "email" (VStr "")) = Ret busy ->
  _get_free_slots user_id other_user_id date w
  = (Ret (slots_result (today w + 1)
            (find_free_slots (combine (today w + 1) 9) (combine (today w + 1) 17)
                             (timedelta_minutes 30) busy)), w2).
Proof.
  intros Hdate Hcontact Hok Hemail Hquery Hbusy.
  unfold _get_free_slots, try_except. rewrite Hdate.
  unfold mbind at 1. unfold mbind at 1. rewrite Hcontact, Hok, Hemail. simpl.
  unfold mbind at 1. unfold freebusy_request in Hquery. rewrite Hquery.
  unfold response_busy_periods in Hbusy.
  repeat match type of Hbusy with
         | rbind ?r _ = Ret _ =>
             let E := fresh "E" in
             destruct r eqn:E; simpl in Hbusy; [|discriminate];
             rewrite mbind_lift; cbv beta iota
         end.
  rewrite mbind_lift, Hbusy, mbind_lift.
  by destruct (find_free_slots _ _ _ busy).
Qed.

(** [_get_free_slots] for the day its date resolves to, when the contact
    has an address and the free/busy query answers. *)
Lemma get_free_slots_pipeline_dated user_id other_user_id date base_date contact
    freebusy busy (w w1 w2 : W) :
  resolve_date date (today w) = Ret base_date ->
  _get_contact_details other_user_id w = (Ret contact, w1) ->
  truthy (dict_get contact "success" (VBool false)) = true ->
  truthy (dict_get contact "email" (VStr "")) = true ->
  freebusy_query (freebusy_request base_date (dict_get contact "email" (VStr ""))) w1
  = (Ret freebusy, w2) ->
  response_busy_periods freebusy (dict_get contact "email" (VStr "")) = Ret busy ->
  _get_free_slots user_id other_user_id date w
  = (Ret (slots_result base_date
            (find_free_slots (combine base_date 9) (combine base_date 17)
                             (timedelta_minutes 30) busy)), w2).
Proof.
  intros Hdate Hcontact Hok Hemail Hquery Hbusy.
  unfold _get_free_slots, try_except. rewrite resolve_date_step, Hdate.
  unfold mbind at 1. rewrite Hcontact, Hok, Hemail. simpl.
  unfold mbind at 1. unfold freebusy_request in Hquery. rewrite Hquery.
  unfold response_busy_periods in Hbusy.
  repeat match type of Hbusy with
         | rbind ?r _ = Ret _ =>
             let E := fresh "E" in
             destruct r eqn:E; simpl in Hbusy; [|discriminate];
             rewrite mbind_lift; cbv beta iota
         end.
  rewrite mbind_lift, Hbusy, mbind_lift.
  by destruct (find_free_slots _ _ _ busy).
Qed.

End FreeSlotLookup.

(** ** The directory lookups *)

Section DirectoryLookups.
Context `{PyLib} {W : Type} `{Collaborators W}.

Lemma contact_entry_encoded p shown :
  contact_entry (encode_person p) (VDict [("displayName", VStr shown)])
  = Ret (entry_of p shown).
Proof.
  unfold contact_entry, encode_person, entry_of. simpl.
  by destruct (addresses p).
Qed.

Lemma first_match_encoded query p names :
  first_match (str_lower query) (encode_person p)
              ((fun n => VDict [("displayName", VStr n)]) <$> names)
  = Ret (entry_of p
           <$> List.find (fun n => contains (str_lower query) (str_lower n)) names).
Proof.
  induction names as [|n names IH]; [done|].
  cbn [fmap list_fmap first_match List.find].
  cbn [py_get assoc_get String.eqb rbind default py_lower].
  simpl (rbind _ _).
  destruct (contains (str_lower query) (str_lower n)).
  - by rewrite contact_entry_encoded.
  - apply IH.
Qed.

Lemma matching_contacts_encoded query directory :
  forall matching,
    matching_contacts (str_lower query) matching (encode_person <$> directory)
    = Ret (matching ++ entries_of query directory).
Proof.
  induction directory as [|p directory IH]; intros matching.
  - simpl. by rewrite app_nil_r.
  - cbn [fmap list_fmap matching_contacts].
    assert (Hnames : py_get (encode_person p) "names" (VList [])
                     = Ret (VList ((fun n => VDict [("displayName", VStr n)])
                                     <$> display_names p))) by done.
    rewrite Hnames. cbn [rbind py_iter].
    rewrite first_match_encoded. cbn [rbind].
    rewrite IH. unfold entries_of. cbn [omap list_omap].
    fold (matching_name query p).
    destruct (matching_name query p); simpl; by rewrite <- ?app_assoc.
Qed.

Lemma entries_of_head query directory :
  head (entries_of query directory)
  = (fun pn => entry_of pn.1 pn.2) <$> first_contact query directory.
Proof.
  induction directory as [|p directory IH]; [done|].
  unfold entries_of. cbn [omap list_omap first_contact].
  destruct (matching_name query p); [done|]. apply IH.
Qed.

Lemma find_contact_encoded query directory (w w' : W) :
  people_connections_list w = (Ret (connections_response directory), w') ->
  _find_contact (VStr query) w
  = (Ret (match first_contact query directory with
          | Some (p, shown) =>
              {[ "success" := VBool true;
                 "contact_id" :=
                   VStr (List.last (split_on "/"%char (resource_name p)) EmptyString);
                 "name" := VStr shown;
                 "email" := VStr (hd EmptyString (addresses p)) ]}
          | None => failure ("No contact found with name '" +:+ query +:+ "'")
          end), w').
Proof.
  intros Hcall. unfold _find_contact, try_except.
  rewrite mbind_lift. cbn [py_lower]. cbv beta iota.
  unfold mbind at 1. rewrite Hcall. cbv beta iota.
  rewrite mbind_lift. unfold connections_response.
  cbn [py_get assoc_get String.eqb Ascii.eqb Bool.eqb default from_option].
  cbv beta iota.
  rewrite mbind_lift. cbn [py_iter id]. cbv beta iota.
  rewrite mbind_lift, matching_contacts_encoded. cbn [app]. cbv beta iota.
  pose proof (entries_of_head query directory) as Hhead.
  destruct (entries_of query directory) as [|entry rest];
    destruct (first_contact query directory) as [[p shown]|]; simplify_eq/=; done.
Qed.

(** [_get_contact_details] on a well-formed person. *)
Lemma contact_details_encoded contact_id p (w w' : W) :
  people_get ("people/" +:+ py_str contact_id) w = (Ret (encode_person p), w') ->
  _get_contact_details contact_id w
  = (Ret {[ "success" := VBool true;
            "contact_id" := contact_id;
            "name" := VStr (hd EmptyString (display_names p));
            "email" := VStr (hd EmptyString (addresses p));
            "phone" := VStr EmptyString ]}, w').
Proof.
  intros Hcall. unfold _get_contact_details, try_except.
  unfold mbind at 1. rewrite Hcall.
  unfold encode_person.
  destruct (display_names p) as [|n names], (addresses p) as [|a addrs]; done.
Qed.

Lemma split_on_suffix (c : ascii) (t : string) :
  free_of_char c t = true ->
  forall pre, exists seg segs,
    split_on c (pre +:+ String c t) = (seg :: segs) ++ [t].
Proof.
  intros Hfree.
  assert (Hbase : split_on c t = [t]).
  { induction t as [|a t IH]; [done|]. simpl in *.
    apply andb_true_iff in Hfree as [Ha Ht]. apply negb_true_iff in Ha.
    rewrite Ha, (IH Ht). done. }
  induction pre as [|a pre IH]; simpl.
  - rewrite Ascii.eqb_refl, Hbase. by exists EmptyString, [].
  - destruct IH as (seg & segs & ->).
    destruct (Ascii.eqb a c).
    + by exists EmptyString, (seg :: segs).
    + by exists (String a seg), segs.
Qed.

(** [attendee_emails_of] on addresses. *)
Lemma attendee_emails_of_addresses (addrs : list string) :
  Forall (fun a => contains "@" a = true) addrs ->
  forall attendee_emails (w : W),
    attendee_emails_of attendee_emails (VStr <$> addrs) w
    = (Ret (attendee_emails ++ ((fun a => VDict [("email", VStr a)]) <$> addrs)), w).
Proof.
  induction 1 as [|a addrs Ha _ IH]; intros acc w.
  - simpl. by rewrite app_nil_r.
  - cbn [fmap list_fmap attendee_emails_of].
    rewrite mbind_lift. cbn [py_contains_str]. rewrite Ha.
    change (list_fmap string value VStr addrs) with (VStr <$> addrs).
    rewrite IH. by rewrite <- app_assoc.
Qed.

Lemma emails_of_addresses (addrs : list string) :
  emails_of ((fun a => VDict [("email", VStr a)]) <$> addrs)
  = Ret (VStr <$> addrs).
Proof.
  induction addrs as [|a addrs IH]; [done|].
  cbn [fmap list_fmap emails_of].
  change (list_fmap string value (fun a => VDict [("email", VStr a)]) addrs)
    with ((fun a => VDict [("email", VStr a)]) <$> addrs).
  by rewrite IH.
Qed.

End DirectoryLookups.

Lemma get_free_slots_unparsable_date
    (lib : PyLib) (W : Type) (services : Collaborators W)
    (params : dict) (user_id other_user_id : value) (date_text : string)
    (e : exn) (w : W) :
  params !! "user_id" = Some user_id ->
  params !! "other_user_id" = Some other_user_id ->
  params !! "date" = Some (VStr date_text) ->
  date_text <> "" ->
  date_fromisoformat date_text = Raise e ->
  execute "calendar" "get_free_slots" params w
  = (Ret (failure ("Error getting free slots: " +:+ exn_text e)), w).
Proof.
  intros Hu Ho Hdate Hne Hparse.
  unfold execute, _execute_calendar_api. simpl.
  rewrite mbind_lift, (dict_item_Some _ _ _ Hu).
  rewrite mbind_lift, (dict_item_Some _ _ _ Ho).
  unfold dict_get. rewrite Hdate. simpl.
  unfold _get_free_slots, try_except. simpl.
  apply String.eqb_neq in Hne. rewrite Hne. simpl.
  unfold mbind, lift. by rewrite Hparse.
Qed.

(** X7. A date text that does not parse makes [get_free_slots] fail with
    the parser's message before any service is called: the world is left as
    it was. *)
Theorem unparsable_date_fails_before_any_call :
  forall (lib : PyLib) (W : Type) (services : Collaborators W)
         (params : dict) (user_id other_user_id : value) (date_text : string)
         (e : exn) (w : W),
    params !! "user_id" = Some user_id ->
    params !! "other_user_id" = Some other_user_id ->
    params !! "date" = Some (VStr date_text) ->
    date_text <> "" ->
    date_fromisoformat date_text = Raise e ->
    execute "calendar" "get_free_slots" params w
    = (Ret (failure ("Error getting free slots: " +:+ exn_text e)), w).
Proof. intros. by eapply get_free_slots_unparsable_date. Qed.

Lemma unparsable_date_fails_before_any_call_witness :
  execute "calendar" "get_free_slots"
          {[ "user_id" := VStr "primary"; "other_user_id" := VStr "c123";
             "date" := VStr "PLACEHOLDER" ]} office
  = (Ret (failure ("Error getting free slots: "
                   +:+ exn_text (Exn ValueError
                                   "Invalid isoformat string: 'PLACEHOLDER'"))),
     office).
Proof.
  apply (unparsable_date_fails_before_any_call plain_lib script scripted
           {[ "user_id" := VStr "primary"; "other_user_id" := VStr "c123";
              "date" := VStr "PLACEHOLDER" ]}
           (VStr "primary") (VStr "c123") "PLACEHOLDER").
  - reflexivity.
  - reflexivity.
  - reflexivity.
  - discriminate.
  - reflexivity.
Defined.

(** X8. [get_contact_details] of a well-formed person returns the first
    display name and the first address, and empty strings for what the
    person does not have. *)
Theorem contact_details_take_first_name_and_address :
  forall (lib : PyLib) (W : Type) (services : Collaborators W)
         (params : dict) (contact_id : value) (p : person_record) (w w' : W),
    params !! "contact_id" = Some contact_id ->
    people_get ("people/" +:+ py_str contact_id) w = (Ret (encode_person p), w') ->
    execute "contacts" "get_contact_details" params w
    = (Ret {[ "success" := VBool true;
              "contact_id" := contact_id;
              "name" := VStr (hd EmptyString (display_names p));
              "email" := VStr (hd EmptyString (addresses p));
              "phone" := VStr EmptyString ]}, w').
Proof.
  intros lib W services params contact_id p w w' Hid Hcall.
  unfold execute, _execute_contacts_api. simpl.
  rewrite mbind_lift, (dict_item_Some _ _ _ Hid).
  by apply contact_details_encoded.
Qed.

Lemma contact_details_take_first_name_and_address_witness :
  execute "contacts" "get_contact_details" {[ "contact_id" := VStr "c123" ]} office
  = (Ret {[ "success" := VBool true;
            "contact_id" := VStr "c123";
            "name" := VStr "John Smith";
            "email" := VStr "john@example.com";
            "phone" := VStr EmptyString ]},
     note "people.get people/c123" office).
Proof.
  apply (contact_details_take_first_name_and_address plain_lib script scripted
           {[ "contact_id" := VStr "c123" ]} (VStr "c123")
           (Person "people/c123" ["John Smith"] ["john@example.com"])).
  - reflexivity.
  - reflexivity.
Defined.

(** X9. When the date is absent or parses, a contact without an address
    ends [get_free_slots] with "Contact does not have an email address"
    right after the lookup: the free/busy service is not queried. *)
Theorem contact_without_address_ends_the_lookup :
  forall (lib : PyLib) (W : Type) (services : Collaborators W)
         (params : dict) (user_id other_user_id : value) (base_date : Z)
         (p : person_record) (w w' : W),
    params !! "user_id" = Some user_id ->
    params !! "other_user_id" = Some other_user_id ->
    resolve_date (dict_get params "date" VNone) (today w) = Ret base_date ->
    people_get ("people/" +:+ py_str other_user_id) w = (Ret (encode_person p), w') ->
    addresses p = [] ->
    execute "calendar" "get_free_slots" params w
    = (Ret (failure "Contact does not have an email address"), w').
Proof.
  intros lib W services params user_id other base_date p w w'
         Hu Ho Hdate Hcall Hnone.
  unfold execute, _execute_calendar_api. simpl.
  rewrite mbind_lift, (dict_item_Some _ _ _ Hu).
  rewrite mbind_lift, (dict_item_Some _ _ _ Ho).
  unfold _get_free_slots, try_except. rewrite resolve_date_step, Hdate.
  unfold mbind at 1.
  rewrite (contact_details_encoded _ _ _ _ Hcall), Hnone. done.
Qed.

Lemma contact_without_address_ends_the_lookup_witness :
  @execute dated_lib script scripted "calendar" "get_free_slots"
           {[ "user_id" := VStr "primary"; "other_user_id" := VStr "c9";
              "date" := VStr "2030-01-07" ]}
           office_of_ann
  = (Ret (failure "Contact does not have an email address"),
     note "people.get people/c9" office_of_ann).
Proof.
  apply (contact_without_address_ends_the_lookup dated_lib script scripted
           {[ "user_id" := VStr "primary"; "other_user_id" := VStr "c9";
              "date" := VStr "2030-01-07" ]}
           (VStr "primary") (VStr "c9") 741084 (Person "people/c9" ["Ann"] [])).
  - reflexivity.
  - reflexivity.
  - reflexivity.
  - reflexivity.
  - reflexivity.
Defined.

(** The same with the date left out: the day is then tomorrow, and the
    outcome is the same. *)
Example contact_without_address_and_no_date :
  execute "calendar" "get_free_slots"
          {[ "user_id" := VStr "primary"; "other_user_id" := VStr "c9" ]}
          office_of_ann
  = (Ret (failure "Contact does not have an email address"),
     note "people.get people/c9" office_of_ann).
Proof. reflexivity. Qed.

Lemma execute_get_free_slots `{PyLib} {W : Type} `{Collaborators W}
    (params : dict) (user_id other_user_id : value) (w : W) :
  params !! "user_id" = Some user_id ->
  params !! "other_user_id" = Some other_user_id ->
  execute "calendar" "get_free_slots" params w
  = _get_free_slots user_id other_user_id (dict_get params "date" VNone) w.
Proof.
  intros Hu Ho.
  change (execute "calendar" "get_free_slots" params w)
    with (mbind (lift (dict_item params "user_id"))
            (fun user_id =>
               mbind (lift (dict_item params "other_user_id"))
                 (fun other_user_id =>
                    _get_free_slots user_id other_user_id
                                    (dict_get params "date" VNone))) w).
  rewrite mbind_lift, (dict_item_Some _ _ _ Hu).
  by rewrite mbind_lift, (dict_item_Some _ _ _ Ho).
Qed.

Lemma candidate_count_day (d : Z) :
  candidate_count (combine d 9) (combine d 17) (timedelta_minutes 30) = 16%nat.
Proof.
  unfold candidate_count, combine, stride, timedelta_minutes, hour, minute.
  cbn [wall].
  destruct (Z.leb_spec (d * day + 9 * (60 * 60000000) + 30 * 60000000)
                       (d * day + 17 * (60 * 60000000))); [|lia].
  replace (d * day + 17 * (60 * 60000000)
           - (d * day + 9 * (60 * 60000000)) - 30 * 60000000)
    with (15 * (30 * 60000000)) by lia.
  by rewrite Z.div_mul.
Qed.

Lemma day_window_fits (d : Z) :
  wall (combine d 9) + timedelta_minutes 30 <= wall (combine d 17).
Proof. unfold combine, timedelta_minutes, hour, minute. cbn [wall]. lia. Qed.

(** The contact that [_get_contact_details] returns for a well-formed
    person with an address. *)
Lemma contact_with_address `{PyLib} {W : Type} `{Collaborators W}
    (other_user_id : value) (p : person_record) (address : string) (w w1 : W) :
  people_get ("people/" +:+ py_str other_user_id) w = (Ret (encode_person p), w1) ->
  head (addresses p) = Some address -> address <> "" ->
  exists contact,
    _get_contact_details other_user_id w = (Ret contact, w1) /\
    truthy (dict_get contact "success" (VBool false)) = true /\
    dict_get contact "email" (VStr "") = VStr address /\
    truthy (VStr address) = true.
Proof.
  intros Hcall Haddr Hne.
  eexists. split; [by apply contact_details_encoded|].
  assert (Hhd : hd EmptyString (addresses p) = address)
    by (destruct (addresses p); by simplify_eq/=).
  rewrite Hhd. split; [done|]. split; [done|].
  cbn [truthy]. apply String.eqb_neq in Hne. by rewrite Hne.
Qed.

(** X10. With the date left out, a contact that has an address and naive
    busy periods in the answer, [get_free_slots] queries the window 9:00 to
    17:00 of the day after today for the calendars [primary] and the
    contact's address, and returns that date and exactly the free
    candidates among the sixteen half-hour windows of that day. *)
Theorem get_free_slots_returns_the_free_windows_of_tomorrow :
  forall (lib : PyLib) (W : Type) (services : Collaborators W)
         (params : dict) (user_id other_user_id : value) (p : person_record)
         (address : string) (freebusy : value)
         (busy : list (datetime * datetime)) (w w1 w2 : W),
    params !! "user_id" = Some user_id ->
    params !! "other_user_id" = Some other_user_id ->
    truthy (dict_get params "date" VNone) = false ->
    people_get ("people/" +:+ py_str other_user_id) w = (Ret (encode_person p), w1) ->
    head (addresses p) = Some address -> address <> "" ->
    freebusy_query (freebusy_request (today w + 1) (VStr address)) w1
    = (Ret freebusy, w2) ->
    response_busy_periods freebusy (VStr address) = Ret busy ->
    all_naive busy ->
    execute "calendar" "get_free_slots" params w
    = (Ret {[ "success" := VBool true;
              "date" := VStr (date_isoformat (today w + 1));
              "slots" :=
                VList ((fun c => slot_entry c.1 c.2)
                         <$> List.filter (clear_of_all busy)
                               (candidate (combine (today w + 1) 9)
                                          (timedelta_minutes 30)
                                  <$> seq 0 16)) ]}, w2).
Proof.
  intros lib W services params user_id other p address freebusy busy w w1 w2
         Hu Ho Hdate Hcall Haddr Hne Hquery Hbusy Hnaive.
  rewrite (execute_get_free_slots params user_id other w Hu Ho).
  destruct (contact_with_address other p address w w1 Hcall Haddr Hne)
    as (contact & Hcontact & Hok & Hemail & Htruthy).
  rewrite <- Hemail in Hquery, Hbusy, Htruthy.
  rewrite (get_free_slots_pipeline user_id other (dict_get params "date" VNone)
             contact freebusy busy w w1 w2 Hdate Hcontact Hok Htruthy Hquery Hbusy).
  rewrite (find_free_slots_naive (combine (today w + 1) 9) (combine (today w + 1) 17)
             (timedelta_minutes 30) busy eq_refl eq_refl Hnaive
             thirty_minutes_nonneg).
  by rewrite candidate_count_day.
Qed.

Lemma get_free_slots_returns_the_free_windows_of_tomorrow_witness :
  execute "calendar" "get_free_slots"
          {[ "user_id" := VStr "primary"; "other_user_id" := VStr "c123" ]} office
  = (Ret {[ "success" := VBool true;
            "date" := VStr (date_isoformat (today office + 1));
            "slots" :=
              VList ((fun c => slot_entry c.1 c.2)
                       <$> List.filter (clear_of_all [])
                             (candidate (combine (today office + 1) 9)
                                        (timedelta_minutes 30)
                                <$> seq 0 16)) ]},
     note "freebusy.query" (note "people.get people/c123" office)).
Proof.
  apply (get_free_slots_returns_the_free_windows_of_tomorrow plain_lib script
           scripted
           {[ "user_id" := VStr "primary"; "other_user_id" := VStr "c123" ]}
           (VStr "primary") (VStr "c123")
           (Person "people/c123" ["John Smith"] ["john@example.com"])
           "john@example.com" (VDict [("calendars", VDict [])]) []
           office (note "people.get people/c123" office)).
  - reflexivity.
  - reflexivity.
  - reflexivity.
  - reflexivity.
  - reflexivity.
  - discriminate.
  - reflexivity.
  - reflexivity.
  - constructor.
Defined.

(** X11. When the date is absent or parses and the first busy period of
    the free/busy answer, the user's periods coming before the contact's,
    has a start that reads as an aware datetime, as a text with an offset
    or a [Z] does, [get_free_slots] returns no slot: it fails with the
    message of the comparison between a naive and an aware datetime. *)
Theorem get_free_slots_fails_on_aware_busy_period :
  forall (lib : PyLib) (W : Type) (services : Collaborators W)
         (params : dict) (user_id other_user_id : value) (base_date : Z)
         (p : person_record) (address : string) (freebusy : value)
         (busy_start busy_end : datetime) (offset : Z)
         (rest : list (datetime * datetime)) (w w1 w2 : W),
    params !! "user_id" = Some user_id ->
    params !! "other_user_id" = Some other_user_id ->
    resolve_date (dict_get params "date" VNone) (today w) = Ret base_date ->
    people_get ("people/" +:+ py_str other_user_id) w = (Ret (encode_person p), w1) ->
    head (addresses p) = Some address -> address <> "" ->
    freebusy_query (freebusy_request base_date (VStr address)) w1
    = (Ret freebusy, w2) ->
    response_busy_periods freebusy (VStr address)
    = Ret ((busy_start, busy_end) :: rest) ->
    utcoffset busy_start = Some offset ->
    execute "calendar" "get_free_slots" params w
    = (Ret (failure ("Error getting free slots: "
                     +:+ "can't compare offset-naive and offset-aware datetimes")),
       w2).
Proof.
  intros lib W services params user_id other base_date p address freebusy bs be
         offset rest w w1 w2 Hu Ho Hdate Hcall Haddr Hne Hquery Hbusy Haware.
  rewrite (execute_get_free_slots params user_id other w Hu Ho).
  destruct (contact_with_address other p address w w1 Hcall Haddr Hne)
    as (contact & Hcontact & Hok & Hemail & Htruthy).
  rewrite <- Hemail in Hquery, Hbusy, Htruthy.
  rewrite (get_free_slots_pipeline_dated user_id other
             (dict_get params "date" VNone) base_date
             contact freebusy ((bs, be) :: rest) w w1 w2
             Hdate Hcontact Hok Htruthy Hquery Hbusy).
  by rewrite (find_free_slots_aware (combine base_date 9)
                (combine base_date 17) (timedelta_minutes 30) bs be offset rest
                eq_refl eq_refl (day_window_fits base_date) Haware).
Qed.

Lemma get_free_slots_fails_on_aware_busy_period_witness :
  @execute dated_lib script scripted "calendar" "get_free_slots"
           {[ "user_id" := VStr "primary"; "other_user_id" := VStr "c123";
              "date" := VStr "2030-01-07" ]}
           busy_office
  = (Ret (failure ("Error getting free slots: "
                   +:+ "can't compare offset-naive and offset-aware datetimes")),
     note "freebusy.query" (note "people.get people/c123" busy_office)).
Proof.
  apply (get_free_slots_fails_on_aware_busy_period dated_lib script scripted
           {[ "user_id" := VStr "primary"; "other_user_id" := VStr "c123";
              "date" := VStr "2030-01-07" ]}
           (VStr "primary") (VStr "c123") 741084
           (Person "people/c123" ["John Smith"] ["john@example.com"])
           "john@example.com"
           (VDict [("calendars",
                    VDict [("primary",
                            VDict [("busy",
                                    VList [VDict [("start", VStr "2030-01-07T09:00:00Z");
                                                  ("end", VStr "2030-01-07T09:30:00Z")]])])])])
           {| wall := 0; utcoffset := Some 0 |} {| wall := 0; utcoffset := Some 0 |}
           0 [] busy_office (note "people.get people/c123" busy_office)).
  - reflexivity.
  - reflexivity.
  - reflexivity.
  - reflexivity.
  - reflexivity.
  - discriminate.
  - reflexivity.
  - reflexivity.
  - reflexivity.
Defined.

(** The same with the date left out, under the library that reads no
    date. *)
Example aware_busy_period_and_no_date :
  @execute zulu_lib script scripted "calendar" "get_free_slots"
           {[ "user_id" := VStr "primary"; "other_user_id" := VStr "c123" ]}
           busy_office
  = (Ret (failure ("Error getting free slots: "
                   +:+ "can't compare offset-naive and offset-aware datetimes")),
     note "freebusy.query" (note "people.get people/c123" busy_office)).
Proof. reflexivity. Qed.

(** X12. On a well-formed directory [find_contact] returns the first person,
    in the directory's order, one of whose display names contains the
    query when both are put in lower case, with the first such name, the
    last segment of the resource name as contact id and the first address
    (or the empty string); and "No contact found with name '<query>'" when
    no person has such a name. *)
Theorem find_contact_returns_the_first_match :
  forall (lib : PyLib) (W : Type) (services : Collaborators W)
         (params : dict) (query : string) (directory : list person_record)
         (w w' : W),
    params !! "name" = Some (VStr query) ->
    people_connections_list w = (Ret (connections_response directory), w') ->
    execute "contacts" "find_contact" params w
    = (Ret (match first_contact query directory with
            | Some (p, shown) =>
                {[ "success" := VBool true;
                   "contact_id" :=
                     VStr (List.last (split_on "/"%char (resource_name p)) EmptyString);
                   "name" := VStr shown;
                   "email" := VStr (hd EmptyString (addresses p)) ]}
            | None => failure ("No contact found with name '" +:+ query +:+ "'")
            end), w').
Proof.
  intros lib W services params query directory w w' Hname Hcall.
  unfold execute, _execute_contacts_api. simpl.
  rewrite mbind_lift, (dict_item_Some _ _ _ Hname).
  by apply find_contact_encoded.
Qed.

Lemma find_contact_returns_the_first_match_witness :
  execute "contacts" "find_contact" {[ "name" := VStr "SMITH" ]} office
  = (Ret (match first_contact "SMITH"
                  [Person "people/c123" ["John Smith"] ["john@example.com"]] with
          | Some (p, shown) =>
              {[ "success" := VBool true;
                 "contact_id" :=
                   VStr (List.last (split_on "/"%char (resource_name p)) EmptyString);
                 "name" := VStr shown;
                 "email" := VStr (hd EmptyString (addresses p)) ]}
          | None => failure ("No contact found with name '" +:+ "SMITH" +:+ "'")
          end), note "connections.list" office).
Proof.
  apply (find_contact_returns_the_first_match plain_lib script scripted
           {[ "name" := VStr "SMITH" ]} "SMITH"
           [Person "people/c123" ["John Smith"] ["john@example.com"]]).
  - reflexivity.
  - reflexivity.
Defined.

(** The witness's directory does hold a match for the query. *)
Example smith_is_found :
  first_contact "SMITH" [Person "people/c123" ["John Smith"] ["john@example.com"]]
  = Some (Person "people/c123" ["John Smith"] ["john@example.com"], "John Smith").
Proof. reflexivity. Qed.

(** X13. The contact id that [find_contact] takes from a resource name
    [people/<id>] leads [get_contact_details] back to the same resource:
    for an [id] without a slash, the last segment of [people/<id>] is [id],
    and the resource requested for it is [people/<id>] again. *)
Theorem contact_id_names_the_same_resource :
  forall (lib : PyLib) (id : string),
    free_of_char "/"%char id = true ->
    exists contact_id,
      py_split_last (VStr ("people/" +:+ id)) = Ret contact_id /\
      contact_id = VStr id /\
      "people/" +:+ py_str contact_id = "people/" +:+ id.
Proof.
  intros lib id Hfree. exists (VStr id). split; [|done].
  unfold py_split_last. do 2 f_equal.
  destruct (split_on_suffix "/"%char id Hfree "people") as (seg & segs & Hsplit).
  change ("people/" +:+ id) with ("people" +:+ String "/"%char id).
  rewrite Hsplit. apply last_last.
Qed.

Lemma contact_id_names_the_same_resource_witness :
  exists contact_id,
    py_split_last (VStr ("people/" +:+ "c123")) = Ret contact_id /\
    contact_id = VStr "c123" /\
    "people/" +:+ py_str contact_id = "people/" +:+ "c123".
Proof.
  apply (contact_id_names_the_same_resource plain_lib "c123"). reflexivity.
Defined.

(** X14. Attendees that are addresses go into the event as they are: when
    every attendee is a string that contains [@], [book_meeting] looks up
    no contact, inserts one event with these attendees, and returns them
    with the id and the link of the created event. *)
Theorem book_meeting_passes_addresses_through :
  forall (lib : PyLib) (W : Type) (services : Collaborators W)
         (params : dict) (title start_time end_time : value)
         (addrs : list string) (created : list (string * value)) (w w' : W),
    params !! "title" = Some title ->
    params !! "attendees" = Some (VList (VStr <$> addrs)) ->
    params !! "start_time" = Some start_time ->
    params !! "end_time" = Some end_time ->
    Forall (fun a => contains "@" a = true) addrs ->
    events_insert
      (VDict [("summary", title);
              ("description", dict_get params "description" (VStr ""));
              ("start", VDict [("dateTime", start_time); ("timeZone", VStr "UTC")]);
              ("end", VDict [("dateTime", end_time); ("timeZone", VStr "UTC")]);
              ("attendees", VList ((fun a => VDict [("email", VStr a)]) <$> addrs));
              ("reminders", VDict [("useDefault", VBool true)])]) w
    = (Ret (VDict created), w') ->
    execute "calendar" "book_meeting" params w
    = (Ret {[ "success" := VBool true;
              "meeting_id" := default VNone (assoc_get "id" created);
              "title" := title;
              "start_time" := start_time;
              "end_time" := end_time;
              "attendees" := VList (VStr <$> addrs);
              "link" := default VNone (assoc_get "htmlLink" created) ]}, w').
Proof.
  intros lib W services params title start_time end_time addrs created w w'
         Ht Ha Hs He Haddrs Hinsert.
  unfold execute, _execute_calendar_api. simpl.
  rewrite mbind_lift, (dict_item_Some _ _ _ Ht).
  rewrite mbind_lift, (dict_item_Some _ _ _ Ha).
  rewrite mbind_lift, (dict_item_Some _ _ _ Hs).
  rewrite mbind_lift, (dict_item_Some _ _ _ He).
  unfold _book_meeting, try_except.
  rewrite mbind_lift. cbn [py_iter]. cbv beta iota.
  unfold mbind at 1. rewrite (attendee_emails_of_addresses addrs Haddrs).
  cbn [app]. unfold mbind at 1. rewrite Hinsert.
  rewrite mbind_lift. cbn [py_get]. cbv beta iota.
  rewrite mbind_lift, emails_of_addresses.
  rewrite mbind_lift. done.
Qed.

Lemma book_meeting_passes_addresses_through_witness :
  execute "calendar" "book_meeting"
          {[ "title" := VStr "Sync";
             "attendees" := VList (VStr <$> ["ann@example.com"]);
             "start_time" := VStr "2030-01-07T10:00:00Z";
             "end_time" := VStr "2030-01-07T10:30:00Z" ]} office
  = (Ret {[ "success" := VBool true;
            "meeting_id" :=
              default VNone (assoc_get "id" [("id", VStr "evt1");
                                             ("htmlLink", VStr "https://calendar/evt1")]);
            "title" := VStr "Sync";
            "start_time" := VStr "2030-01-07T10:00:00Z";
            "end_time" := VStr "2030-01-07T10:30:00Z";
            "attendees" := VList (VStr <$> ["ann@example.com"]);
            "link" :=
              default VNone (assoc_get "htmlLink" [("id", VStr "evt1");
                                                   ("htmlLink", VStr "https://calendar/evt1")]) ]},
     note "events.insert" office).
Proof.
  apply (book_meeting_passes_addresses_through plain_lib script scripted
           {[ "title" := VStr "Sync";
              "attendees" := VList (VStr <$> ["ann@example.com"]);
              "start_time" := VStr "2030-01-07T10:00:00Z";
              "end_time" := VStr "2030-01-07T10:30:00Z" ]}
           (VStr "Sync") (VStr "2030-01-07T10:00:00Z") (VStr "2030-01-07T10:30:00Z")
           ["ann@example.com"]).
  - reflexivity.
  - reflexivity.
  - reflexivity.
  - reflexivity.
  - repeat constructor.
  - reflexivity.
Defined.

(** ** More on the plan runner *)

Section RunnerFacts.
Context {W : Type}.
Variable exec : string -> string -> dict -> M W dict.

(** What a run does to the agent. *)
Lemma execute_steps_agent plan :
  forall results self w log,
    let run := execute_steps (recording exec) plan results self (w, log) in
    exists calls,
      run.2.2 = log ++ calls /\
      (Forall (fun call => suspends call = false) calls -> run.1.2 = self) /\
      (is_Some (pending_action self) -> is_Some (pending_action run.1.2)).
Proof.
  induction plan as [|step rest IH]; intros results self w log; simpl.
  { exists []. by rewrite app_nil_r. }
  destruct (exec (api step) (action step) (params step) w)
    as [[result|e] w'] eqn:Hexec; rewrite step_eta.
  - destruct (String.eqb (action step) "get_free_slots"
              && negb (truthy (dict_get result "success" VNone))) eqn:Hstop.
    + exists [(step, Ret result)].
      assert (Hsus : suspends (step, Ret result) = true) by done.
      destruct (params step !! "other_user_id"); simpl;
        (split; [done|]); (split; [|by eauto]);
        intros Hall; apply Forall_cons in Hall as [Hno _]; congruence.
    + destruct (IH (<[step_key step:=result]> results) self w'
                   (log ++ [(step, Ret result)])) as (calls & Hlog & Hsame & Hkeep).
      exists ((step, Ret result) :: calls).
      split; [by rewrite Hlog, <- app_assoc|].
      split; [|done].
      intros Hall. apply Forall_cons in Hall as [_ Hall]. by apply Hsame.
  - exists [(step, Raise e)]. simpl. by repeat split.
Qed.

(** When a run raises. *)
Lemma execute_steps_raises plan :
  forall results self w log,
    let run := execute_steps (recording exec) plan results self (w, log) in
    exists calls,
      run.2.2 = log ++ calls /\
      forall e,
        run.1.1 = Raise e <->
        exists call,
          last calls = Some call /\
          (call.2 = Raise e \/
           (suspends call = true /\
            params call.1 !! "other_user_id" = None /\
            e = key_error "other_user_id")).
Proof.
  induction plan as [|step rest IH]; intros results self w log; simpl.
  { exists []. rewrite app_nil_r. split; [done|].
    intros e. split; [done|]. by intros (call & Hlast & _). }
  destruct (exec (api step) (action step) (params step) w)
    as [[result|e0] w'] eqn:Hexec; rewrite step_eta.
  - destruct (String.eqb (action step) "get_free_slots"
              && negb (truthy (dict_get result "success" VNone))) eqn:Hstop.
    + exists [(step, Ret result)].
      assert (Hsus : suspends (step, Ret result) = true) by done.
      destruct (params step !! "other_user_id") as [v|] eqn:Hid; simpl;
        (split; [done|]); intros e; split.
      * done.
      * intros (call & Hlast & [Hr|(_ & Hnone & _)]); simplify_eq/=.
      * intros He. simplify_eq. exists (step, Ret result). split; [done|].
        right. by repeat split.
      * intros (call & Hlast & [Hr|(_ & _ & ->)]); by simplify_eq/=.
    + destruct (IH (<[step_key step:=result]> results) self w'
                   (log ++ [(step, Ret result)])) as (calls & Hlog & Hiff).
      exists ((step, Ret result) :: calls).
      split; [by rewrite Hlog, <- app_assoc|].
      intros e. rewrite Hiff.
      destruct calls as [|call calls].
      * split; [by intros (c & Hlast & _)|].
        intros (c & Hlast & [Hr|(Hs & _)]); simplify_eq/=.
        unfold suspends in Hs. simpl in Hs. congruence.
      * by rewrite last_cons_cons.
  - exists [(step, Raise e0)]. simpl. split; [done|].
    intros e. split.
    + intros He. simplify_eq. exists (step, Raise e). split; [done|]. by left.
    + intros (call & Hlast & [Hr|(Hs & _)]); by simplify_eq/=.
Qed.

(** What a run that returns has written under each key. *)
Lemma execute_steps_written plan :
  forall results self w log out,
    let run := execute_steps (recording exec) plan results self (w, log) in
    run.1.1 = Ret out ->
    exists calls,
      run.2.2 = log ++ calls /\
      forall k,
        (out !! k = results !! k /\
         forall call, call ∈ calls -> step_key call.1 <> k) \/
        (exists i step result,
            calls !! i = Some (step, Ret result) /\
            step_key step = k /\
            out !! k = Some result /\
            forall j call, (i < j)%nat -> calls !! j = Some call ->
                           step_key call.1 <> k).
Proof.
  induction plan as [|step rest IH]; intros results self w log out; simpl.
  { intros Hout. simplify_eq. exists []. rewrite app_nil_r. split; [done|].
    intros k. left. split; [done|]. intros call Hin. by apply elem_of_nil in Hin. }
  destruct (exec (api step) (action step) (params step) w)
    as [[result|e0] w'] eqn:Hexec; rewrite step_eta; [|done].
  destruct (String.eqb (action step) "get_free_slots"
            && negb (truthy (dict_get result "success" VNone))) eqn:Hstop.
  - destruct (params step !! "other_user_id") as [v|] eqn:Hid; simpl; [|done].
    intros Hout. simplify_eq. exists [(step, Ret result)]. split; [done|].
    intros k. destruct (decide (step_key step = k)) as [<-|Hne].
    + right. exists 0%nat, step, result. repeat split; try done.
      * by rewrite lookup_insert_eq.
      * intros [|j] call Hj Hcall; [lia|]. by destruct j.
    + left. split; [by rewrite lookup_insert_ne|].
      intros call Hin. apply list_elem_of_singleton in Hin. by subst.
  - intros Hout.
    destruct (IH (<[step_key step:=result]> results) self w'
                 (log ++ [(step, Ret result)]) out Hout) as (calls & Hlog & Hkeys).
    exists ((step, Ret result) :: calls).
    split; [by rewrite Hlog, <- app_assoc|].
    intros k. destruct (Hkeys k) as [[Hsame Hnone]|(i & s & r & Hi & Hk & Hr & Hlater)].
    + destruct (decide (step_key step = k)) as [<-|Hne].
      * right. exists 0%nat, step, result. repeat split; try done.
        -- by rewrite Hsame, lookup_insert_eq.
        -- intros [|j] call Hj Hcall; [lia|]. simpl in Hcall.
           apply Hnone. apply list_elem_of_lookup. eauto.
      * left. split; [by rewrite Hsame, lookup_insert_ne|].
        intros call Hin. apply elem_of_cons in Hin as [->|Hin]; [done|].
        by apply Hnone.
    + right. exists (S i), s, r. repeat split; try done.
      intros [|j] call Hj Hcall; [lia|]. simpl in Hcall.
      apply (Hlater j call); [lia|done].
Qed.

End RunnerFacts.

(** X15. A run never clears a pending action: one that is set before the
    run is still set after it; and a run in which no call suspends leaves
    both attributes of the agent as they were. *)
Theorem pending_action_is_never_cleared :
  forall (W : Type) (exec : string -> string -> dict -> M W dict)
         (plan : list PlanStep) (prompt : string) (self : agent) (w : W),
    let self' := (_execute_plan exec plan prompt self w).1.2 in
    (is_Some (pending_action self) -> is_Some (pending_action self')) /\
    (Forall (fun call => suspends call = false) (calls_of exec plan prompt self w) ->
     self' = self).
Proof.
  intros W exec plan prompt self w. simpl.
  destruct (execute_steps_agent exec plan ∅ self w []) as (calls & Hlog & Hsame & Hkeep).
  rewrite (calls_of_log exec plan prompt self w calls Hlog).
  rewrite <- (recorded_outcome exec plan prompt self w). done.
Qed.

(** X16. A run raises exactly when its last call raised, and then it
    raises that exception, or when its last call suspended on a step whose
    params have no [other_user_id], and then it raises the [KeyError] of
    that key. *)
Theorem run_raises_with_its_last_call :
  forall (W : Type) (exec : string -> string -> dict -> M W dict)
         (plan : list PlanStep) (prompt : string) (self : agent) (w : W) (e : exn),
    (_execute_plan exec plan prompt self w).1.1 = Raise e <->
    exists call,
      last (calls_of exec plan prompt self w) = Some call /\
      (call.2 = Raise e \/
       (suspends call = true /\
        params call.1 !! "other_user_id" = None /\
        e = key_error "other_user_id")).
Proof.
  intros W exec plan prompt self w e.
  destruct (execute_steps_raises exec plan ∅ self w []) as (calls & Hlog & Hiff).
  rewrite (calls_of_log exec plan prompt self w calls Hlog).
  rewrite <- (recorded_outcome exec plan prompt self w). apply Hiff.
Qed.

(** X17. The results of a run that returns hold, under each key, the result
    of the last call made for a step with that key, and nothing else: a
    later step with the same api and action overwrites an earlier one. *)
Theorem results_hold_the_last_result_per_key :
  forall (W : Type) (exec : string -> string -> dict -> M W dict)
         (plan : list PlanStep) (prompt : string) (self : agent) (w : W)
         (results : gmap string dict),
    (_execute_plan exec plan prompt self w).1.1 = Ret results ->
    forall (k : string) (result : dict),
      results !! k = Some result <->
      exists i step,
        calls_of exec plan prompt self w !! i = Some (step, Ret result) /\
        step_key step = k /\
        forall j call, (i < j)%nat ->
                       calls_of exec plan prompt self w !! j = Some call ->
                       step_key call.1 <> k.
Proof.
  intros W exec plan prompt self w results Hout k result.
  rewrite <- (recorded_outcome exec plan prompt self w) in Hout.
  destruct (execute_steps_written exec plan ∅ self w [] results Hout)
    as (calls & Hlog & Hkeys).
  rewrite (calls_of_log exec plan prompt self w calls Hlog).
  destruct (Hkeys k) as [[Hsame Hnone]|(i & s & r & Hi & Hk & Hr & Hlater)].
  - rewrite Hsame, lookup_empty. split; [done|].
    intros (i & step & Hi & Hk & _). exfalso.
    apply (Hnone (step, Ret result)); [|done].
    apply list_elem_of_lookup. eauto.
  - rewrite Hr. split.
    + intros Heq. simplify_eq. eauto.
    + intros (i' & step & Hi' & Hk' & Hlater').
      destruct (Nat.lt_trichotomy i i') as [Hlt|[->|Hgt]].
      * exfalso. by apply (Hlater i' (step, Ret result) Hlt Hi').
      * by simplify_eq.
      * exfalso. by apply (Hlater' i (s, Ret r) Hgt Hi).
Qed.

Lemma results_hold_the_last_result_per_key_witness :
  (<[ "calendar_get_free_slots" := failure "unavailable" ]> ∅ : gmap string dict)
    !! "calendar_get_free_slots" = Some (failure "unavailable") <->
  exists i step,
    calls_of always_failing slots_first_plan "Book a meeting" new_agent tt !! i
    = Some (step, Ret (failure "unavailable")) /\
    step_key step = "calendar_get_free_slots" /\
    forall j call, (i < j)%nat ->
                   calls_of always_failing slots_first_plan "Book a meeting"
                            new_agent tt !! j = Some call ->
                   step_key call.1 <> "calendar_get_free_slots".
Proof.
  refine (results_hold_the_last_result_per_key unit always_failing
            slots_first_plan "Book a meeting" new_agent tt _ _
            "calendar_get_free_slots" (failure "unavailable")).
  reflexivity.
Defined.

(** X18. A run that ends suspended never leads to a success response,
    whatever the agent held before it: when the run returns and one of its
    calls, a call of a [calendar] step, suspended it, the response built
    from its results has status error. *)
Theorem suspended_run_gives_an_error_response :
  forall (W : Type) (exec : string -> string -> dict -> M W dict)
         (plan : list PlanStep) (prompt : string) (self : agent) (w : W)
         (results : gmap string dict) (self' : agent) (w' : W)
         (call : PlanStep * res dict),
    _execute_plan exec plan prompt self w = (Ret results, self', w') ->
    call ∈ calls_of exec plan prompt self w ->
    suspends call = true ->
    api call.1 = "calendar" ->
    _generate_response prompt results !! "status" = Some (VStr "error").
Proof.
  intros W exec plan prompt self w results self' w' call Hrun Hin Hsus Hcal.
  pose proof (recorded_outcome exec plan prompt self w) as Hsame.
  rewrite Hrun in Hsame. simpl in Hsame.
  assert (Hout : (execute_steps (recording exec) plan ∅ self (w, [])).1.1
                 = Ret results) by (by rewrite Hsame).
  destruct (execute_steps_counts exec plan ∅ self w [] results Hout)
    as (calls & Hlog & _ & Hlast).
  destruct (calls_of_shape exec plan prompt self w) as (_ & _ & Hend & _).
  rewrite (calls_of_log exec plan prompt self w calls Hlog) in *.
  apply list_elem_of_lookup in Hin as [i Hi].
  destruct (Hend i call Hi Hsus) as [Hlen _].
  assert (Hcall : last calls = Some call).
  { rewrite last_lookup, <- Hlen. done. }
  destruct (Hlast call Hcall Hsus) as ((result & _ & Hres & Hfail) & Hact & _).
  assert (Hkey : step_key call.1 = "calendar_get_free_slots")
    by (unfold step_key; by rewrite Hact, Hcal).
  rewrite Hkey in Hres.
  unfold _generate_response.
  assert (Hslots : succeeded results "calendar_get_free_slots" = false)
    by (unfold succeeded; by rewrite Hres).
  rewrite Hslots. by destruct (succeeded results "contacts_find_contact").
Qed.

Lemma suspended_run_gives_an_error_response_witness :
  _generate_response "Book a meeting"
    (<[ "calendar_get_free_slots" := failure "unavailable" ]> ∅)
    !! "status" = Some (VStr "error").
Proof.
  apply (suspended_run_gives_an_error_response unit always_failing
           slots_first_plan "Book a meeting"
           {| pending_action := Some "get_free_slots";
              pending_action_contact_id := Some (VStr "old") |} tt _
           {| pending_action := Some "get_free_slots";
              pending_action_contact_id := Some (VStr "c123") |} tt
           ({| api := "calendar"; action := "get_free_slots";
               params := {[ "other_user_id" := VStr "c123" ]} |},
            Ret (failure "unavailable"))).
  - reflexivity.
  - apply list_elem_of_here.
  - reflexivity.
  - reflexivity.
Defined.

(** ** The second agent of [google_calendar_integration_openai.py] *)

(** X19. The plan builder of lines 328-348 returns, for every intent and
    user id, a plan of one to three steps that ends with its only
    [get_free_slots] step; the plan starts with a [find_contact] step for
    the intent's [contact_name] exactly when the intent has that key,
    whatever its value; and it holds a [preferences] step exactly when the
    intent has a true [ask_preferences]. *)
Theorem builder_plan_shape :
  forall (intent : dict) (user_id : string),
    exists plan,
      google_calendar_integration_openai._create_execution_plan intent user_id
      = Ret plan /\
      last plan
      = Some {| api := "calendar"; action := "get_free_slots";
                params := {[ "user_id" := VStr user_id;
                             "other_user_id" := VStr "PLACEHOLDER";
                             "date" := VStr "PLACEHOLDER" ]} |} /\
      length (List.filter (fun step => String.eqb (action step) "get_free_slots")
                          plan) = 1%nat /\
      (1 <= length plan <= 3)%nat /\
      (forall name, intent !! "contact_name" = Some name ->
         head plan = Some {| api := "contacts"; action := "find_contact";
                             params := {[ "name" := name ]} |}) /\
      (intent !! "contact_name" = None ->
         forall step, step ∈ plan -> action step <> "find_contact") /\
      ((exists step, step ∈ plan /\ api step = "preferences") <->
       is_Some (intent !! "ask_preferences") /\
       truthy (dict_get intent "ask_preferences" VNone) = true).
Proof.
  intros intent user_id.
  destruct (build_plan_rules (VStr "PLACEHOLDER") intent user_id) as (plan & Hp & ->).
  eexists. split; [exact Hp|].
  assert (Hcond : bool_decide (is_Some (intent !! "ask_preferences"))
                  && truthy (dict_get intent "ask_preferences" VNone) = true
                  <-> is_Some (intent !! "ask_preferences")
                      /\ truthy (dict_get intent "ask_preferences" VNone) = true)
    by (rewrite andb_true_iff, bool_decide_eq_true; done).
  destruct (bool_decide (is_Some (intent !! "ask_preferences"))
            && truthy (dict_get intent "ask_preferences" VNone)) eqn:Hask;
    destruct (intent !! "contact_name") as [name|] eqn:Hname; cbn [app].
  - split; [reflexivity|]. split; [reflexivity|]. split; [simpl; lia|].
    split; [by intros ? [= <-]|]. split; [done|].
    split; [intros _; by apply Hcond|].
    intros _. eexists.
    split; [apply list_elem_of_further, list_elem_of_here|reflexivity].
  - split; [reflexivity|]. split; [reflexivity|]. split; [simpl; lia|].
    split; [done|]. split.
    + intros _ step Hin.
      apply elem_of_cons in Hin as [->|Hin]; [done|].
      apply list_elem_of_singleton in Hin. by subst.
    + split; [intros _; by apply Hcond|].
      intros _. eexists. split; [apply list_elem_of_here|reflexivity].
  - split; [reflexivity|]. split; [reflexivity|]. split; [simpl; lia|].
    split; [by intros ? [= <-]|]. split; [done|].
    split; [|intros Hyes; apply Hcond in Hyes; done].
    intros (step & Hin & Hapi).
    apply elem_of_cons in Hin as [->|Hin]; [done|].
    apply list_elem_of_singleton in Hin. by subst.
  - split; [reflexivity|]. split; [reflexivity|]. split; [simpl; lia|].
    split; [done|]. split.
    + intros _ step Hin. apply list_elem_of_singleton in Hin. by subst.
    + split; [|intros Hyes; apply Hcond in Hyes; done].
      intros (step & Hin & Hapi).
      apply list_elem_of_singleton in Hin. by subst.
Qed.

Section OpenaiRunner.
Context {W : Type}.
Variable exec : string -> string -> dict -> M W dict.

Lemma openai_recording_erase plan :
  forall results w log,
    let recorded := openai_agent.execute_steps (recording exec) plan results (w, log) in
    let plain := openai_agent.execute_steps exec plan results w in
    recorded.1 = plain.1 /\ recorded.2.1 = plain.2.
Proof.
  induction plan as [|step rest IH]; intros results w log; simpl; [done|].
  destruct (exec (api step) (action step) (params step) w) as [[result|e] w'];
    [apply IH|done].
Qed.

Lemma openai_execute_steps_all plan :
  forall results w log out,
    let run := openai_agent.execute_steps (recording exec) plan results (w, log) in
    run.1 = Ret out ->
    exists calls,
      run.2.2 = log ++ calls /\
      calls.*1 = plan /\
      (forall k, is_Some (results !! k) -> is_Some (out !! k)) /\
      (forall step, step ∈ plan -> is_Some (out !! step_key step)) /\
      (size out <= size results + length plan)%nat.
Proof.
  induction plan as [|step rest IH]; intros results w log out; simpl.
  { intros Hout. simplify_eq. exists []. rewrite app_nil_r.
    repeat split; try done; [|lia].
    intros step Hin. by apply elem_of_nil in Hin. }
  destruct (exec (api step) (action step) (params step) w)
    as [[result|e] w'] eqn:Hexec; rewrite step_eta; [|done].
  intros Hout.
  destruct (IH (<[step_key step:=result]> results) w'
               (log ++ [(step, Ret result)]) out Hout)
    as (calls & Hlog & Hall & Hkeep & Hin & Hsize).
  exists ((step, Ret result) :: calls).
  split; [by rewrite Hlog, <- app_assoc|].
  split; [by rewrite fmap_cons, Hall|].
  assert (Hins : (size (<[step_key step:=result]> results) <= S (size results))%nat).
  { destruct (results !! step_key step) eqn:Hk.
    - rewrite map_size_insert_Some by eauto. lia.
    - rewrite map_size_insert_None by done. lia. }
  split; [|split; [|lia]].
  - intros k Hk. apply Hkeep.
    destruct (decide (step_key step = k)) as [<-|Hne];
      [by rewrite lookup_insert_eq | by rewrite lookup_insert_ne].
  - intros s Hs. apply elem_of_cons in Hs as [->|Hs]; [|by apply Hin].
    apply Hkeep. by rewrite lookup_insert_eq.
Qed.

End OpenaiRunner.

(** X20. The runner of the second agent (lines 350-355) has no
    suspension: a run that returns has called every step of the plan in
    order, whatever the steps returned, and holds a result for each step,
    at most one per step. *)
Theorem openai_runner_calls_every_step :
  forall (W : Type) (exec : string -> string -> dict -> M W dict)
         (plan : list PlanStep) (w : W) (results : gmap string dict) (w' : W),
    openai_agent._execute_plan exec plan w = (Ret results, w') ->
    (openai_agent._execute_plan (recording exec) plan (w, [])).2.2.*1 = plan /\
    (forall step, step ∈ plan -> is_Some (results !! step_key step)) /\
    (size results <= length plan)%nat.
Proof.
  intros W exec plan w results w' Hrun.
  unfold openai_agent._execute_plan in *.
  destruct (openai_recording_erase exec plan ∅ w []) as [Hsame _].
  assert (Hout : (openai_agent.execute_steps (recording exec) plan ∅ (w, [])).1
                 = Ret results) by (rewrite Hsame, Hrun; done).
  destruct (openai_execute_steps_all exec plan ∅ w [] results Hout)
    as (calls & Hlog & Hall & _ & Hin & Hsize).
  rewrite Hlog. rewrite map_size_empty in Hsize. done.
Qed.

Lemma openai_runner_calls_every_step_witness :
  (openai_agent._execute_plan (recording always_failing) slots_first_plan
                              (tt, [])).2.2.*1 = slots_first_plan /\
  (forall step, step ∈ slots_first_plan ->
     is_Some ((<[ "contacts_find_contact" := failure "unavailable" ]>
                 (<[ "calendar_get_free_slots" := failure "unavailable" ]> ∅)
               : gmap string dict) !! step_key step)) /\
  (size (<[ "contacts_find_contact" := failure "unavailable" ]>
           (<[ "calendar_get_free_slots" := failure "unavailable" ]> ∅)
         : gmap string dict) <= length slots_first_plan)%nat.
Proof.
  apply (openai_runner_calls_every_step unit always_failing slots_first_plan tt _ tt).
  reflexivity.
Defined.

(** ** From the builder to the results *)

Section BuiltPlan.
Context `{PyLib} {W : Type} `{Collaborators W}.

Lemma execute_find_contact_step (name : value) (w : W) :
  exists result w',
    execute "contacts" "find_contact" {[ "name" := name ]} w = (Ret result, w').
Proof.
  change (execute "contacts" "find_contact" {[ "name" := name ]} w)
    with (mbind (lift (dict_item ({[ "name" := name ]} : dict) "name"))
                (fun name => _find_contact name) w).
  rewrite mbind_lift, (dict_item_Some _ _ name) by apply lookup_singleton_eq.
  apply _find_contact_returns.
Qed.

Lemma execute_preferences_step (user_id : string) (w : W) :
  exists result w',
    execute "preferences" "get_meeting_preferences"
            {[ "user_id" := VStr user_id; "ask_user" := VBool true ]} w
    = (Ret result, w').
Proof. eexists _, _. reflexivity. Qed.

Lemma execute_placeholder_step (user_id : string) (e : exn) (w : W) :
  date_fromisoformat "PLACEHOLDER" = Raise e ->
  execute "calendar" "get_free_slots"
          {[ "user_id" := VStr user_id; "other_user_id" := VStr "PLACEHOLDER";
             "date" := VStr "PLACEHOLDER" ]} w
  = (Ret (failure ("Error getting free slots: " +:+ exn_text e)), w).
Proof.
  intros Hparse.
  by apply (get_free_slots_unparsable_date _ W _ _ (VStr user_id)
              (VStr "PLACEHOLDER") "PLACEHOLDER").
Qed.

End BuiltPlan.

(** X21. In the second agent no plan of the builder gets its slots: the
    last step carries the date ["PLACEHOLDER"], which does not parse, so for
    every intent and user id the run of the built plan returns, and its
    [calendar_get_free_slots] result is the failure with the parser's
    message, whatever the directory and the calendars hold. *)
Theorem built_plan_never_finds_slots :
  forall (lib : PyLib) (W : Type) (services : Collaborators W)
         (e : exn) (intent : dict) (user_id : string) (w : W),
    date_fromisoformat "PLACEHOLDER" = Raise e ->
    exists plan results w',
      google_calendar_integration_openai._create_execution_plan intent user_id
      = Ret plan /\
      openai_agent._execute_plan execute plan w = (Ret results, w') /\
      results !! "calendar_get_free_slots"
      = Some (failure ("Error getting free slots: " +:+ exn_text e)).
Proof.
  intros lib W services e intent user_id w Hparse.
  unfold google_calendar_integration_openai._create_execution_plan, build_plan,
         openai_agent._execute_plan.
  cbn [rbind app].
  destruct (bool_decide (is_Some (intent !! "ask_preferences"))
            && truthy (dict_get intent "ask_preferences" VNone));
    destruct (intent !! "contact_name") as [name|]; cbn [app].
  - destruct (execute_find_contact_step name w) as (r1 & w1 & H1).
    destruct (execute_preferences_step user_id w1) as (r2 & w2 & H2).
    eexists _, _, _. split; [reflexivity|].
    cbn [openai_agent.execute_steps api action params].
    rewrite H1, H2, (execute_placeholder_step user_id e _ Hparse).
    split; [reflexivity|]. apply lookup_insert_eq.
  - destruct (execute_preferences_step user_id w) as (r2 & w2 & H2).
    eexists _, _, _. split; [reflexivity|].
    cbn [openai_agent.execute_steps api action params].
    rewrite H2, (execute_placeholder_step user_id e _ Hparse).
    split; [reflexivity|]. apply lookup_insert_eq.
  - destruct (execute_find_contact_step name w) as (r1 & w1 & H1).
    eexists _, _, _. split; [reflexivity|].
    cbn [openai_agent.execute_steps api action params].
    rewrite H1, (execute_placeholder_step user_id e _ Hparse).
    split; [reflexivity|]. apply lookup_insert_eq.
  - eexists _, _, _. split; [reflexivity|].
    cbn [openai_agent.execute_steps api action params].
    rewrite (execute_placeholder_step user_id e _ Hparse).
    split; [reflexivity|]. apply lookup_insert_eq.
Qed.

Lemma built_plan_never_finds_slots_witness :
  exists plan results w',
    google_calendar_integration_openai._create_execution_plan
      {[ "action" := VStr "book_meeting"; "contact_name" := VStr "John" ]} "primary"
    = Ret plan /\
    openai_agent._execute_plan execute plan office = (Ret results, w') /\
    results !! "calendar_get_free_slots"
    = Some (failure ("Error getting free slots: "
                     +:+ exn_text (Exn ValueError
                                     "Invalid isoformat string: 'PLACEHOLDER'"))).
Proof.
  apply (built_plan_never_finds_slots plain_lib script scripted
           (Exn ValueError "Invalid isoformat string: 'PLACEHOLDER'")
           {[ "action" := VStr "book_meeting"; "contact_name" := VStr "John" ]}
           "primary" office).
  reflexivity.
Defined.

(** ** The entry point of [meeting_booking_agent.py] *)

(** X22. [process_user_prompt] returns for no prompt: when the LLM call
    raises, that exception reaches the caller; when it answers, whatever
    the answer, the plan builder's [AttributeError] does. The worlds show
    that the LLM is the only service called. *)
Theorem process_user_prompt_always_raises :
  forall (W : Type) (services : Collaborators W) (prompt user_id : string) (w : W),
    process_user_prompt prompt user_id w
    = match chat_completion ("Analyze this prompt: " +:+ prompt
                             +:+ ". Extract intent and details.") w with
      | (Ret content, w') =>
          (Raise (Exn AttributeError
                      "'method_descriptor' object has no attribute 'today'"), w')
      | (Raise e, w') => (Raise e, w')
      end.
Proof.
  intros W services prompt user_id w.
  unfold process_user_prompt, _parse_intent_with_llm, mbind.
  by destruct (chat_completion _ w) as [[content|e] w'].
Qed.
